(** * Hotel booking dashboard (app.py): shallow embedding and properties

    The application is a Streamlit script over a PostgreSQL database.  Each
    page is a function of the data frames it has read and of the widget
    values of the current run; its effects are the statements it sends
    through [get_db] and the elements it puts on the screen.

    Layout: the definitions translated from app.py come first, the lemmas
    and theorems about them follow. *)

From Stdlib Require Import ZArith NArith QArith List Ascii String Bool Lia.
From Stdlib Require Import Permutation.
From Stdlib Require Import SpecFloat.
Import ListNotations.

Open Scope Z_scope.

(* ================================================================= *)
(** ** Values the script handles *)

(** [datetime.date], by its proleptic Gregorian ordinal ([date.toordinal()]);
    [(d2 - d1).days] is the difference of the ordinals and [d + timedelta(days=n)]
    adds [n]. *)
Definition date := Z.

Definition days_between (d_out d_in : date) : Z := d_out - d_in.
Definition plus_days (d : date) (n : Z) : date := d + n.

(** A parameter of a SQL statement ([%s] placeholders of psycopg2). *)
Inductive value :=
| VInt (n : Z)
| VStr (s : string)
| VDate (d : date).

(** Python exceptions.  [except Exception] catches the instances of
    [Exception]; [KeyboardInterrupt], [SystemExit] and Streamlit's script
    control exceptions derive from [BaseException] only. *)
Inductive exn_class := ExceptionClass | BaseExceptionOnly.

Record exn := mkExn { exn_kind : exn_class; exn_text : string }.

Definition is_Exception (e : exn) : bool :=
  match exn_kind e with
  | ExceptionClass => true
  | BaseExceptionOnly => false
  end.

Inductive result (A : Type) :=
| Ok (a : A)
| Raise (e : exn).
Arguments Ok {A} a.
Arguments Raise {A} e.

(* ================================================================= *)
(** ** Statements that may raise, over a state *)

Section StateAndExceptions.
Context {S : Type}.

Definition St (A : Type) : Type := S -> S * result A.

Definition ret {A} (a : A) : St A := fun s => (s, Ok a).
Definition raise {A} (e : exn) : St A := fun s => (s, Raise e).
Definition bind {A B} (m : St A) (k : A -> St B) : St B :=
  fun s => match m s with
           | (s', Ok a) => k a s'
           | (s', Raise e) => (s', Raise e)
           end.

(** [try: m  except Exception as e: h e] *)
Definition try_except {A} (m : St A) (h : exn -> St A) : St A :=
  fun s => match m s with
           | (s', Ok a) => (s', Ok a)
           | (s', Raise e) => if is_Exception e then h e s' else (s', Raise e)
           end.

(** [try: m  finally: fin] *)
Definition try_finally {A} (m : St A) (fin : St unit) : St A :=
  fun s => match m s with
           | (s', r) => match fin s' with
                        | (s'', Ok _) => (s'', r)
                        | (s'', Raise e) => (s'', Raise e)
                        end
           end.

End StateAndExceptions.
Arguments St S A : clear implicits.

Declare Scope st_scope.
Delimit Scope st_scope with st.
Notation "x <- m ;; k" := (bind m (fun x => k))
  (at level 61, m at next level, right associativity) : st_scope.
Notation "m ;;; k" := (bind m (fun _ => k))
  (at level 61, right associativity) : st_scope.

(* ================================================================= *)
(** ** The database server, as psycopg2 shows it *)

(** What the script cannot see: the contents of the database, the stored
    procedures and views, and the failures of the server. *)
Class Database := {
  DB : Type;
  Frame : Type;
  (** [psycopg2.connect] may raise *)
  connect_error : DB -> option exn;
  (** [cur.execute(sql, params)] inside the open transaction; the working
      state may have changed even when the statement raises *)
  cursor_execute : string -> list value -> DB -> DB * result unit;
  (** [pd.read_sql(sql, conn, params=params)] *)
  read_sql : string -> list value -> DB -> DB * result Frame;
  (** [conn.commit()] may raise (deferred constraints, lost connection) *)
  commit_error : DB -> option exn
}.

(** The calls a connection has received. *)
Inductive conn_call :=
| CExecute (sql : string) (params : list value)
| CReadSql (sql : string) (params : list value)
| CCommit
| CRollback
| CClose.

Section Connection.
Context {D : Database}.
Local Open Scope st_scope.

(** A psycopg2 connection: the state committed on the server, the state
    of the open transaction, and the calls made so far. *)
Record connection := mkConn {
  committed : DB;
  working : DB;
  closed : bool;
  calls : list conn_call
}.

(** Code running with a connection in hand. *)
Definition M (A : Type) : Type := St connection A.

Definition logged (k : conn_call) (c : connection) : connection :=
  mkConn (committed c) (working c) (closed c) (calls c ++ [k]).

(** [conn.commit()] *)
Definition commit : M unit :=
  fun c => let c := logged CCommit c in
           match commit_error (working c) with
           | Some e => (c, Raise e)
           | None => (mkConn (working c) (working c) (closed c) (calls c), Ok tt)
           end.

(** [conn.rollback()] *)
Definition rollback : M unit :=
  fun c => let c := logged CRollback c in
           (mkConn (committed c) (committed c) (closed c) (calls c), Ok tt).

(** [conn.close()]: what was not committed is discarded. *)
Definition close : M unit :=
  fun c => let c := logged CClose c in
           (mkConn (committed c) (committed c) true (calls c), Ok tt).

(** A statement run inside the transaction. *)
Definition in_tx {A} (k : conn_call) (op : DB -> DB * result A) : M A :=
  fun c => let c := logged k c in
           match op (working c) with
           | (w, r) => (mkConn (committed c) w (closed c) (calls c), r)
           end.

(** [psycopg2.connect] *)
Definition connect (srv : DB) : result connection :=
  match connect_error srv with
  | Some e => Raise e
  | None => Ok (mkConn srv srv false [])
  end.

(** [with get_db() as conn: body]
<<
    conn = psycopg2.connect
    try:
        yield conn
        conn.commit()
    except Exception:
        conn.rollback()
        raise
    finally:
        conn.close()
>>
    The result is the connection as it is left ([None] when [connect]
    raised) and what the [with] statement returns or raises. *)
Definition get_db {A} (body : M A) (srv : DB) : option connection * result A :=
  match connect srv with
  | Raise e => (None, Raise e)
  | Ok conn =>
      match try_finally
              (try_except
                 (a <- body ;; commit ;;; ret a)
                 (fun e => rollback ;;; raise e))
              close conn
      with
      | (conn', r) => (Some conn', r)
      end
  end.

(** [run_query(sql, params)] *)
Definition run_query (sql : string) (params : list value) (srv : DB)
  : option connection * result Frame :=
  get_db (in_tx (CReadSql sql params) (read_sql sql params)) srv.

(** [run_procedure(sql, params)]: [cur = conn.cursor(); cur.execute(sql, params)] *)
Definition run_procedure (sql : string) (params : list value) (srv : DB)
  : option connection * result unit :=
  get_db (in_tx (CExecute sql params) (cursor_execute sql params)) srv.

(** The server after a [with get_db()] block. *)
Definition server_after (srv : DB) (oc : option connection) : DB :=
  match oc with
  | Some c => committed c
  | None => srv
  end.

Definition calls_of (oc : option connection) : list conn_call :=
  match oc with
  | Some c => calls c
  | None => []
  end.

End Connection.

(* ================================================================= *)
(** ** Numbers *)

(** Python's [float] is IEEE 754 binary64: 53 bits of precision, maximal
    exponent 1024, results rounded to nearest, ties to even. *)
Definition float := spec_float.

(** [float(n)] for an [int] (and the cast of an [int64]). *)
Definition float_of_int (n : Z) : float := binary_normalize 53 1024 n 0 false.

(** [x * y] on floats. *)
Definition float_mul (x y : float) : float := SFmul 53 1024 x y.

(** [x / y] on floats. *)
Definition float_div (x y : float) : float := SFdiv 53 1024 x y.

(** [x + y] on floats. *)
Definition float_add (x y : float) : float := SFadd 53 1024 x y.

(** [float(Decimal)], which is what [coerce_float] makes of a NUMERIC
    value: the double nearest to [units / 10^places], for a value with
    [places] decimals given in units of the last one. *)
Definition float_of_decimal (units : Z) (places : nat) : float :=
  let ten := Z.to_pos (10 ^ Z.of_nat places) in
  match units with
  | Z0 => S754_zero false
  | Zpos u => SFdiv 53 1024 (S754_finite false u 0) (S754_finite false ten 0)
  | Zneg u => SFdiv 53 1024 (S754_finite true u 0) (S754_finite false ten 0)
  end.

(** The rational a float stands for; none for infinities and NaN. *)
Definition float_value (f : float) : option Q :=
  match f with
  | S754_zero _ => Some 0%Q
  | S754_finite s m e =>
      let sm := cond_Zopp s (Zpos m) in
      Some (match e with
            | Zneg p => Qmake sm (2 ^ p)
            | _ => inject_Z (sm * 2 ^ e)
            end)
  | _ => None
  end.

(** The float [m * 2^(53 - size m)] with exponent [size m - 53]: the
    normal form of the integer [m] when it has at most 53 bits. *)
Definition float_exact (s : bool) (z : positive) : float :=
  S754_finite s (Z.to_pos (Zpos z * 2 ^ (53 - Zpos (Pos.size z))))
    (Zpos (Pos.size z) - 53).

(** A numeric cell of a data frame, as [pd.read_sql] delivers it: an
    [int64] for an integer column, a [float64] for a NUMERIC one
    ([coerce_float] is on by default). *)
Inductive number :=
| NInt (n : Z)
| NFloat (f : float).

(** [float(x)] on such a cell. *)
Definition to_float (x : number) : float :=
  match x with
  | NInt n => float_of_int n
  | NFloat f => f
  end.

(** The number such a cell stands for. *)
Definition number_value (x : number) : option Q :=
  match x with
  | NInt n => Some (inject_Z n)
  | NFloat f => float_value f
  end.

(** The dates [datetime.date] can hold: [date.min] to [date.max]. *)
Definition valid_date (d : date) : Prop := 1 <= d <= 3652059.

(* ================================================================= *)
(** ** The page: what is shown, what is sent *)

Definition is_empty (s : string) : bool :=
  match s with
  | EmptyString => true
  | String _ _ => false
  end.

(** [cell == literal] on a column that may hold [None]. *)
Definition cell_eqb (cell : option string) (lit : string) : bool :=
  match cell with
  | Some s => String.eqb s lit
  | None => false
  end.

(** The elements the properties speak of. *)
Inductive element :=
| st_error (msg : string)
| st_success (msg : string)
| st_info (msg : string)
(** [st.metric("Предварительная стоимость", f"{cost:,.0f} ₽", f"{nights} ночей")] *)
| st_metric_cost (cost : float) (nights : Z).

(** [st.selectbox(label, options)]: the option the user has chosen, the
    first one by default, [None] when there is none. *)
Definition selectbox {A} (options : list A) (choice : nat) : option A :=
  match options with
  | [] => None
  | x :: _ => Some (nth choice options x)
  end.

Definition IndexError : exn :=
  mkExn ExceptionClass "index 0 is out of bounds for axis 0 with size 0".

Definition KeyError (k : string) : exn := mkExn ExceptionClass k.

(** [st.rerun()] stops the script with an exception that is not an
    [Exception]. *)
Definition RerunException : exn := mkExn BaseExceptionOnly "RerunException".

Section Script.
Context {D : Database}.
Local Open Scope st_scope.

(** The server, the calls its connections have received, the screen. *)
Record world := mkWorld {
  server : DB;
  sent : list conn_call;
  screen : list element
}.

Definition show (e : element) : St world unit :=
  fun w => (mkWorld (server w) (sent w) (screen w ++ [e]), Ok tt).

Definition st_rerun : St world unit := raise RerunException.

(** [run_procedure(sql, params)] from a page. *)
Definition call_procedure (sql : string) (params : list value) : St world unit :=
  fun w => match run_procedure sql params (server w) with
           | (oc, r) =>
               (mkWorld (server_after (server w) oc) (sent w ++ calls_of oc) (screen w), r)
           end.

(** The server takes the statement: the connection is made, the
    statement runs and the commit goes through. *)
Definition accepted (sql : string) (params : list value) (srv db' : DB) : Prop :=
  connect_error srv = None /\
  cursor_execute sql params srv = (db', Ok tt) /\
  commit_error db' = None.

(** Every statement that [m] has executed on the server satisfies [Q]. *)
Definition sends {A} (Q : string -> list value -> Prop) (m : St world A) : Prop :=
  forall w, exists extra,
    sent (fst (m w)) = sent w ++ extra /\
    forall s p, In (CExecute s p) extra -> Q s p.

(** Every value that [m] returns satisfies [R]. *)
Definition returns {A} (R : A -> Prop) (m : St world A) : Prop :=
  forall w a, snd (m w) = Ok a -> R a.

(** [frame.iloc[0]], [frame[col].values[0]] *)
Definition first_row {A} (rows : list A) : St world A :=
  match rows with
  | [] => raise IndexError
  | x :: _ => ret x
  end.

End Script.

(* ================================================================= *)
(** ** Page "book": a new booking *)

Module Book.

(** A row of [SELECT room_id, room_number, type_name, price_per_night,
    status FROM room_status_view]. *)
Record room := mkRoom {
  room_id : Z;
  room_number : Z;
  type_name : string;
  price_per_night : number;
  status : option string
}.

(** A row of [SELECT guest_id, full_name FROM guests ORDER BY full_name]. *)
Record guest := mkGuest {
  guest_id : Z;
  full_name : string
}.

Definition make_booking_sql : string := "CALL make_booking(%s, %s, %s, %s)".

Definition dates_error : string := "Дата выезда должна быть позже даты заезда!".

Definition date_in_label : string := "Дата заезда".
Definition date_out_label : string := "Дата выезда".
Definition booked_message : string := "🎉 Бронирование успешно оформлено!".

(** The preview of the cost (lines 276-279):
<<
    if date_out > date_in:
        nights = (date_out - date_in).days
        cost   = nights * float(room_row["price_per_night"])
>>
    [None] when nothing is shown. *)
Definition cost_preview (date_in date_out : date) (price : number)
  : option (Z * float) :=
  if date_out >? date_in then
    let nights := days_between date_out date_in in
    let cost := float_mul (float_of_int nights) (to_float price) in
    Some (nights, cost)
  else None.

Section WithServer.
Context {D : Database}.
Local Open Scope st_scope.

(** [guests_df[guests_df["full_name"] == selected_guest]["guest_id"].values[0]] *)
Definition guest_id_of (guests_df : list guest) (selected_guest : option string)
  : St world Z :=
  first_row
    (map guest_id
       (filter (fun g => match selected_guest with
                         | Some n => String.eqb (full_name g) n
                         | None => false
                         end) guests_df)).

(** The body of [with st.form("booking_form")], the widgets read. *)
Definition booking_form (guests_df : list guest) (room_row : room) (r_id : Z)
    (selected_guest : option string) (date_in date_out : date) (submit : bool)
  : St world unit :=
  match cost_preview date_in date_out (price_per_night room_row) with
  | Some (nights, cost) => show (st_metric_cost cost nights)
  | None => ret tt
  end ;;;
  if submit then
    if date_out <=? date_in then
      show (st_error dates_error)
    else
      try_except
        (g_id <- guest_id_of guests_df selected_guest ;;
         call_procedure make_booking_sql
           [VInt g_id; VInt r_id; VDate date_in; VDate date_out] ;;;
         show (st_success booked_message) ;;;
         st_rerun)
        (fun e => show (st_error ("Ошибка: " ++ exn_text e)%string))
  else ret tt.

(** The page, from the frames it has read.  [date_input label value
    min_value] is what the date widget returns in this run; the lists of
    the room and of its busy periods only show data and are left out. *)
Definition booking_page (date_input : string -> date -> date -> date)
    (today : date) (rooms_df : list room) (guests_df : list guest)
    (room_choice guest_choice : nat) (submit : bool)
  : St world unit :=
  let selected_room_no := selectbox (map room_number rooms_df) room_choice in
  room_row <- first_row
                (filter (fun r => match selected_room_no with
                                  | Some n => room_number r =? n
                                  | None => false
                                  end) rooms_df) ;;
  let r_id := room_id room_row in
  let selected_guest := selectbox (map full_name guests_df) guest_choice in
  let date_in := date_input date_in_label today today in
  let date_out := date_input date_out_label (plus_days today 1) (plus_days today 1) in
  booking_form guests_df room_row r_id selected_guest date_in date_out submit.

End WithServer.

(** A date widget that keeps what the user picked when the calendar
    allows it, and the default otherwise. *)
Definition picked_date (pick_in pick_out : date) (label : string)
    (value min_value : date) : date :=
  let pick := if String.eqb label date_in_label then pick_in else pick_out in
  if min_value <=? pick then pick else value.

Definition room_101 : room :=
  mkRoom 1 101 "Стандарт" (NInt 2000) (Some "Свободен"%string).

Definition guests_example : list guest :=
  [mkGuest 1 "Ivan Petrov"; mkGuest 2 "Olga Sidorova"].

(** 1000.20 as a [float64]: the double nearest to it. *)
Definition price_1000_20 : float :=
  S754_finite false 8797852240812442 (-43).

End Book.

(* ================================================================= *)
(** ** Page "guest": registration *)

Module Guest.

Definition insert_guest_sql : string :=
  "INSERT INTO guests (full_name, passport, phone) VALUES (%s, %s, %s)".

Definition required_error : string := "ФИО и паспорт обязательны!".

Section WithServer.
Context {D : Database}.
Local Open Scope st_scope.

(** The body of [with st.form("guest_form")] (lines 310-326). *)
Definition guest_form (name passport phone : string) (submit : bool)
  : St world unit :=
  if submit then
    if is_empty name || is_empty passport then
      show (st_error required_error)
    else
      try_except
        (call_procedure insert_guest_sql [VStr name; VStr passport; VStr phone] ;;;
         show (st_success ("Гость **" ++ name ++ "** успешно зарегистрирован!")%string))
        (fun e => show (st_error ("Ошибка: " ++ exn_text e)%string))
  else ret tt.

End WithServer.

End Guest.

(* ================================================================= *)
(** ** Page "bookings": the list and the cancellation *)

Module Bookings.

(** A row of the listing (lines 344-352). *)
Record row := mkRow {
  booking_id : Z;
  guest : string;
  room_number : Z;
  check_in : date;
  check_out : date;
  total_cost : Z;
  status : option string
}.

Definition cancel_sql : string := "CALL cancel_booking(%s)".
Definition nothing_to_cancel : string := "Нет активных бронирований для отмены.".
Definition cancelled_message : string := "Бронирование отменено.".

(** A Python [dict] from labels to booking ids: keys in insertion order,
    a key set again keeps its place and takes the new value. *)
Definition dict := list (string * Z).

Fixpoint dict_set (k : string) (v : Z) (d : dict) : dict :=
  match d with
  | [] => [(k, v)]
  | (k', v') :: d' =>
      if String.eqb k k' then (k, v) :: d' else (k', v') :: dict_set k v d'
  end.

Fixpoint dict_get (k : string) (d : dict) : option Z :=
  match d with
  | [] => None
  | (k', v') :: d' => if String.eqb k k' then Some v' else dict_get k d'
  end.

Definition keys (d : dict) : list string := map fst d.

(** [{label(row): row["booking_id"] for _, row in active_df.iterrows()}];
    [label] is the f-string of line 369. *)
Definition booking_options (label : row -> string) (active_df : list row) : dict :=
  fold_left (fun d r => dict_set (label r) (booking_id r) d) active_df [].

Section WithServer.
Context {D : Database}.
Local Open Scope st_scope.

(** [booking_options[selected_label]] *)
Definition getitem (d : dict) (k : option string) : St world Z :=
  match k with
  | Some key => match dict_get key d with
                | Some v => ret v
                | None => raise (KeyError key)
                end
  | None => raise (KeyError "None")
  end.

(** The cancellation section (lines 363-379). *)
Definition cancel_section (label : row -> string) (df : list row)
    (choice : nat) (button : bool) : St world unit :=
  let active_df := filter (fun r => cell_eqb (status r) "active") df in
  match active_df with
  | [] => show (st_info nothing_to_cancel)
  | _ :: _ =>
      let options := booking_options label active_df in
      let selected_label := selectbox (keys options) choice in
      if button then
        try_except
          (b <- getitem options selected_label ;;
           call_procedure cancel_sql [VInt b] ;;;
           show (st_success cancelled_message) ;;;
           st_rerun)
          (fun e => show (st_error ("Ошибка: " ++ exn_text e)%string))
      else ret tt
  end.

End WithServer.

Definition label_example (r : row) : string :=
  ("#" ++ guest r)%string.

Definition listing_example : list row :=
  [mkRow 7 "Ivan Petrov" 101 739000 739003 6000 (Some "active"%string);
   mkRow 8 "Olga Sidorova" 102 739001 739002 2500 (Some "cancelled"%string)].

End Bookings.

(* ================================================================= *)
(** ** Page "dashboard": occupancy and revenue *)

Module Dashboard.

(** The tables the revenue is read from, as the database holds them.
    The amount [total_cost] is exact there: an INTEGER, or a NUMERIC
    with a fixed number of decimals, given in units of the last one
    (600030 for 6000.30 in a NUMERIC(10,2) column).  Every booking has
    its amount: no [total_cost] is NULL. *)
Record booking := mkBooking {
  booking_id : Z;
  guest_id : Z;
  b_room_id : Z;
  check_in : date;
  check_out : date;
  total_cost : Z;
  status : option string
}.

Record room := mkRoom {
  room_id : Z;
  room_number : Z;
  r_type_id : Z
}.

Record room_type := mkRoomType {
  type_id : Z;
  type_name : string
}.

(** The type of the column [total_cost]. *)
Inductive sql_type :=
| SqlInteger
| SqlNumeric (places : nat).

(** The cell [pd.read_sql] makes of an amount: an [int64] of an INTEGER,
    a [float64] of a NUMERIC. *)
Definition cell_of (ty : sql_type) (units : Z) : number :=
  match ty with
  | SqlInteger => NInt units
  | SqlNumeric places => NFloat (float_of_decimal units places)
  end.

(** [boolean_series.sum()] *)
Fixpoint sum_mask (mask : list bool) : Z :=
  match mask with
  | [] => 0
  | b :: m => (if b then 1 else 0) + sum_mask m
  end.

(** The exact sum of integers: SUM in the database, and the sum of an
    [int64] column before it wraps. *)
Fixpoint sum (xs : list Z) : Z :=
  match xs with
  | [] => 0
  | x :: r => x + sum r
  end.

(** [frame.loc[mask]] *)
Fixpoint loc {A} (mask : list bool) (rows : list A) : list A :=
  match mask, rows with
  | b :: m, x :: r => if b then x :: loc m r else loc m r
  | _, _ => []
  end.

(** [series.sum()] on a [float64] column adds the values one addition at
    a time, each rounded, in an order that numpy chooses (in blocks, and
    pairwise for long columns): a [plan] is such an expression, over the
    values and the zero a reduction may start from. *)
Inductive plan :=
| Zero
| Leaf (x : float)
| Add (l r : plan).

Fixpoint eval (p : plan) : float :=
  match p with
  | Zero => S754_zero false
  | Leaf x => x
  | Add l r => float_add (eval l) (eval r)
  end.

Fixpoint leaves (p : plan) : list float :=
  match p with
  | Zero => []
  | Leaf x => [x]
  | Add l r => leaves l ++ leaves r
  end.

(** The plainest order: from zero, one value after the other. *)
Definition sequential (x : float) (rest : list float) : plan :=
  fold_left (fun p y => Add p (Leaf y)) (x :: rest) Zero.

Definition is_int (x : number) : bool :=
  match x with
  | NInt _ => true
  | NFloat _ => false
  end.

Definition int_of (x : number) : Z :=
  match x with
  | NInt n => n
  | NFloat _ => 0
  end.

(** Arithmetic on [int64] wraps around. *)
Definition wrap64 (z : Z) : Z := (z + 2 ^ 63) mod 2 ^ 64 - 2 ^ 63.

(** [column.loc[mask].sum()]: [selected] are the cells of [column] the
    mask keeps.  A column of integers is [int64] and its sum an [int64];
    otherwise the column is [float64] and the sum follows [order], the
    sum of no value being [0.0]. *)
Definition series_sum (order : float -> list float -> plan)
    (column selected : list number) : number :=
  if forallb is_int column
  then NInt (wrap64 (sum (map int_of selected)))
  else NFloat (match map to_float selected with
               | [] => S754_zero false
               | x :: rest => eval (order x rest)
               end).

Definition occupied_label : string := "Занят".
Definition free_label : string := "Свободен".

(** The metrics (lines 144-151); [rooms_df] is the [status] column of
    [room_status_view], [bookings_df] the columns [status], [total_cost]
    of [bookings]. *)
Definition total_rooms (rooms_df : list (option string)) : Z :=
  Z.of_nat (List.length rooms_df).

Definition occupied_rooms (rooms_df : list (option string)) : Z :=
  sum_mask (map (fun st => cell_eqb st occupied_label) rooms_df).

Definition free_rooms (rooms_df : list (option string)) : Z :=
  total_rooms rooms_df - occupied_rooms rooms_df.

Definition bookings_df (ty : sql_type) (bookings : list booking)
  : list (option string * number) :=
  map (fun b => (status b, cell_of ty (total_cost b))) bookings.

Definition active_bookings (df : list (option string * number)) : Z :=
  sum_mask (map (fun r => cell_eqb (fst r) "active") df).

(** [bookings_df.loc[bookings_df["status"] == "active", "total_cost"].sum()] *)
Definition revenue (order : float -> list float -> plan)
    (df : list (option string * number)) : number :=
  series_sum order (map snd df)
    (map snd (loc (map (fun r => cell_eqb (fst r) "active") df) df)).

(** The query of lines 175-182, as the server answers it:
<<
    SELECT rt.type_name, SUM(b.total_cost)
    FROM bookings b
    JOIN rooms r ON b.room_id = r.room_id
    JOIN room_types rt ON r.type_id = rt.type_id
    WHERE b.status = 'active'
    GROUP BY rt.type_name
>> *)
Definition joined (bookings : list booking) (rooms : list room)
    (room_types : list room_type) : list (booking * room * room_type) :=
  flat_map (fun b =>
    flat_map (fun r =>
      if b_room_id b =? room_id r then
        flat_map (fun rt =>
          if r_type_id r =? type_id rt then [(b, r, rt)] else [])
          room_types
      else [])
      rooms)
    bookings.

Definition where_active (rows : list (booking * room * room_type))
  : list (booking * room * room_type) :=
  filter (fun x => cell_eqb (status (fst (fst x))) "active") rows.

Definition group_sum (rows : list (booking * room * room_type)) (name : string) : Z :=
  sum (map (fun x => total_cost (fst (fst x)))
         (filter (fun x => String.eqb (type_name (snd x)) name) rows)).

Definition revenue_query (bookings : list booking) (rooms : list room)
    (room_types : list room_type) : list (string * Z) :=
  let rows := where_active (joined bookings rooms room_types) in
  map (fun name => (name, group_sum rows name))
    (nodup string_dec (map (fun x => type_name (snd x)) rows)).

(** [rev_df]: the frame [run_query] makes of the answer; the sums have
    the type of the column (a [bigint] for INTEGER). *)
Definition rev_df (ty : sql_type) (bookings : list booking) (rooms : list room)
    (room_types : list room_type) : list (string * number) :=
  map (fun row => (fst row, cell_of ty (snd row)))
    (revenue_query bookings rooms room_types).

(** What the figures are meant to be: the total cost of the active
    bookings, and of those in a room of a given type. *)
Fixpoint active_total (bookings : list booking) : Z :=
  match bookings with
  | [] => 0
  | b :: bs =>
      match status b with
      | Some s => if String.eqb s "active" then total_cost b + active_total bs
                  else active_total bs
      | None => active_total bs
      end
  end.

(** The total cost of the active bookings of the rooms of one room
    type, which is the grouping the specification names. *)
Definition room_type_total (bookings : list booking) (rooms : list room)
    (rt : room_type) : Z :=
  sum (map total_cost
         (filter (fun b =>
                    cell_eqb (status b) "active" &&
                    existsb (fun r => (b_room_id b =? room_id r) &&
                                      (r_type_id r =? type_id rt)) rooms)
            bookings)).

(** In how many ways the join reaches a room type called [name] from
    the booking [b]: once when the keys are unique and the type has
    that name. *)
Definition matches (b : booking) (rooms : list room) (room_types : list room_type)
    (name : string) : Z :=
  sum (map (fun r =>
         sum (map (fun rt =>
                if (b_room_id b =? room_id r) && (r_type_id r =? type_id rt)
                   && String.eqb (type_name rt) name
                then 1 else 0) room_types)) rooms).

(** The number of rows the join makes of the booking [b]: one when its
    room and the type of that room exist and are unique. *)
Definition join_rows (b : booking) (rooms : list room) (room_types : list room_type)
  : Z :=
  sum (map (fun r =>
         sum (map (fun rt =>
                if (b_room_id b =? room_id r) && (r_type_id r =? type_id rt)
                then 1 else 0) room_types)) rooms).

Fixpoint type_total (bookings : list booking) (rooms : list room)
    (room_types : list room_type) (name : string) : Z :=
  match bookings with
  | [] => 0
  | b :: bs =>
      (if cell_eqb (status b) "active"
       then total_cost b * matches b rooms room_types name else 0)
      + type_total bs rooms room_types name
  end.

(** The ledger of the scenario: one active booking and a cancelled one
    in room 101, a standard room. *)
Definition bookings_example : list booking :=
  [mkBooking 7 1 1 739000 739003 6000 (Some "active"%string);
   mkBooking 8 2 1 739010 739011 2000 (Some "cancelled"%string)].

Definition rooms_example : list room := [mkRoom 1 101 1; mkRoom 2 201 2].

Definition room_types_example : list room_type :=
  [mkRoomType 1 "Стандарт"; mkRoomType 2 "Люкс"].

(** A ledger in a NUMERIC(10,2) column: 6000.00 and 4500.00 active,
    2000.00 cancelled. *)
Definition ledger_example : list booking :=
  [mkBooking 7 1 1 739000 739003 600000 (Some "active"%string);
   mkBooking 8 2 1 739010 739011 200000 (Some "cancelled"%string);
   mkBooking 9 3 2 739020 739021 450000 (Some "active"%string)].

(** Amounts with cents: 1000.10, 6000.30 and 1000.10, all active. *)
Definition cents_example : list booking :=
  [mkBooking 1 1 1 739000 739001 100010 (Some "active"%string);
   mkBooking 2 2 2 739000 739006 600030 (Some "active"%string);
   mkBooking 3 3 1 739002 739003 100010 (Some "active"%string)].

(** Two room types that carry the same name. *)
Definition namesake_types : list room_type :=
  [mkRoomType 1 "Стандарт"; mkRoomType 2 "Стандарт"].

Definition rooms_with_status (label : string) (rooms_df : list (option string)) : Z :=
  Z.of_nat (List.length (filter (fun st => cell_eqb st label) rooms_df)).

End Dashboard.

(* ================================================================= *)
(** ** Page "history": the search by guest name *)

Module History.

(** A Python [str]: its code points. *)
Definition str := list N.

(** The code points of an ASCII literal. *)
Fixpoint of_string (s : string) : str :=
  match s with
  | EmptyString => []
  | String a r => N_of_ascii a :: of_string r
  end.

(** A row of [booking_history_view] (lines 392-398). *)
Record entry := mkEntry {
  id : Z;
  booking_id : Z;
  guest : option str;
  room_number : Z;
  check_in : date;
  check_out : date;
  total_cost : Z;
  booking_status : option string;
  action : option string
}.

(** The characters [re] gives a meaning to: [. ^ $ * + ? { } [ ] \ | ( )]. *)
Definition special : list N :=
  [46; 94; 36; 42; 43; 63; 123; 125; 91; 93; 92; 124; 40; 41]%N.

Definition is_special (c : N) : bool := existsb (N.eqb c) special.

(** The patterns followed here: ordinary characters and the dot. *)
Inductive atom :=
| Lit (c : N)
| Dot.

Inductive compiled :=
| Pattern (atoms : list atom)
(** [re.error] *)
| ReError (e : exn)
(** a pattern with other operators, not followed here *)
| Beyond.

Fixpoint parse (pat : str) : option (list atom) :=
  match pat with
  | [] => Some []
  | c :: r =>
      match parse r with
      | None => None
      | Some atoms =>
          if N.eqb c 46 then Some (Dot :: atoms)
          else if is_special c then None
          else Some (Lit c :: atoms)
      end
  end.

Definition nothing_to_repeat : exn :=
  mkExn ExceptionClass "nothing to repeat at position 0".

(** [re.compile(pat, flags=re.IGNORECASE)]: a pattern that starts with a
    repetition operator is refused. *)
Definition re_compile (pat : str) : compiled :=
  match pat with
  | c :: _ =>
      if N.eqb c 42 || N.eqb c 43 || N.eqb c 63 then ReError nothing_to_repeat
      else match parse pat with
           | Some atoms => Pattern atoms
           | None => Beyond
           end
  | [] => Pattern []
  end.

Section Matching.
(** The lower case of a character, as [re.IGNORECASE] takes it. *)
Variable lower : N -> N.

Definition atom_matches (a : atom) (c : N) : bool :=
  match a with
  | Lit x => N.eqb (lower x) (lower c)
  | Dot => negb (N.eqb c 10)
  end.

(** The pattern matches at the start of [s]. *)
Fixpoint match_here (atoms : list atom) (s : str) : bool :=
  match atoms, s with
  | [], _ => true
  | a :: atoms', c :: s' => atom_matches a c && match_here atoms' s'
  | _ :: _, [] => false
  end.

(** [regex.search(s) is not None] *)
Fixpoint re_search (atoms : list atom) (s : str) : bool :=
  match_here atoms s ||
  match s with
  | [] => false
  | _ :: s' => re_search atoms s'
  end.

(** [series.str.contains(pat, case=False, na=False)]: [regex] is left
    to its default, [True]. *)
Definition str_contains (atoms : list atom) (cell : option str) : bool :=
  match cell with
  | Some s => re_search atoms s
  | None => false
  end.

(** Lines 401-405:
<<
    if search:
        df = df[df["гость"].str.contains(search, case=False, na=False)]
>>
    The rows shown, or the exception raised; [None] for a pattern that is
    not followed here. *)
Definition history_search (search : str) (df : list entry)
  : option (result (list entry)) :=
  match search with
  | [] => Some (Ok df)
  | _ :: _ =>
      match re_compile search with
      | Pattern atoms => Some (Ok (filter (fun e => str_contains atoms (guest e)) df))
      | ReError e => Some (Raise e)
      | Beyond => None
      end
  end.

(** [search] occurs in [s], letter case apart. *)
Definition ci_substring (search s : str) : Prop :=
  exists pre post, map lower s = pre ++ map lower search ++ post.

End Matching.

(** Lines 401-405 for any pattern that [re] compiles.  A compiled
    pattern is a function of the cell: [found s] tells whether
    [regex.search(s)] finds a match in the name [s].  A missing name
    counts as not found ([na=False]), and an empty search leaves the
    frame as it is. *)
Definition history_table (search : str) (found : str -> bool) (df : list entry)
  : list entry :=
  match search with
  | [] => df
  | _ :: _ =>
      filter (fun e => match guest e with
                       | Some s => found s
                       | None => false
                       end) df
  end.

(** Lower case on ASCII letters. *)
Definition ascii_lower (c : N) : N :=
  if (N.leb 65 c && N.leb c 90)%bool then (c + 32)%N else c.

Definition ivan : entry :=
  mkEntry 1 7 (Some (of_string "Ivan")) 101 739000 739003 6000
    (Some "active"%string) (Some "created"%string).

(** An entry of the view without a guest name. *)
Definition anonymous : entry :=
  mkEntry 2 8 None 102 739001 739002 2500
    (Some "cancelled"%string) (Some "cancelled"%string).

End History.

(* ================================================================= *)
(** ** Names for the look-ups of the booking page *)

(** [guests_df["full_name"] == selected_guest], row by row. *)
Definition has_name (selected_guest : option string) (g : Book.guest) : bool :=
  match selected_guest with
  | Some n => String.eqb (Book.full_name g) n
  | None => false
  end.

(** [rooms_df["room_number"] == selected_room_no], row by row. *)
Definition has_number (selected_room_no : option Z) (r : Book.room) : bool :=
  match selected_room_no with
  | Some n => Book.room_number r =? n
  | None => false
  end.

(** [f"Ошибка: {e}"] *)
Definition error_text (e : exn) : string := ("Ошибка: " ++ exn_text e)%string.

(* ================================================================= *)
(** ** The sidebar: the menu and the page it opens *)

Module Menu.

Inductive page := dashboard | rooms | book | guest | bookings | history.

(** [menu_options] (lines 119-126), in the order of the dict. *)
Definition menu_options : list (string * string) :=
  [("📊 Дашборд", "dashboard");
   ("🛏️ Обзор номеров", "rooms");
   ("📅 Забронировать", "book");
   ("👤 Регистрация гостя", "guest");
   ("📋 Бронирования", "bookings");
   ("🕓 История", "history")]%string.

(** [menu_options[choice_label]]; [None] stands for [KeyError]. *)
Fixpoint lookup (label : string) (d : list (string * string)) : option string :=
  match d with
  | [] => None
  | (k, v) :: d' => if String.eqb label k then Some v else lookup label d'
  end.

(** [choice_label = st.selectbox("Раздел", list(menu_options.keys()))],
    [choice = menu_options[choice_label]]. *)
Definition choice (picked : nat) : option string :=
  match selectbox (map fst menu_options) picked with
  | Some choice_label => lookup choice_label menu_options
  | None => None
  end.

(** The chain [if choice == "dashboard": ... elif choice == "rooms": ...];
    [None] when no branch is taken. *)
Definition branch (choice : string) : option page :=
  if String.eqb choice "dashboard" then Some dashboard
  else if String.eqb choice "rooms" then Some rooms
  else if String.eqb choice "book" then Some book
  else if String.eqb choice "guest" then Some guest
  else if String.eqb choice "bookings" then Some bookings
  else if String.eqb choice "history" then Some history
  else None.

Definition opened (picked : nat) : option page :=
  match choice picked with
  | Some c => branch c
  | None => None
  end.

End Menu.

(* ================================================================= *)
(** ** Page "rooms": the list of rooms *)

Module Rooms.

(** A row of [SELECT room_number, type_name, price_per_night, status,
    free_from FROM room_status_view]. *)
Record row := mkRow {
  room_number : Z;
  type_name : string;
  price_per_night : number;
  status : option string;
  free_from : option date
}.

Definition quote : string := String (ascii_of_nat 34) EmptyString.

(** [status_badge(status)] (lines 109-111); a missing status is printed
    as [None] by the f-string. *)
Definition status_badge (status : option string) : string :=
  let cls : string :=
    if cell_eqb status "Свободен" then "badge-free"%string
    else "badge-occupied"%string in
  ("<span class=" ++ quote ++ cls ++ quote ++ ">"
   ++ match status with Some s => s | None => "None" end
   ++ "</span>")%string.

Definition all_label : string := "Все".

(** The choices of [st.radio("Фильтр по статусу", ...)]. *)
Definition filter_choices : list string := ["Все"; "Свободен"; "Занят"]%string.

(** Lines 203-204:
<<
    if filter_status != "Все":
        df = df[df["status"] == filter_status]
>> *)
Definition filtered (filter_status : string) (df : list row) : list row :=
  if negb (String.eqb filter_status all_label)
  then filter (fun r => cell_eqb (status r) filter_status) df
  else df.

(** A cell of the column [free_from] once [fillna] has run. *)
Inductive free_from_cell :=
| FreeFrom (d : date)
| Dash.

(** A row of the table on the screen. *)
Record shown := mkShown {
  s_room_number : Z;
  s_type_name : string;
  s_price : string;
  s_status : option string;
  s_free_from : free_from_cell
}.

(** Lines 207-221: the column [status_html] is added, the price is
    printed by [fmt] (the f-string of line 208), the missing [free_from]
    become a dash, and five columns are shown. *)
Definition rooms_table (fmt : number -> string) (filter_status : string)
    (df : list row) : list shown :=
  let df := filtered filter_status df in
  let with_html := map (fun r => (r, status_badge (status r))) df in
  map (fun rh =>
         let r := fst rh in
         mkShown (room_number r) (type_name r) (fmt (price_per_night r)) (status r)
           (match free_from r with
            | Some d => FreeFrom d
            | None => Dash
            end))
    with_html.

End Rooms.

(* ================================================================= *)
(** ** Page "bookings": the filter of the listing *)

Module Listing.

Definition all_label : string := "Все".

(** [df["статус"] == "active"], row by row. *)
Definition active (r : Bookings.row) : bool :=
  cell_eqb (Bookings.status r) "active".

(** The choices of [st.radio("Статус", ...)]. *)
Definition filter_choices : list string := ["active"; "cancelled"; "Все"]%string.

(** Line 356:
    [view_df = df if status_filter == "Все" else df[df["статус"] == status_filter]] *)
Definition view_df (status_filter : string) (df : list Bookings.row)
  : list Bookings.row :=
  if String.eqb status_filter all_label then df
  else filter (fun r => cell_eqb (Bookings.status r) status_filter) df.

End Listing.

(* ================================================================= *)
(** ** Page "history": the figures under the table *)

Module HistoryStats.

(** [len(df)] (line 411) *)
Definition total_actions (df : list History.entry) : Z :=
  Z.of_nat (List.length df).

(** [(df["действие"] == "cancelled").sum()] (line 414) *)
Definition cancelled_actions (df : list History.entry) : Z :=
  Dashboard.sum_mask (map (fun e => cell_eqb (History.action e) "cancelled") df).

End HistoryStats.

(* ================================================================= *)
(** ** A server to run the script against

    A journal of the statements the server has accepted.  A statement
    without parameters is refused after it has been written down, so that
    a failing statement leaves work behind in its transaction. *)

Definition journal := list (string * list value).

Definition journal_execute (sql : string) (params : list value) (j : journal)
  : journal * result unit :=
  match params with
  | [] => (j ++ [(sql, params)], Raise (mkExn ExceptionClass "syntax error"))
  | _ => (j ++ [(sql, params)], Ok tt)
  end.

Definition journal_read (sql : string) (params : list value) (j : journal)
  : journal * result journal := (j, Ok j).

Definition JournalServer : Database := {|
  DB := journal;
  Frame := journal;
  connect_error := fun _ => None;
  cursor_execute := journal_execute;
  read_sql := journal_read;
  commit_error := fun _ => None
|}.

(** The script starts on an empty journal, with an empty screen. *)
Definition fresh : @world JournalServer :=
  @mkWorld JournalServer (@nil (string * list value)) [] [].

Definition empty_journal : @DB JournalServer := @nil (string * list value).

(** A server whose procedures refuse every call, after they have
    written it down. *)
Definition refusal : exn := mkExn ExceptionClass "room is not available".

Definition refusing_execute (sql : string) (params : list value) (j : journal)
  : journal * result unit :=
  (j ++ [(sql, params)], Raise refusal).

Definition RefusingServer : Database := {|
  DB := journal;
  Frame := journal;
  connect_error := fun _ => None;
  cursor_execute := refusing_execute;
  read_sql := journal_read;
  commit_error := fun _ => None
|}.

Definition fresh_refusing : @world RefusingServer :=
  @mkWorld RefusingServer (@nil (string * list value)) [] [].

(* ================================================================= *)
(** * Properties *)

Section ConnectionFacts.
Context {D : Database}.
Local Open Scope st_scope.

Lemma get_db_connected {A} (body : M A) (srv : DB) :
  connect_error srv = None ->
  get_db body srv =
    match try_finally
            (try_except
               (a <- body ;; commit ;;; ret a)
               (fun e => rollback ;;; raise e))
            close (mkConn srv srv false [])
    with
    | (conn', r) => (Some conn', r)
    end.
Proof.
  intros Hc. unfold get_db, connect. rewrite Hc. reflexivity.
Qed.

Lemma get_db_first_call {A} (k : conn_call)
    (op : DB -> DB * result A) (srv : DB) :
  connect_error srv = None ->
  exists c rest, fst (get_db (in_tx k op) srv) = Some c /\ calls c = k :: rest.
Proof.
  intros Hc. rewrite (get_db_connected _ _ Hc).
  unfold try_finally, try_except, bind, in_tx, commit, rollback, close,
    raise, ret, logged; cbn.
  destruct (op srv) as [w [a | e]]; cbn.
  - destruct (commit_error w) as [e |]; cbn.
    + destruct (is_Exception e); cbn; eexists; eexists; split; reflexivity.
    + eexists; eexists; split; reflexivity.
  - destruct (is_Exception e); cbn; eexists; eexists; split; reflexivity.
Qed.

(** C2.  Every operation run inside [with get_db()] on an established
    connection: when it raises, the exception propagates after the
    transaction has been rolled back (the committed state is the one
    before the block, no uncommitted work remains; [rollback()] is called
    for instances of [Exception], [close()] discards the work otherwise);
    when it returns, [commit()] is called and the work of the transaction
    becomes the committed state (a failing [commit()] is handled as a
    raising operation); the connection is closed in every case. *)
Theorem get_db_commit_or_rollback {A} (k : conn_call)
    (op : DB -> DB * result A) (srv : DB) :
  connect_error srv = None ->
  exists c : connection,
    fst (get_db (in_tx k op) srv) = Some c /\
    closed c = true /\
    working c = committed c /\
    match op srv with
    | (_, Raise e) =>
        snd (get_db (in_tx k op) srv) = Raise e /\
        committed c = srv /\
        calls c = (if is_Exception e then [k; CRollback; CClose] else [k; CClose])
    | (w, Ok a) =>
        match commit_error w with
        | None =>
            snd (get_db (in_tx k op) srv) = Ok a /\
            committed c = w /\
            calls c = [k; CCommit; CClose]
        | Some e =>
            snd (get_db (in_tx k op) srv) = Raise e /\
            committed c = srv /\
            calls c = (if is_Exception e then [k; CCommit; CRollback; CClose]
                       else [k; CCommit; CClose])
        end
    end.
Proof.
  intros Hc. rewrite (get_db_connected _ _ Hc).
  unfold try_finally, try_except, bind, in_tx, commit, rollback, close,
    raise, ret, logged; cbn.
  destruct (op srv) as [w [a | e]]; cbn.
  - destruct (commit_error w) as [e |]; cbn.
    + destruct (is_Exception e); cbn; eexists; repeat split; reflexivity.
    + eexists; repeat split; reflexivity.
  - destruct (is_Exception e); cbn; eexists; repeat split; reflexivity.
Qed.

End ConnectionFacts.

Lemma get_db_commit_or_rollback_witness :
  let srv : @DB JournalServer := @nil (string * list value) in
  exists c : @connection JournalServer,
    fst (@run_procedure JournalServer "CALL cancel_booking(%s)" [] srv) = Some c /\
    closed c = true /\
    working c = committed c /\
    snd (@run_procedure JournalServer "CALL cancel_booking(%s)" [] srv)
      = Raise (mkExn ExceptionClass "syntax error") /\
    committed c = srv /\
    calls c = [CExecute "CALL cancel_booking(%s)" []; CRollback; CClose].
Proof.
  exact (@get_db_commit_or_rollback JournalServer unit
           (CExecute "CALL cancel_booking(%s)" [])
           (journal_execute "CALL cancel_booking(%s)" [])
           (@nil (string * list value)) eq_refl).
Defined.

(** A statement the journal accepts is committed. *)
Lemma run_procedure_commit_example :
  @run_procedure JournalServer "CALL cancel_booking(%s)" [VInt 7]
    (@nil (string * list value))
  = (Some (@mkConn JournalServer
             [("CALL cancel_booking(%s)"%string, [VInt 7])]
             [("CALL cancel_booking(%s)"%string, [VInt 7])]
             true
             [CExecute "CALL cancel_booking(%s)" [VInt 7]; CCommit; CClose]),
     Ok tt).
Proof. reflexivity. Qed.

(* ----------------------------------------------------------------- *)
(** ** Integers in binary64 *)

Lemma digits2_pos_size (p : positive) : digits2_pos p = Pos.size p.
Proof. induction p; simpl; congruence. Qed.

Lemma size_bounds (p : positive) :
  2 ^ (Zpos (Pos.size p) - 1) <= Zpos p < 2 ^ Zpos (Pos.size p).
Proof.
  split.
  - pose proof (Pos.size_le p) as H.
    assert (Hs : 2 ^ Zpos (Pos.size p) = 2 * 2 ^ (Zpos (Pos.size p) - 1)).
    { rewrite <- Z.pow_succ_r by lia. f_equal. lia. }
    assert (H' : 2 ^ Zpos (Pos.size p) <= Zpos (p~0)).
    { rewrite <- Pos2Z.inj_pow. apply Pos2Z.pos_le_pos. exact H. }
    lia.
  - pose proof (Pos.size_gt p) as H.
    rewrite <- Pos2Z.inj_pow. apply Pos2Z.pos_lt_pos. exact H.
Qed.

Lemma size_unique (p : positive) (d : Z) :
  2 ^ (d - 1) <= Zpos p < 2 ^ d -> Zpos (Pos.size p) = d.
Proof.
  intros [Hl Hu]. destruct (size_bounds p) as [Hl' Hu'].
  assert (Hd : 0 < d).
  { destruct (Z_lt_le_dec 0 d) as [|Hle]; [assumption|].
    exfalso. destruct (Z.eq_dec d 0) as [->|]; [simpl in Hu; lia|].
    rewrite Z.pow_neg_r in Hu by lia. lia. }
  destruct (Z.lt_trichotomy (Zpos (Pos.size p)) d) as [Hlt | [Heq | Hgt]]; [|assumption|].
  - exfalso. assert (2 ^ Zpos (Pos.size p) <= 2 ^ (d - 1)) by (apply Z.pow_le_mono_r; lia). lia.
  - exfalso. assert (2 ^ d <= 2 ^ (Zpos (Pos.size p) - 1)) by (apply Z.pow_le_mono_r; lia). lia.
Qed.

Lemma size_shift (p : positive) (t : Z) :
  0 <= t -> Zdigits2 (Zpos p * 2 ^ t) = Zpos (Pos.size p) + t.
Proof.
  intros Ht. assert (Hp : 0 < 2 ^ t) by (apply Z.pow_pos_nonneg; lia).
  assert (Hpos : 0 < Zpos p * 2 ^ t) by lia.
  destruct (Zpos p * 2 ^ t) as [|q|q] eqn:E; try lia.
  cbn [Zdigits2]. rewrite digits2_pos_size. apply size_unique. rewrite <- E.
  destruct (size_bounds p) as [Hl Hu].
  replace (Zpos (Pos.size p) + t - 1) with ((Zpos (Pos.size p) - 1) + t) by lia.
  rewrite !Z.pow_add_r by lia. split; nia.
Qed.

Lemma iter_pos_shr_1 (n : positive) :
  forall m : Z, 0 <= m ->
  iter_pos shr_1 n (Build_shr_record (2 ^ Zpos n * m) false false)
  = Build_shr_record m false false.
Proof.
  assert (H1 : forall m, 0 <= m ->
            shr_1 (Build_shr_record (2 * m) false false) = Build_shr_record m false false).
  { intros [|p|p] Hm; try lia; reflexivity. }
  induction n as [n IH | n IH |]; intros m Hm.
  - assert (Hp : 0 < 2 ^ Zpos n) by (apply Z.pow_pos_nonneg; lia).
    replace (2 ^ Zpos n~1 * m) with (2 * (2 ^ Zpos n * (2 ^ Zpos n * m))).
    + cbn [iter_pos]. rewrite H1 by nia. rewrite IH by nia. apply IH; lia.
    + rewrite (Pos2Z.inj_xI n). rewrite Z.pow_add_r, Z.pow_mul_r by lia.
      change (2 ^ 2) with 4. change (2 ^ 1) with 2.
      replace (4 ^ Zpos n) with (2 ^ Zpos n * 2 ^ Zpos n).
      * ring.
      * rewrite <- Z.pow_add_r by lia. rewrite <- (Z.pow_mul_r 2 2) by lia. f_equal. lia.
  - assert (Hp : 0 < 2 ^ Zpos n) by (apply Z.pow_pos_nonneg; lia).
    replace (2 ^ Zpos n~0 * m) with (2 ^ Zpos n * (2 ^ Zpos n * m)).
    + cbn [iter_pos]. rewrite IH by nia. apply IH; lia.
    + rewrite (Pos2Z.inj_xO n). replace (2 * Zpos n) with (Zpos n + Zpos n) by lia.
      rewrite Z.pow_add_r by lia. ring.
  - cbn [iter_pos]. change (2 ^ 1) with 2. apply H1; lia.
Qed.

Lemma shr_exact (m e n : Z) :
  0 <= m -> 0 <= n ->
  shr (Build_shr_record (2 ^ n * m) false false) e n
  = (Build_shr_record m false false, e + n).
Proof.
  intros Hm Hn. destruct n as [|p|p]; try lia.
  - change (2 ^ 0) with 1. rewrite Z.mul_1_l, Z.add_0_r. reflexivity.
  - unfold shr. rewrite iter_pos_shr_1 by lia. reflexivity.
Qed.

Lemma binary_round_aux_exact (s : bool) (z : positive) (t : Z) :
  Zpos (Pos.size z) <= 53 ->
  53 - Zpos (Pos.size z) <= t ->
  binary_round_aux 53 1024 s (Zpos z * 2 ^ t) (- t) loc_Exact
  = S754_finite s (Z.to_pos (Zpos z * 2 ^ (53 - Zpos (Pos.size z))))
      (Zpos (Pos.size z) - 53).
Proof.
  intros Hd Ht. set (d := Zpos (Pos.size z)) in *.
  assert (Hd0 : 0 < d) by (unfold d; lia).
  assert (Hp : 0 < 2 ^ (53 - d)) by (apply Z.pow_pos_nonneg; lia).
  unfold binary_round_aux, shr_fexp.
  rewrite size_shift by lia. fold d.
  replace (fexp 53 1024 (d + t + - t)) with (d - 53) by (unfold fexp, emin; lia).
  cbn [shr_record_of_loc].
  replace (Zpos z * 2 ^ t) with (2 ^ (d - 53 - - t) * (Zpos z * 2 ^ (53 - d))).
  2:{ rewrite Z.mul_comm, <- Z.mul_assoc, <- Z.pow_add_r by lia. do 2 f_equal. lia. }
  rewrite shr_exact by lia.
  cbn [shr_m loc_of_shr_record round_nearest_even].
  rewrite size_shift by lia. fold d.
  replace (fexp 53 1024 (d + (53 - d) + (- t + (d - 53 - - t)))) with (d - 53)
    by (unfold fexp, emin; lia).
  replace (d - 53 - (- t + (d - 53 - - t))) with 0 by lia.
  cbn [shr shr_m].
  destruct (Zpos z * 2 ^ (53 - d)) as [|q|q] eqn:E; try lia.
  replace (- t + (d - 53 - - t)) with (d - 53) by lia.
  replace (d - 53 <=? 1024 - 53) with true by (symmetry; apply Z.leb_le; lia).
  reflexivity.
Qed.

Lemma size_le_53 (z : positive) : Zpos z < 2 ^ 53 -> Zpos (Pos.size z) <= 53.
Proof.
  intros Hz. destruct (size_bounds z) as [Hl _].
  destruct (Z_le_gt_dec (Zpos (Pos.size z)) 53) as [|Hgt]; [assumption|].
  exfalso. assert (2 ^ 53 <= 2 ^ (Zpos (Pos.size z) - 1)) by (apply Z.pow_le_mono_r; lia).
  lia.
Qed.

Lemma iter_xO_pow (z k : positive) : Zpos (Pos.iter xO z k) = Zpos z * 2 ^ Zpos k.
Proof.
  induction k as [|k IH] using Pos.peano_ind.
  - cbn [Pos.iter]. change (2 ^ 1) with 2. lia.
  - rewrite Pos.iter_succ, Pos2Z.inj_succ, Z.pow_succ_r by lia.
    rewrite (Pos2Z.inj_xO (Pos.iter xO z k)), IH. ring.
Qed.

Lemma binary_round_int (s : bool) (z : positive) :
  Zpos z < 2 ^ 53 -> binary_round 53 1024 s z 0 = float_exact s z.
Proof.
  intros Hz. pose proof (size_le_53 z Hz) as Hd.
  unfold binary_round, shl_align. rewrite digits2_pos_size.
  set (d := Zpos (Pos.size z)) in *.
  replace (fexp 53 1024 (d + 0) - 0) with (d - 53) by (unfold fexp, emin; lia).
  destruct (d - 53) as [|k|k] eqn:E; try lia.
  - pose proof (binary_round_aux_exact s z 0) as H. fold d in H.
    change (- 0) with 0 in H. rewrite Z.pow_0_r, Z.mul_1_r in H.
    rewrite H by lia. reflexivity.
  - pose proof (binary_round_aux_exact s z (Zpos k)) as H. fold d in H.
    rewrite iter_xO_pow.
    replace (fexp 53 1024 (d + 0)) with (- Zpos k) by (unfold fexp, emin; lia).
    rewrite H by lia. reflexivity.
Qed.

Lemma float_of_int_pos (z : positive) :
  Zpos z < 2 ^ 53 -> float_of_int (Zpos z) = float_exact false z.
Proof. apply binary_round_int. Qed.

Lemma float_of_int_neg (z : positive) :
  Zpos z < 2 ^ 53 -> float_of_int (Zneg z) = float_exact true z.
Proof. apply binary_round_int. Qed.

Lemma size_mul_lower (a b : positive) :
  Zpos (Pos.size a) + Zpos (Pos.size b) - 1 <= Zpos (Pos.size (a * b)).
Proof.
  destruct (size_bounds a) as [Ha _], (size_bounds b) as [Hb _],
    (size_bounds (a * b)) as [_ Hab].
  set (da := Zpos (Pos.size a)) in *. set (db := Zpos (Pos.size b)) in *.
  set (dab := Zpos (Pos.size (a * b))) in *.
  assert (H : 2 ^ (da + db - 2) < 2 ^ dab).
  { replace (da + db - 2) with ((da - 1) + (db - 1)) by lia.
    rewrite Z.pow_add_r by (unfold da, db; lia).
    rewrite Pos2Z.inj_mul in Hab.
    assert (0 < 2 ^ (da - 1)) by (apply Z.pow_pos_nonneg; unfold da; lia).
    assert (0 < 2 ^ (db - 1)) by (apply Z.pow_pos_nonneg; unfold db; lia).
    nia. }
  apply Z.pow_lt_mono_r_iff in H; unfold dab in *; lia.
Qed.

Lemma float_mul_exact (s1 s2 : bool) (a b : positive) :
  Zpos (a * b) < 2 ^ 53 ->
  float_mul (float_exact s1 a) (float_exact s2 b) = float_exact (xorb s1 s2) (a * b).
Proof.
  intros Hab. pose proof (size_le_53 _ Hab) as Hd.
  pose proof (size_mul_lower a b) as Hlow.
  assert (Ha : Zpos a < 2 ^ 53) by (rewrite Pos2Z.inj_mul in Hab; nia).
  assert (Hb : Zpos b < 2 ^ 53) by (rewrite Pos2Z.inj_mul in Hab; nia).
  pose proof (size_le_53 _ Ha) as Hda. pose proof (size_le_53 _ Hb) as Hdb.
  unfold float_mul, float_exact, SFmul.
  set (da := Zpos (Pos.size a)) in *. set (db := Zpos (Pos.size b)) in *.
  assert (Hpa : 0 < 2 ^ (53 - da)) by (apply Z.pow_pos_nonneg; lia).
  assert (Hpb : 0 < 2 ^ (53 - db)) by (apply Z.pow_pos_nonneg; lia).
  replace (Zpos (Z.to_pos (Zpos a * 2 ^ (53 - da)) * Z.to_pos (Zpos b * 2 ^ (53 - db))))
    with (Zpos (a * b) * 2 ^ (106 - da - db)).
  2:{ rewrite !Pos2Z.inj_mul, !Z2Pos.id by lia.
      replace (106 - da - db) with ((53 - da) + (53 - db)) by lia.
      rewrite Z.pow_add_r by lia. ring. }
  replace (da - 53 + (db - 53)) with (- (106 - da - db)) by lia.
  apply binary_round_aux_exact; unfold da, db in *; lia.
Qed.

Lemma float_mul_int (n k : Z) :
  0 < n < 2 ^ 53 -> Z.abs (n * k) < 2 ^ 53 ->
  float_mul (float_of_int n) (float_of_int k) = float_of_int (n * k).
Proof.
  intros Hn Hnk.
  destruct n as [|a|a]; try lia.
  assert (Ha : Zpos a < 2 ^ 53) by lia.
  destruct k as [|b|b].
  - rewrite float_of_int_pos, Z.mul_0_r by lia. reflexivity.
  - change (Zpos a * Zpos b) with (Zpos (a * b)) in *.
    rewrite !float_of_int_pos by nia. apply (float_mul_exact false false). lia.
  - change (Zpos a * Zneg b) with (Zneg (a * b)) in *.
    rewrite float_of_int_pos, !float_of_int_neg by nia.
    apply (float_mul_exact false true). lia.
Qed.

Lemma float_of_int_value (z : Z) :
  Z.abs z < 2 ^ 53 ->
  exists q, float_value (float_of_int z) = Some q /\ (q == inject_Z z)%Q.
Proof.
  intros Hz.
  assert (Hc : forall s p, Zpos p < 2 ^ 53 ->
            exists q, float_value (float_exact s p) = Some q /\
                      (q == inject_Z (cond_Zopp s (Zpos p)))%Q).
  { intros s p Hp. pose proof (size_le_53 p Hp) as Hd.
    unfold float_exact, float_value. eexists; split; [reflexivity|].
    assert (Hpw : 0 < 2 ^ (53 - Zpos (Pos.size p))) by (apply Z.pow_pos_nonneg; lia).
    destruct (Zpos (Pos.size p) - 53) as [|e|e] eqn:E; try lia.
    - replace (53 - Zpos (Pos.size p)) with 0 in * by lia.
      change (2 ^ 0) with 1. rewrite !Z.mul_1_r. destruct s; reflexivity.
    - replace (53 - Zpos (Pos.size p)) with (Zpos e) in * by lia.
      unfold Qeq; cbn [Qnum Qden inject_Z].
      rewrite Z.mul_1_r, Pos2Z.inj_pow.
      destruct s; cbn [cond_Zopp]; rewrite ?Z2Pos.id by lia; lia. }
  destruct z as [|p|p].
  - exists 0%Q. split; reflexivity.
  - rewrite float_of_int_pos by lia. apply (Hc false). lia.
  - rewrite float_of_int_neg by lia. apply (Hc true). lia.
Qed.

Lemma shl_align_fst (m : positive) (e e' : Z) :
  e' <= e -> Zpos (fst (shl_align m e e')) = Zpos m * 2 ^ (e - e').
Proof.
  intros H. unfold shl_align.
  destruct (e' - e) as [|d|d] eqn:E; try lia; cbn [fst].
  - replace (e - e') with 0 by lia. change (2 ^ 0) with 1. lia.
  - rewrite iter_xO_pow. f_equal. f_equal. lia.
Qed.

Lemma size_add_lower (a b : positive) :
  Zpos (Pos.size a) <= Zpos (Pos.size (a + b)).
Proof.
  destruct (size_bounds a) as [Ha _], (size_bounds (a + b)) as [_ Hab].
  rewrite Pos2Z.inj_add in Hab.
  assert (H : 2 ^ (Zpos (Pos.size a) - 1) < 2 ^ Zpos (Pos.size (a + b))) by lia.
  apply Z.pow_lt_mono_r_iff in H; lia.
Qed.

Lemma float_add_exact (a b : positive) :
  Zpos (a + b) < 2 ^ 53 ->
  float_add (float_exact false a) (float_exact false b) = float_exact false (a + b).
Proof.
  intros Hab.
  pose proof (size_le_53 _ Hab) as Hd.
  pose proof (size_add_lower a b) as Hla.
  pose proof (size_add_lower b a) as Hlb. rewrite (Pos.add_comm b a) in Hlb.
  assert (Ha : Zpos a < 2 ^ 53) by lia.
  assert (Hb : Zpos b < 2 ^ 53) by lia.
  pose proof (size_le_53 _ Ha) as Hda. pose proof (size_le_53 _ Hb) as Hdb.
  unfold float_add, float_exact, SFadd.
  set (da := Zpos (Pos.size a)) in *. set (db := Zpos (Pos.size b)) in *.
  set (dab := Zpos (Pos.size (a + b))) in *.
  assert (Hpa : 0 < 2 ^ (53 - da)) by (apply Z.pow_pos_nonneg; lia).
  assert (Hpb : 0 < 2 ^ (53 - db)) by (apply Z.pow_pos_nonneg; lia).
  set (ez := Z.min (da - 53) (db - 53)).
  cbv zeta. fold ez.
  rewrite !shl_align_fst by (unfold ez; lia).
  cbn [cond_Zopp]. rewrite !Z2Pos.id by lia.
  assert (Hez : 0 <= - ez) by (unfold ez, da, db; lia).
  assert (E : Zpos a * 2 ^ (53 - da) * 2 ^ (da - 53 - ez)
              + Zpos b * 2 ^ (53 - db) * 2 ^ (db - 53 - ez)
              = Zpos (a + b) * 2 ^ (- ez)).
  { rewrite <- !Z.mul_assoc, <- !Z.pow_add_r by (unfold ez; lia).
    replace (53 - da + (da - 53 - ez)) with (- ez) by lia.
    replace (53 - db + (db - 53 - ez)) with (- ez) by lia.
    rewrite Pos2Z.inj_add. ring. }
  rewrite E.
  assert (Hp : 0 < 2 ^ (- ez)) by (apply Z.pow_pos_nonneg; lia).
  destruct (Zpos (a + b) * 2 ^ (- ez)) as [|m|m] eqn:Em; try lia.
  unfold binary_normalize, binary_round.
  assert (Hdig : Zpos (digits2_pos m) = dab + - ez).
  { pose proof (size_shift (a + b) (- ez) Hez) as H. rewrite Em in H. exact H. }
  rewrite Hdig.
  replace (fexp 53 1024 (dab + - ez + ez)) with (dab - 53)
    by (unfold fexp, emin, dab; lia).
  unfold shl_align.
  destruct (dab - 53 - ez) as [|k|k] eqn:Ek; try (unfold ez in Ek; lia).
  - rewrite <- Em. replace ez with (- - ez) at 2 by lia.
    apply binary_round_aux_exact; fold dab; unfold ez in *; lia.
  - rewrite <- Em. replace ez with (- - ez) at 2 by lia.
    apply binary_round_aux_exact; fold dab; unfold ez in *; lia.
Qed.

Lemma float_add_int (a b : Z) :
  0 <= a -> 0 <= b -> a + b < 2 ^ 53 ->
  float_add (float_of_int a) (float_of_int b) = float_of_int (a + b).
Proof.
  intros Ha Hb Hab.
  destruct a as [|a|a]; try lia; destruct b as [|b|b]; try lia.
  - reflexivity.
  - rewrite Z.add_0_l. rewrite float_of_int_pos by lia. reflexivity.
  - rewrite Z.add_0_r. rewrite float_of_int_pos by lia. reflexivity.
  - change (Zpos a + Zpos b) with (Zpos (a + b)) in *.
    rewrite !float_of_int_pos by lia. apply float_add_exact. assumption.
Qed.

Lemma size_mul_upper (a b : positive) :
  Zpos (Pos.size (a * b)) <= Zpos (Pos.size a) + Zpos (Pos.size b).
Proof.
  destruct (size_bounds a) as [_ Ha], (size_bounds b) as [_ Hb],
    (size_bounds (a * b)) as [Hab _].
  set (da := Zpos (Pos.size a)) in *. set (db := Zpos (Pos.size b)) in *.
  set (dab := Zpos (Pos.size (a * b))) in *.
  assert (H : 2 ^ (dab - 1) < 2 ^ (da + db)).
  { rewrite Z.pow_add_r by (unfold da, db; lia).
    rewrite Pos2Z.inj_mul in Hab. nia. }
  apply Z.pow_lt_mono_r_iff in H; unfold da, db in *; lia.
Qed.

Lemma float_div_whole (s : bool) (k ten : positive) :
  Zpos k < 2 ^ 53 ->
  SFdiv 53 1024 (S754_finite s (k * ten) 0) (S754_finite false ten 0)
  = float_exact s k.
Proof.
  intros Hk. pose proof (size_le_53 k Hk) as Hdk.
  pose proof (size_mul_lower k ten) as Hlo.
  pose proof (size_mul_upper k ten) as Hup.
  unfold SFdiv, SFdiv_core_binary. cbn [Zdigits2].
  rewrite (digits2_pos_size ten), (digits2_pos_size (k * ten)).
  set (dk := Zpos (Pos.size k)) in *. set (dt := Zpos (Pos.size ten)) in *.
  set (du := Zpos (Pos.size (k * ten))) in *.
  assert (Hdk0 : 0 < dk) by (unfold dk; lia).
  replace (Z.min (fexp 53 1024 (du + 0 - (dt + 0))) (0 - 0)) with (du - dt - 53)
    by (unfold fexp, emin; lia).
  set (t := 53 - (du - dt)).
  replace (0 - 0 - (du - dt - 53)) with t by (unfold t; lia).
  assert (Ht : 0 <= t) by (unfold t; lia).
  assert (Hm : match t with
               | Zpos _ => Z.shiftl (Zpos (k * ten)) t
               | Z0 => Zpos (k * ten)
               | Zneg _ => 0
               end = Zpos k * 2 ^ t * Zpos ten).
  { destruct t as [|p|p] eqn:Et; try lia.
    rewrite Z.shiftl_mul_pow2 by lia. rewrite Pos2Z.inj_mul. ring. }
  rewrite Hm.
  assert (Hp : 0 <= Zpos k * 2 ^ t).
  { assert (0 < 2 ^ t) by (apply Z.pow_pos_nonneg; lia). lia. }
  pose proof (Z.div_mul (Zpos k * 2 ^ t) (Zpos ten)) as Hq.
  pose proof (Z.mod_mul (Zpos k * 2 ^ t) (Zpos ten)) as Hr.
  unfold Z.div in Hq. unfold Z.modulo in Hr.
  destruct (Z.div_eucl (Zpos k * 2 ^ t * Zpos ten) (Zpos ten)) as [q r].
  rewrite Hq, Hr by lia.
  replace (new_location (Zpos ten) 0) with loc_Exact
    by (unfold new_location; destruct (Z.even (Zpos ten)); reflexivity).
  rewrite xorb_false_r.
  replace (du - dt - 53) with (- t) by (unfold t; lia).
  apply binary_round_aux_exact; fold dk; unfold t; lia.
Qed.

Lemma float_of_decimal_whole (k : Z) (places : nat) :
  Z.abs k < 2 ^ 53 ->
  float_of_decimal (k * 10 ^ Z.of_nat places) places = float_of_int k.
Proof.
  intros Hk. unfold float_of_decimal.
  assert (HT : 0 < 10 ^ Z.of_nat places) by (apply Z.pow_pos_nonneg; lia).
  destruct (10 ^ Z.of_nat places) as [|ten|ten] eqn:E; try lia.
  cbn [Z.to_pos].
  destruct k as [|k|k].
  - reflexivity.
  - change (Zpos k * Zpos ten) with (Zpos (k * ten)). cbv iota.
    rewrite float_of_int_pos by lia. apply float_div_whole. lia.
  - change (Zneg k * Zpos ten) with (Zneg (k * ten)). cbv iota.
    rewrite float_of_int_neg by lia. apply float_div_whole. lia.
Qed.

(* ----------------------------------------------------------------- *)
(** ** The cost preview of the booking form *)

Lemma price_1000_20_is_nearest :
  Book.price_1000_20 = float_div (float_of_int 100020) (float_of_int 100).
Proof. vm_compute. reflexivity. Qed.

(** C1, as the spec states it, fails for a price that is not a whole
    number: at 1000.20 a night and three nights the form computes the
    double 3000.6000000000004, not three times the price. *)
Lemma cost_preview_fractional_price_counterexample :
  exists cost q p,
    Book.cost_preview 739000 739003 (NFloat Book.price_1000_20) = Some (3, cost) /\
    float_value cost = Some q /\
    float_value (to_float (NFloat Book.price_1000_20)) = Some p /\
    ~ (q == inject_Z 3 * p)%Q.
Proof.
  eexists; eexists; eexists.
  split; [vm_compute; reflexivity|].
  split; [vm_compute; reflexivity|].
  split; [vm_compute; reflexivity|].
  unfold Qeq; vm_compute; discriminate.
Qed.

(** A whole price: the product of the preview is exact. *)
Lemma cost_preview_exact (date_in date_out : date) (price : number) (k : Z) :
  valid_date date_in ->
  valid_date date_out ->
  date_out > date_in ->
  to_float price = float_of_int k ->
  Z.abs ((date_out - date_in) * k) < 2 ^ 53 ->
  exists cost q,
    Book.cost_preview date_in date_out price = Some (date_out - date_in, cost) /\
    float_value cost = Some q /\
    (q == inject_Z ((date_out - date_in) * k))%Q.
Proof.
  intros [Hi1 Hi2] [Ho1 Ho2] Hgt Hp Hk.
  unfold Book.cost_preview, days_between.
  assert (Hb : (date_out >? date_in) = true) by (apply Z.gtb_lt; lia).
  rewrite Hb, Hp.
  assert (Hn : 0 < date_out - date_in < 2 ^ 53).
  { split; [lia|]. assert (3652059 < 2 ^ 53) by reflexivity. lia. }
  rewrite (float_mul_int _ _ Hn Hk).
  destruct (float_of_int_value _ Hk) as [q [Hq1 Hq2]].
  exists (float_of_int ((date_out - date_in) * k)), q. auto.
Qed.

(* ----------------------------------------------------------------- *)
(** ** What a page sends through [run_procedure] *)

Section ScriptFacts.
Context {D : Database}.
Local Open Scope st_scope.

Lemma run_procedure_calls (sql : string) (params : list value) (srv : DB) :
  forall s p, In (CExecute s p) (calls_of (fst (run_procedure sql params srv))) ->
  s = sql /\ p = params.
Proof.
  intros s p. unfold run_procedure, get_db, connect.
  destruct (connect_error srv) as [e0 |]; cbn; [tauto|].
  unfold try_finally, try_except, bind, in_tx, commit, rollback, close,
    raise, ret, logged; cbn.
  destruct (cursor_execute sql params srv) as [w [[] | e]]; cbn.
  - destruct (commit_error w) as [e |]; cbn.
    + destruct (is_Exception e); cbn; intros H;
        repeat (destruct H as [H | H]; try discriminate; try contradiction);
        inversion H; auto.
    + intros H;
        repeat (destruct H as [H | H]; try discriminate; try contradiction);
        inversion H; auto.
  - destruct (is_Exception e); cbn; intros H;
      repeat (destruct H as [H | H]; try discriminate; try contradiction);
      inversion H; auto.
Qed.

Lemma run_procedure_connected (sql : string) (params : list value) (srv : DB) :
  connect_error srv = None ->
  exists rest, calls_of (fst (run_procedure sql params srv))
               = CExecute sql params :: rest.
Proof.
  intros Hc.
  destruct (get_db_first_call (CExecute sql params)
              (cursor_execute sql params) srv Hc) as [c [rest [H1 H2]]].
  unfold run_procedure. rewrite H1. cbn. eauto.
Qed.

Lemma run_procedure_accepted (sql : string) (params : list value) (srv db' : DB) :
  accepted sql params srv db' ->
  snd (run_procedure sql params srv) = Ok tt /\
  server_after srv (fst (run_procedure sql params srv)) = db' /\
  calls_of (fst (run_procedure sql params srv))
    = [CExecute sql params; CCommit; CClose].
Proof.
  intros [Hc [He Hm]]. unfold run_procedure, get_db, connect. rewrite Hc.
  unfold try_finally, try_except, bind, in_tx, commit, rollback, close,
    raise, ret, logged; cbn.
  rewrite He; cbn. rewrite Hm; cbn. auto.
Qed.

Lemma run_procedure_raises (sql : string) (params : list value) (srv : DB) (e : exn) :
  snd (run_procedure sql params srv) = Raise e ->
  server_after srv (fst (run_procedure sql params srv)) = srv.
Proof.
  unfold run_procedure, get_db, connect.
  destruct (connect_error srv) as [e0 |]; cbn; [reflexivity|].
  unfold try_finally, try_except, bind, in_tx, commit, rollback, close,
    raise, ret, logged; cbn.
  destruct (cursor_execute sql params srv) as [w [[] | e1]]; cbn.
  - destruct (commit_error w) as [e2 |]; cbn.
    + destruct (is_Exception e2); cbn; reflexivity.
    + discriminate.
  - destruct (is_Exception e1); cbn; reflexivity.
Qed.

(** A call of [run_procedure] from a page leaves the screen alone and
    adds to the calls sent no other statement than its own. *)
Lemma call_procedure_sent (sql : string) (params : list value) (w : world) :
  screen (fst (call_procedure sql params w)) = screen w /\
  exists extra,
    sent (fst (call_procedure sql params w)) = sent w ++ extra /\
    forall s p, In (CExecute s p) extra -> s = sql /\ p = params.
Proof.
  unfold call_procedure.
  pose proof (run_procedure_calls sql params (server w)) as H.
  destruct (run_procedure sql params (server w)) as [oc r]; cbn in *.
  split; [reflexivity|]. exists (calls_of oc). auto.
Qed.

Lemma sends_ret {A} Q (a : A) : sends Q (ret a).
Proof. intros w. exists []. cbn. rewrite app_nil_r. split; [reflexivity | contradiction]. Qed.

Lemma sends_raise {A} Q (e : exn) : sends Q (@raise world A e).
Proof. intros w. exists []. cbn. rewrite app_nil_r. split; [reflexivity | contradiction]. Qed.

Lemma sends_show Q (e : element) : sends Q (show e).
Proof. intros w. exists []. cbn. rewrite app_nil_r. split; [reflexivity | contradiction]. Qed.

Lemma sends_first_row {A} Q (rows : list A) : sends Q (first_row rows).
Proof. destruct rows; [apply sends_raise | apply sends_ret]. Qed.

Lemma sends_call Q (sql : string) (params : list value) :
  Q sql params -> sends Q (call_procedure sql params).
Proof.
  intros HQ w. destruct (call_procedure_sent sql params w) as [_ [extra [H1 H2]]].
  exists extra. split; [assumption|]. intros s p Hin.
  destruct (H2 s p Hin) as [-> ->]. assumption.
Qed.

Lemma sends_bind {A B} Q (R : A -> Prop) (m : St world A) (k : A -> St world B) :
  sends Q m -> returns R m -> (forall a, R a -> sends Q (k a)) -> sends Q (bind m k).
Proof.
  intros Hm HR Hk w. unfold bind.
  destruct (Hm w) as [x1 [E1 F1]]. specialize (HR w).
  destruct (m w) as [w1 [a | e]]; cbn in *.
  - destruct (Hk a (HR a eq_refl) w1) as [x2 [E2 F2]].
    exists (x1 ++ x2). rewrite E2, E1, app_assoc. split; [reflexivity|].
    intros s p Hin. apply in_app_or in Hin. destruct Hin; eauto.
  - exists x1. auto.
Qed.

Lemma sends_seq {A B} Q (m : St world A) (k : St world B) :
  sends Q m -> sends Q k -> sends Q (bind m (fun _ => k)).
Proof.
  intros Hm Hk. apply (sends_bind Q (fun _ => True)); auto.
  intros w a _. exact I.
Qed.

Lemma sends_try_except {A} Q (m : St world A) (h : exn -> St world A) :
  sends Q m -> (forall e, sends Q (h e)) -> sends Q (try_except m h).
Proof.
  intros Hm Hh w. unfold try_except.
  destruct (Hm w) as [x1 [E1 F1]].
  destruct (m w) as [w1 [a | e]]; cbn in *.
  - exists x1. auto.
  - destruct (is_Exception e).
    + destruct (Hh e w1) as [x2 [E2 F2]].
      exists (x1 ++ x2). rewrite E2, E1, app_assoc. split; [reflexivity|].
      intros s p Hin. apply in_app_or in Hin. destruct Hin; eauto.
    + exists x1. auto.
Qed.

Lemma returns_first_row {A} (rows : list A) :
  returns (fun a => In a rows) (@first_row D A rows).
Proof.
  intros w a. destruct rows as [| x r]; cbn; [discriminate|].
  intros H; inversion H; auto.
Qed.

(** A page that sends nothing leaves the calls as they were. *)
Lemma sends_nothing {A} (m : St world A) (w : world) :
  sends (fun _ _ => False) m ->
  forall s p, In (CExecute s p) (sent (fst (m w))) -> In (CExecute s p) (sent w).
Proof.
  intros H s p Hin. destruct (H w) as [extra [E F]]. rewrite E in Hin.
  apply in_app_or in Hin. destruct Hin as [|Hin]; [assumption|].
  destruct (F s p Hin).
Qed.

End ScriptFacts.

(* ----------------------------------------------------------------- *)
(** ** Registration of a guest *)

Section GuestFacts.
Context {D : Database}.
Local Open Scope st_scope.

(** C3.  A submitted registration form with an empty name or an empty
    passport shows the validation error and sends nothing to the server;
    with both filled in, [run_procedure] is called with the INSERT into
    [guests] and the name, the passport and the phone, and its outcome
    decides what is shown; on a server that takes the statement the
    record is committed and the success is shown. *)
Theorem guest_form_requires_name_and_passport
    (name passport phone : string) (w : world) :
  (name = EmptyString \/ passport = EmptyString ->
   Guest.guest_form name passport phone true w
   = (mkWorld (server w) (sent w) (screen w ++ [st_error Guest.required_error]),
      Ok tt))
  /\
  (name <> EmptyString -> passport <> EmptyString ->
   let params := [VStr name; VStr passport; VStr phone] in
   let w' := fst (Guest.guest_form name passport phone true w) in
   let call := run_procedure Guest.insert_guest_sql params (server w) in
   server w' = server_after (server w) (fst call) /\
   sent w' = sent w ++ calls_of (fst call) /\
   (connect_error (server w) = None ->
    exists rest,
      sent w' = sent w ++ CExecute Guest.insert_guest_sql params :: rest) /\
   (forall db', accepted Guest.insert_guest_sql params (server w) db' ->
      server w' = db' /\
      sent w' = sent w ++ [CExecute Guest.insert_guest_sql params; CCommit; CClose] /\
      exists msg, screen w' = screen w ++ [st_success msg])).
Proof.
  split.
  - intros [-> | ->]; unfold Guest.guest_form; cbn.
    + reflexivity.
    + rewrite orb_true_r. reflexivity.
  - intros Hn Hp params w' call. subst w' call.
    unfold Guest.guest_form.
    destruct name as [| a n]; [congruence|].
    destruct passport as [| b q]; [congruence|].
    cbn [is_empty orb].
    fold params.
    unfold try_except, bind, call_procedure, show.
    split; [|split; [|split]].
    + destruct (run_procedure Guest.insert_guest_sql params (server w))
        as [oc [[] | e]]; cbn; [reflexivity|].
      destruct (is_Exception e); reflexivity.
    + destruct (run_procedure Guest.insert_guest_sql params (server w))
        as [oc [[] | e]]; cbn; [reflexivity|].
      destruct (is_Exception e); reflexivity.
    + intros Hc.
      destruct (run_procedure_connected Guest.insert_guest_sql params (server w) Hc)
        as [rest Hrest].
      exists rest. rewrite <- Hrest.
      destruct (run_procedure Guest.insert_guest_sql params (server w))
        as [oc [[] | e]]; cbn; [reflexivity|].
      destruct (is_Exception e); reflexivity.
    + intros db' Hacc.
      destruct (run_procedure_accepted _ _ _ _ Hacc) as [Hr [Hs Hcalls]].
      destruct (run_procedure Guest.insert_guest_sql params (server w))
        as [oc r]; cbn in *.
      subst r. cbn. rewrite Hcalls. eauto.
Qed.

End GuestFacts.

Lemma guest_form_requires_name_and_passport_witness :
  let w := fresh in
  let phone := "+7 900 000-00-00"%string in
  let params := [VStr "Ivan Petrov"; VStr "4510 123456"; VStr phone] in
  @Guest.guest_form JournalServer EmptyString "4510 123456" phone true w
  = (mkWorld (server w) (sent w) (screen w ++ [st_error Guest.required_error]), Ok tt)
  /\
  server (fst (@Guest.guest_form JournalServer "Ivan Petrov" "4510 123456" phone true w))
  = [(Guest.insert_guest_sql, params)].
Proof.
  intros w phone params. split.
  - apply (proj1 (@guest_form_requires_name_and_passport JournalServer
                    EmptyString "4510 123456" phone w)).
    left; reflexivity.
  - apply (proj2 (@guest_form_requires_name_and_passport JournalServer
                    "Ivan Petrov" "4510 123456" phone w)).
    + discriminate.
    + discriminate.
    + repeat split.
Defined.

(* ----------------------------------------------------------------- *)
(** ** The booking form *)

Section BookFacts.
Context {D : Database}.
Local Open Scope st_scope.

Lemma guest_id_of_returns (guests_df : list Book.guest) (selected_guest : option string) :
  returns (fun g => exists row, In row guests_df /\ Book.guest_id row = g /\
                                selected_guest = Some (Book.full_name row))
    (Book.guest_id_of guests_df selected_guest).
Proof.
  intros w g Hg. apply returns_first_row in Hg.
  apply in_map_iff in Hg. destruct Hg as [row [Hid Hin]].
  apply filter_In in Hin. destruct Hin as [Hin Hname].
  exists row. repeat split; try assumption.
  destruct selected_guest as [n |]; [|discriminate].
  apply String.eqb_eq in Hname. congruence.
Qed.

(** The only statement the form executes is [make_booking], for a guest
    of the list with the selected name, the room of the page and the two
    dates of the widgets, after a submission with [date_out > date_in]. *)
Lemma booking_form_sends (guests_df : list Book.guest) (room_row : Book.room)
    (r_id : Z) (selected_guest : option string) (date_in date_out : date)
    (submit : bool) :
  sends (fun s p =>
           submit = true /\ date_out > date_in /\ s = Book.make_booking_sql /\
           exists row, In row guests_df /\
                       selected_guest = Some (Book.full_name row) /\
                       p = [VInt (Book.guest_id row); VInt r_id;
                            VDate date_in; VDate date_out])
    (Book.booking_form guests_df room_row r_id selected_guest date_in date_out submit).
Proof.
  unfold Book.booking_form. apply sends_seq.
  - destruct (Book.cost_preview _ _ _) as [[nights cost] |];
      [apply sends_show | apply sends_ret].
  - destruct submit; [|apply sends_ret].
    destruct (date_out <=? date_in) eqn:Hd; [apply sends_show|].
    apply Z.leb_gt in Hd.
    apply sends_try_except; [|intros e; apply sends_show].
    eapply sends_bind.
    + apply sends_first_row.
    + apply guest_id_of_returns.
    + intros g [row [Hin [Hid Hsel]]]. cbv beta.
      apply sends_seq; [|apply sends_seq; [apply sends_show | apply sends_raise]].
      apply sends_call. repeat split; try lia.
      exists row. subst g. auto.
Qed.

Lemma cost_preview_shown (date_in date_out : date) (price : number) :
  date_out > date_in ->
  exists cost, Book.cost_preview date_in date_out price
               = Some (date_out - date_in, cost).
Proof.
  intros H. unfold Book.cost_preview, days_between.
  assert (Hb : (date_out >? date_in) = true) by (apply Z.gtb_lt; lia).
  rewrite Hb. eauto.
Qed.

Lemma cost_preview_hidden (date_in date_out : date) (price : number) :
  date_out <= date_in -> Book.cost_preview date_in date_out price = None.
Proof.
  intros H. unfold Book.cost_preview.
  destruct (date_out >? date_in) eqn:E; [apply Z.gtb_lt in E; lia | reflexivity].
Qed.

(** What a submitted form with [date_out > date_in] does, case by case. *)
Lemma booking_form_submitted (guests_df : list Book.guest) (room_row : Book.room)
    (r_id : Z) (selected_guest : option string) (date_in date_out : date)
    (w : world) (cost : float) :
  date_out > date_in ->
  Book.cost_preview date_in date_out (Book.price_per_night room_row)
  = Some (date_out - date_in, cost) ->
  Book.booking_form guests_df room_row r_id selected_guest date_in date_out true w
  = let shown := screen w ++ [st_metric_cost cost (date_out - date_in)] in
    match filter (has_name selected_guest) guests_df with
    | [] => (mkWorld (server w) (sent w) (shown ++ [st_error (error_text IndexError)]),
             Ok tt)
    | g :: _ =>
        match run_procedure Book.make_booking_sql
                [VInt (Book.guest_id g); VInt r_id; VDate date_in; VDate date_out]
                (server w)
        with
        | (oc, Ok _) =>
            (mkWorld (server_after (server w) oc) (sent w ++ calls_of oc)
               (shown ++ [st_success Book.booked_message]),
             Raise RerunException)
        | (oc, Raise e) =>
            if is_Exception e
            then (mkWorld (server_after (server w) oc) (sent w ++ calls_of oc)
                    (shown ++ [st_error (error_text e)]), Ok tt)
            else (mkWorld (server_after (server w) oc) (sent w ++ calls_of oc) shown,
                  Raise e)
        end
    end.
Proof.
  intros Hgt Hc. unfold Book.booking_form. rewrite Hc.
  assert (Hl : (date_out <=? date_in) = false) by (apply Z.leb_gt; lia).
  rewrite Hl. unfold bind at 1. cbn [show].
  unfold try_except, bind, Book.guest_id_of.
  change (fun g : Book.guest =>
            match selected_guest with
            | Some n => String.eqb (Book.full_name g) n
            | None => false
            end) with (has_name selected_guest).
  destruct (filter (has_name selected_guest) guests_df) as [| g rest];
    cbn [map first_row raise ret is_Exception IndexError exn_kind show
         server sent screen fst snd].
  - reflexivity.
  - unfold call_procedure. cbn [server sent screen].
    destruct (run_procedure Book.make_booking_sql _ (server w)) as [oc [[] | e]];
      cbn [show st_rerun raise server sent screen RerunException is_Exception exn_kind].
    + reflexivity.
    + destruct (is_Exception e); reflexivity.
Qed.

(** On every run, submitted or not, the first element the form adds to
    the screen is the cost it has computed. *)
Lemma booking_form_shows_preview (guests_df : list Book.guest)
    (room_row : Book.room) (r_id : Z) (selected_guest : option string)
    (date_in date_out : date) (submit : bool) (w : world) (cost : float) :
  date_out > date_in ->
  Book.cost_preview date_in date_out (Book.price_per_night room_row)
  = Some (date_out - date_in, cost) ->
  exists rest,
    screen (fst (Book.booking_form guests_df room_row r_id selected_guest
                   date_in date_out submit w))
    = screen w ++ st_metric_cost cost (date_out - date_in) :: rest.
Proof.
  intros Hgt Hc. destruct submit.
  - rewrite (booking_form_submitted _ _ _ _ _ _ _ _ Hgt Hc). cbv zeta.
    destruct (filter (has_name selected_guest) guests_df) as [| g rest].
    + cbn [fst screen]. rewrite <- app_assoc. eexists; reflexivity.
    + destruct (run_procedure Book.make_booking_sql _ (server w)) as [oc [[] | e]].
      * cbn [fst screen]. rewrite <- app_assoc. eexists; reflexivity.
      * destruct (is_Exception e); cbn [fst screen].
        -- rewrite <- app_assoc. eexists; reflexivity.
        -- exists []. reflexivity.
  - unfold Book.booking_form, bind. rewrite Hc. exists []. reflexivity.
Qed.

(** C1, amended.  For dates with [date_out > date_in] the form computes
    the binary64 product of the number of nights
    [(date_out - date_in).days] and [float(price_per_night)], and shows
    it first on every run, whether the form is submitted or not.  When
    the nightly price is a whole number [k] and [nights * k] stays below
    [2^53], that cost is exactly [nights * k]. *)
Theorem cost_preview_whole_price (guests_df : list Book.guest)
    (room_row : Book.room) (r_id : Z) (selected_guest : option string)
    (date_in date_out : date) (submit : bool) (w : world) :
  valid_date date_in ->
  valid_date date_out ->
  date_out > date_in ->
  exists cost rest,
    cost = float_mul (float_of_int (date_out - date_in))
             (to_float (Book.price_per_night room_row)) /\
    Book.cost_preview date_in date_out (Book.price_per_night room_row)
    = Some (date_out - date_in, cost) /\
    screen (fst (Book.booking_form guests_df room_row r_id selected_guest
                   date_in date_out submit w))
    = screen w ++ st_metric_cost cost (date_out - date_in) :: rest /\
    forall k : Z,
      to_float (Book.price_per_night room_row) = float_of_int k ->
      Z.abs ((date_out - date_in) * k) < 2 ^ 53 ->
      exists q, float_value cost = Some q /\
                (q == inject_Z ((date_out - date_in) * k))%Q.
Proof.
  intros Hin Hout Hgt.
  set (cost := float_mul (float_of_int (date_out - date_in))
                 (to_float (Book.price_per_night room_row))).
  assert (Hc : Book.cost_preview date_in date_out (Book.price_per_night room_row)
               = Some (date_out - date_in, cost)).
  { unfold Book.cost_preview, days_between.
    assert (Hb : (date_out >? date_in) = true) by (apply Z.gtb_lt; lia).
    rewrite Hb. reflexivity. }
  destruct (booking_form_shows_preview guests_df room_row r_id selected_guest
              date_in date_out submit w cost Hgt Hc) as [rest Hs].
  exists cost, rest. repeat split; try assumption.
  intros k Hp Hk.
  destruct (cost_preview_exact date_in date_out _ k Hin Hout Hgt Hp Hk)
    as [cost' [q [Hc' [Hv Hq]]]].
  rewrite Hc in Hc'. inversion Hc'; subst cost'. exists q. auto.
Qed.

(** C4.  A submission with [date_out <= date_in] shows the validation
    error and sends nothing; whatever is submitted, [make_booking] is
    executed only when [date_out > date_in]. *)
Theorem booking_form_rejects_bad_dates (guests_df : list Book.guest)
    (room_row : Book.room) (r_id : Z) (selected_guest : option string)
    (date_in date_out : date) (w : world) :
  (date_out <= date_in ->
   Book.booking_form guests_df room_row r_id selected_guest date_in date_out true w
   = (mkWorld (server w) (sent w) (screen w ++ [st_error Book.dates_error]), Ok tt))
  /\
  (forall submit, exists extra,
     sent (fst (Book.booking_form guests_df room_row r_id selected_guest
                  date_in date_out submit w)) = sent w ++ extra /\
     forall s p, In (CExecute s p) extra ->
       s = Book.make_booking_sql /\ submit = true /\ date_out > date_in).
Proof.
  split.
  - intros Hle. unfold Book.booking_form, Book.cost_preview, bind.
    assert (Hg : (date_out >? date_in) = false).
    { destruct (date_out >? date_in) eqn:E; [apply Z.gtb_lt in E; lia | reflexivity]. }
    rewrite Hg. cbn.
    assert (Hl : (date_out <=? date_in) = true) by (apply Z.leb_le; lia).
    rewrite Hl. destruct w; reflexivity.
  - intros submit.
    destruct (booking_form_sends guests_df room_row r_id selected_guest
                date_in date_out submit w) as [extra [E F]].
    exists extra. split; [assumption|].
    intros s p Hin. destruct (F s p Hin) as [H1 [H2 [H3 _]]]. auto.
Qed.

Section DateWidgets.
(** What [st.date_input(label, value=..., min_value=...)] returns. *)
Variable date_input : string -> date -> date -> date.
(** The widget does not return a date before [min_value]. *)
Hypothesis date_input_min :
  forall label value min_value,
    min_value <= value -> min_value <= date_input label value min_value.

(** C10.  Every [make_booking] the page executes has [check_in] no
    earlier than today and [check_out] no earlier than tomorrow. *)
Theorem booking_page_never_in_the_past (today : date)
    (rooms_df : list Book.room) (guests_df : list Book.guest)
    (room_choice guest_choice : nat) (submit : bool) (w : world) :
  exists extra,
    sent (fst (Book.booking_page date_input today rooms_df guests_df
                 room_choice guest_choice submit w)) = sent w ++ extra /\
    forall s p, In (CExecute s p) extra ->
      s = Book.make_booking_sql /\
      exists g r check_in check_out,
        p = [VInt g; VInt r; VDate check_in; VDate check_out] /\
        today <= check_in /\ plus_days today 1 <= check_out.
Proof.
  revert w.
  change (sends (fun s p =>
            s = Book.make_booking_sql /\
            exists g r check_in check_out,
              p = [VInt g; VInt r; VDate check_in; VDate check_out] /\
              today <= check_in /\ plus_days today 1 <= check_out)
            (Book.booking_page date_input today rooms_df guests_df
               room_choice guest_choice submit)).
  unfold Book.booking_page.
  apply (sends_bind _ (fun _ => True)).
  - apply sends_first_row.
  - intros w a _. exact I.
  - intros room_row _ w.
    destruct (booking_form_sends guests_df room_row (Book.room_id room_row)
                (selectbox (map Book.full_name guests_df) guest_choice)
                (date_input Book.date_in_label today today)
                (date_input Book.date_out_label (plus_days today 1) (plus_days today 1))
                submit w) as [extra [E F]].
    exists extra. split; [assumption|].
    intros s p Hin. destruct (F s p Hin) as [_ [_ [Hs [row [_ [_ Hp]]]]]].
    split; [assumption|]. do 4 eexists. split; [eassumption|].
    split; apply date_input_min; lia.
Qed.

End DateWidgets.

End BookFacts.

Lemma cost_preview_whole_price_witness :
  exists cost rest,
    cost = float_mul (float_of_int (739003 - 739000))
             (to_float (Book.price_per_night Book.room_101)) /\
    Book.cost_preview 739000 739003 (Book.price_per_night Book.room_101)
    = Some (739003 - 739000, cost) /\
    screen (fst (@Book.booking_form JournalServer Book.guests_example Book.room_101 1
                   (Some "Ivan Petrov"%string) 739000 739003 true fresh))
    = screen fresh ++ st_metric_cost cost (739003 - 739000) :: rest /\
    forall k : Z,
      to_float (Book.price_per_night Book.room_101) = float_of_int k ->
      Z.abs ((739003 - 739000) * k) < 2 ^ 53 ->
      exists q, float_value cost = Some q /\
                (q == inject_Z ((739003 - 739000) * k))%Q.
Proof.
  apply (@cost_preview_whole_price JournalServer Book.guests_example Book.room_101 1
           (Some "Ivan Petrov"%string) 739000 739003 true fresh).
  - unfold valid_date; lia.
  - unfold valid_date; lia.
  - reflexivity.
Defined.

(** Three nights at 2000 a night: 6000, as in the scenario of the spec. *)
Lemma cost_preview_example :
  Book.cost_preview 739038 739041 (NInt 2000) = Some (3, float_of_int 6000).
Proof. vm_compute. reflexivity. Qed.

Lemma picked_date_min (pick_in pick_out : date) (label : string) (value min_value : date) :
  min_value <= value -> min_value <= Book.picked_date pick_in pick_out label value min_value.
Proof.
  intros H. unfold Book.picked_date.
  destruct (min_value <=? _) eqn:E; [apply Z.leb_le in E|]; assumption.
Qed.

Lemma booking_form_rejects_bad_dates_witness :
  @Book.booking_form JournalServer Book.guests_example Book.room_101 1
    (Some "Ivan Petrov"%string) 739003 739003 true fresh
  = (mkWorld (server fresh) (sent fresh)
       (screen fresh ++ [st_error Book.dates_error]), Ok tt).
Proof.
  apply (proj1 (@booking_form_rejects_bad_dates JournalServer Book.guests_example
                  Book.room_101 1 (Some "Ivan Petrov"%string) 739003 739003 fresh)).
  lia.
Defined.

Lemma booking_page_never_in_the_past_witness :
  exists extra,
    sent (fst (@Book.booking_page JournalServer (Book.picked_date 738990 739005)
                 739000 [Book.room_101] Book.guests_example 0 0 true fresh))
    = sent fresh ++ extra /\
    forall s p, In (CExecute s p) extra ->
      s = Book.make_booking_sql /\
      exists g r check_in check_out,
        p = [VInt g; VInt r; VDate check_in; VDate check_out] /\
        739000 <= check_in /\ plus_days 739000 1 <= check_out.
Proof.
  exact (@booking_page_never_in_the_past JournalServer
           (Book.picked_date 738990 739005) (picked_date_min 738990 739005)
           739000 [Book.room_101] Book.guests_example 0%nat 0%nat true fresh).
Defined.

(** A submission the form lets through: the page of 2024-04-24 (ordinal
    739000), a check-in picked in the past and refused by the calendar,
    a check-out three days later, and the call that reaches the server. *)
Lemma booking_page_example :
  sent (fst (@Book.booking_page JournalServer (Book.picked_date 738990 739003)
               739000 [Book.room_101] Book.guests_example 0 0 true fresh))
  = [CExecute Book.make_booking_sql [VInt 1; VInt 1; VDate 739000; VDate 739003];
     CCommit; CClose].
Proof. vm_compute. reflexivity. Qed.

(* ----------------------------------------------------------------- *)
(** ** The cancellation section *)

Section BookingsFacts.
Context {D : Database}.
Local Open Scope st_scope.

Lemma dict_get_set (k k' : string) (v : Z) (d : Bookings.dict) :
  Bookings.dict_get k (Bookings.dict_set k' v d)
  = if String.eqb k k' then Some v else Bookings.dict_get k d.
Proof.
  induction d as [| [k0 v0] d IH]; cbn.
  - reflexivity.
  - destruct (String.eqb k' k0) eqn:E0; cbn.
    + apply String.eqb_eq in E0. subst k0.
      destruct (String.eqb k k'); reflexivity.
    + destruct (String.eqb k k0) eqn:E1.
      * destruct (String.eqb k k') eqn:E2; [|reflexivity].
        apply String.eqb_eq in E1, E2. subst. rewrite String.eqb_refl in E0.
        discriminate.
      * apply IH.
Qed.

Lemma booking_options_fold (label : Bookings.row -> string) (rows : list Bookings.row) :
  forall (d : Bookings.dict) (k : string) (v : Z),
    Bookings.dict_get k
      (fold_left (fun d r => Bookings.dict_set (label r) (Bookings.booking_id r) d) rows d)
    = Some v ->
    Bookings.dict_get k d = Some v \/
    exists r, In r rows /\ Bookings.booking_id r = v /\ label r = k.
Proof.
  induction rows as [| r rows IH]; intros d k v H; cbn in H.
  - left; assumption.
  - destruct (IH _ _ _ H) as [H0 | [r' [Hin [Hid Hl]]]].
    + rewrite dict_get_set in H0.
      destruct (String.eqb k (label r)) eqn:E.
      * apply String.eqb_eq in E. inversion H0. right. exists r. cbn. auto.
      * left; assumption.
    + right. exists r'. cbn. auto.
Qed.

Lemma booking_options_get (label : Bookings.row -> string) (rows : list Bookings.row)
    (k : string) (v : Z) :
  Bookings.dict_get k (Bookings.booking_options label rows) = Some v ->
  exists r, In r rows /\ Bookings.booking_id r = v /\ label r = k.
Proof.
  intros H. destruct (booking_options_fold label rows [] k v H) as [H0 | H0].
  - discriminate.
  - assumption.
Qed.

Lemma getitem_returns (label : Bookings.row -> string) (rows : list Bookings.row)
    (k : option string) :
  returns (fun b => exists r, In r rows /\ Bookings.booking_id r = b)
    (Bookings.getitem (Bookings.booking_options label rows) k).
Proof.
  intros w b. unfold Bookings.getitem.
  destruct k as [key |]; [|discriminate].
  destruct (Bookings.dict_get key _) as [v |] eqn:E; [|discriminate].
  cbn. intros H; inversion H; subst v.
  destruct (booking_options_get _ _ _ _ E) as [r [Hin [Hid _]]]. eauto.
Qed.

(** C8.  The cancellation section executes no other statement than
    [cancel_booking], with the id of a booking listed with status
    [active]; when the listing has no active booking it only says so and
    sends nothing. *)
Theorem cancel_section_only_active (label : Bookings.row -> string)
    (df : list Bookings.row) (choice : nat) (button : bool) (w : world) :
  (exists extra,
     sent (fst (Bookings.cancel_section label df choice button w)) = sent w ++ extra /\
     forall s p, In (CExecute s p) extra ->
       s = Bookings.cancel_sql /\
       exists r, In r df /\ Bookings.status r = Some "active"%string /\
                 p = [VInt (Bookings.booking_id r)])
  /\
  ((forall r, In r df -> Bookings.status r <> Some "active"%string) ->
   Bookings.cancel_section label df choice button w
   = (mkWorld (server w) (sent w) (screen w ++ [st_info Bookings.nothing_to_cancel]),
      Ok tt)).
Proof.
  unfold Bookings.cancel_section.
  set (active := fun r => cell_eqb (Bookings.status r) "active").
  assert (Hact : forall r, In r (filter active df) ->
                   In r df /\ Bookings.status r = Some "active"%string).
  { intros r Hr. apply filter_In in Hr. destruct Hr as [Hin Ha].
    split; [assumption|]. unfold active, cell_eqb in Ha.
    destruct (Bookings.status r) as [st |]; [|discriminate].
    apply String.eqb_eq in Ha. congruence. }
  split.
  - revert w.
    change (sends (fun s p =>
              s = Bookings.cancel_sql /\
              exists r, In r df /\ Bookings.status r = Some "active"%string /\
                        p = [VInt (Bookings.booking_id r)])
              (match filter active df with
               | [] => show (st_info Bookings.nothing_to_cancel)
               | _ :: _ =>
                   let options := Bookings.booking_options label (filter active df) in
                   let selected_label := selectbox (Bookings.keys options) choice in
                   if button then
                     try_except
                       (b <- Bookings.getitem options selected_label ;;
                        call_procedure Bookings.cancel_sql [VInt b] ;;;
                        show (st_success Bookings.cancelled_message) ;;;
                        st_rerun)
                       (fun e => show (st_error ("Ошибка: " ++ exn_text e)%string))
                   else ret tt
               end)).
    destruct (filter active df) as [| r0 rest] eqn:E; [apply sends_show|].
    cbv zeta. destruct button; [|apply sends_ret].
    apply sends_try_except; [|intros e; apply sends_show].
    eapply sends_bind.
    + unfold Bookings.getitem.
      destruct (selectbox _ _) as [key |]; [|apply sends_raise].
      destruct (Bookings.dict_get key _); [apply sends_ret | apply sends_raise].
    + apply getitem_returns.
    + intros b [r [Hin Hid]]. cbv beta.
      apply sends_seq; [|apply sends_seq; [apply sends_show | apply sends_raise]].
      apply sends_call. split; [reflexivity|].
      destruct (Hact r Hin) as [Hdf Hst]. exists r. subst b. auto.
  - intros Hnone.
    destruct (filter active df) as [| r0 rest] eqn:E.
    + destruct w; reflexivity.
    + exfalso. destruct (Hact r0 (or_introl eq_refl)) as [Hin Hst].
      exact (Hnone r0 Hin Hst).
Qed.

End BookingsFacts.

Lemma cancel_section_only_active_witness :
  @Bookings.cancel_section JournalServer Bookings.label_example
    [Bookings.mkRow 8 "Olga Sidorova" 102 739001 739002 2500 (Some "cancelled"%string)] 0 true fresh
  = (mkWorld (server fresh) (sent fresh)
       (screen fresh ++ [st_info Bookings.nothing_to_cancel]), Ok tt).
Proof.
  apply (proj2 (@cancel_section_only_active JournalServer Bookings.label_example
                  [Bookings.mkRow 8 "Olga Sidorova" 102 739001 739002 2500 (Some "cancelled"%string)] 0%nat true fresh)).
  intros r [<- | []]. discriminate.
Defined.

(** With an active booking listed, the button cancels it and no other. *)
Lemma cancel_section_example :
  sent (fst (@Bookings.cancel_section JournalServer Bookings.label_example
               Bookings.listing_example 0 true fresh))
  = [CExecute Bookings.cancel_sql [VInt 7]; CCommit; CClose].
Proof. vm_compute. reflexivity. Qed.

(* ----------------------------------------------------------------- *)
(** ** The dashboard *)

Section DashboardFacts.
Import Dashboard.

Lemma sum_mask_count {A} (f : A -> bool) (l : list A) :
  sum_mask (map f l) = Z.of_nat (List.length (filter f l)).
Proof.
  induction l as [| x l IH]; cbn [map sum_mask filter]; [reflexivity|].
  rewrite IH. destruct (f x); cbn [List.length]; lia.
Qed.

Lemma filter_length_split {A} (f : A -> bool) (l : list A) :
  (List.length (filter f l) + List.length (filter (fun x => negb (f x)) l)
   = List.length l)%nat.
Proof.
  induction l as [| x l IH]; cbn; [reflexivity|].
  destruct (f x); cbn; lia.
Qed.

Lemma free_label_not_occupied (rooms_df : list (option string)) :
  (List.length (filter (fun st => cell_eqb st free_label) rooms_df)
   <= List.length (filter (fun st => negb (cell_eqb st occupied_label)) rooms_df))%nat.
Proof.
  induction rooms_df as [| st l IH]; cbn [filter]; [lia|].
  destruct (cell_eqb st free_label) eqn:Ef.
  - assert (Ho : cell_eqb st occupied_label = false).
    { destruct st as [x |]; [|discriminate]. cbn [cell_eqb] in Ef |- *.
      apply String.eqb_eq in Ef. subst x. reflexivity. }
    rewrite Ho. cbn [negb List.length]. lia.
  - destruct (negb (cell_eqb st occupied_label)); cbn [List.length]; lia.
Qed.

Lemma sum_mask_app (xs ys : list bool) :
  sum_mask (xs ++ ys) = sum_mask xs + sum_mask ys.
Proof. induction xs as [| x xs IH]; cbn [app sum_mask]; lia. Qed.

Lemma occupied_rooms_split (pre post : list (option string)) (st : option string) :
  occupied_rooms (pre ++ st :: post)
  = occupied_rooms (pre ++ post) + (if cell_eqb st occupied_label then 1 else 0).
Proof.
  unfold occupied_rooms. rewrite !map_app, !sum_mask_app. cbn [map sum_mask]. lia.
Qed.

(** C5.  The labels of the status view are ["Занят"] for an occupied
    room and ["Свободен"] for a free one.  For every state of the view
    the summary counts a room as occupied exactly when its status is the
    first label: the occupied count is the number of such rows, and each
    row adds one to it or nothing according to its status.  It counts a
    room as free when its status is the second label: such a row adds
    one to the free count and nothing to the occupied one, and the free
    count is the number of these rows when the view holds no other
    status (in general it is the number of rows that are not occupied).
    Free plus occupied is the number of rooms. *)
Theorem occupancy_summary (rooms_df : list (option string)) :
  occupied_rooms rooms_df = rooms_with_status occupied_label rooms_df /\
  (forall pre st post,
     rooms_df = pre ++ st :: post ->
     occupied_rooms rooms_df
     = occupied_rooms (pre ++ post) + (if cell_eqb st occupied_label then 1 else 0) /\
     (st = Some free_label ->
      free_rooms rooms_df = free_rooms (pre ++ post) + 1 /\
      occupied_rooms rooms_df = occupied_rooms (pre ++ post))) /\
  ((forall st, In st rooms_df -> st = Some occupied_label \/ st = Some free_label) ->
   free_rooms rooms_df = rooms_with_status free_label rooms_df) /\
  free_rooms rooms_df
  = Z.of_nat (List.length (filter (fun st => negb (cell_eqb st occupied_label)) rooms_df)) /\
  free_rooms rooms_df + occupied_rooms rooms_df = total_rooms rooms_df.
Proof.
  assert (Hocc : occupied_rooms rooms_df = rooms_with_status occupied_label rooms_df).
  { unfold occupied_rooms, rooms_with_status. apply sum_mask_count. }
  assert (Hfree : free_rooms rooms_df
                  = Z.of_nat (List.length
                      (filter (fun st => negb (cell_eqb st occupied_label)) rooms_df))).
  { unfold free_rooms, total_rooms. rewrite Hocc. unfold rooms_with_status.
    pose proof (filter_length_split (fun st => cell_eqb st occupied_label) rooms_df).
    lia. }
  split; [assumption|]. split; [|split; [|split; [assumption|]]].
  - intros pre st post ->. split; [apply occupied_rooms_split|].
    intros ->. unfold free_rooms, total_rooms.
    rewrite occupied_rooms_split, !length_app. cbn [List.length cell_eqb].
    replace (String.eqb free_label occupied_label) with false by reflexivity.
    lia.
  - intros Hlabels. rewrite Hfree. unfold rooms_with_status. do 2 f_equal.
    apply filter_ext_in. intros st Hin.
    destruct (Hlabels st Hin) as [-> | ->]; reflexivity.
  - unfold free_rooms. lia.
Qed.

Lemma occupancy_summary_witness :
  free_rooms [Some occupied_label; Some free_label; Some free_label]
  = rooms_with_status free_label [Some occupied_label; Some free_label; Some free_label].
Proof.
  apply (proj1 (proj2 (proj2 (occupancy_summary
                                [Some occupied_label; Some free_label; Some free_label])))).
  intros st [<- | [<- | [<- | []]]]; [left | right | right]; reflexivity.
Defined.

Lemma sum_app (xs ys : list Z) : sum (xs ++ ys) = sum xs + sum ys.
Proof. induction xs as [| x xs IH]; cbn [app sum]; lia. Qed.

Lemma loc_mask {A} (f : A -> bool) (l : list A) : loc (map f l) l = filter f l.
Proof.
  induction l as [| x l IH]; cbn [map loc filter]; [reflexivity|].
  rewrite IH. reflexivity.
Qed.

Lemma filter_map {A B} (f : B -> bool) (g : A -> B) (l : list A) :
  filter f (map g l) = map g (filter (fun x => f (g x)) l).
Proof.
  induction l as [| x l IH]; cbn [map filter]; [reflexivity|].
  rewrite IH. destruct (f (g x)); reflexivity.
Qed.

(** The revenue is the sum of the cells of the active bookings, in a
    column made of the cells of all bookings. *)
Lemma revenue_cells (order : float -> list float -> plan) (ty : sql_type)
    (bookings : list booking) :
  revenue order (bookings_df ty bookings)
  = series_sum order
      (map (fun b => cell_of ty (total_cost b)) bookings)
      (map (fun b => cell_of ty (total_cost b))
         (filter (fun b => cell_eqb (status b) "active") bookings)).
Proof.
  unfold revenue. rewrite loc_mask. unfold bookings_df.
  rewrite filter_map, !map_map. reflexivity.
Qed.

(** An INTEGER column is [int64], whatever it holds; a NUMERIC one is
    [float64] as soon as it has a row. *)
Lemma column_is_int (ty : sql_type) (bookings : list booking) :
  forallb is_int (map (fun b => cell_of ty (total_cost b)) bookings)
  = match ty, bookings with
    | SqlInteger, _ => true
    | SqlNumeric _, [] => true
    | SqlNumeric _, _ :: _ => false
    end.
Proof.
  destruct ty as [| places].
  - induction bookings as [| b bs IH]; [reflexivity | exact IH].
  - destruct bookings; reflexivity.
Qed.

Lemma sum_active (bookings : list booking) :
  sum (map total_cost (filter (fun b => cell_eqb (status b) "active") bookings))
  = active_total bookings.
Proof.
  induction bookings as [| b bs IH]; cbn [filter active_total]; [reflexivity|].
  unfold cell_eqb at 1. destruct (status b) as [st |]; [|exact IH].
  destruct (String.eqb st "active"); cbn [map sum]; rewrite IH; reflexivity.
Qed.

Lemma wrap64_small (z : Z) : - 2 ^ 63 <= z < 2 ^ 63 -> wrap64 z = z.
Proof.
  intros H. unfold wrap64.
  rewrite Z.mod_small by (change (2 ^ 64) with (2 * 2 ^ 63); lia). lia.
Qed.

(** On an INTEGER column the revenue is the total of the active
    bookings, wrapped to 64 bits. *)
Lemma revenue_integer (order : float -> list float -> plan) (bookings : list booking) :
  revenue order (bookings_df SqlInteger bookings) = NInt (wrap64 (active_total bookings)).
Proof.
  rewrite revenue_cells. unfold series_sum. rewrite column_is_int.
  rewrite map_map. cbn [cell_of int_of]. rewrite sum_active. reflexivity.
Qed.

Lemma sum_nonneg (ks : list Z) : Forall (fun k => 0 <= k) ks -> 0 <= sum ks.
Proof. induction 1; cbn [sum]; lia. Qed.

Lemma in_sum_le (ks : list Z) (k : Z) :
  Forall (fun k => 0 <= k) ks -> In k ks -> k <= sum ks.
Proof.
  induction 1 as [| x l Hx Hl IH]; intros Hin; [destruct Hin|].
  pose proof (sum_nonneg _ Hl). cbn [sum].
  destruct Hin as [-> | Hin]; [lia | specialize (IH Hin); lia].
Qed.

Lemma sum_perm (ks ks' : list Z) : Permutation ks ks' -> sum ks = sum ks'.
Proof. induction 1; cbn [sum]; lia. Qed.

(** Whole amounts that are not negative add up exactly, in whatever
    order and grouping, as long as their total is below [2^53]. *)
Lemma eval_whole (p : plan) :
  forall ks : list Z,
    leaves p = map float_of_int ks ->
    Forall (fun k => 0 <= k) ks ->
    sum ks < 2 ^ 53 ->
    eval p = float_of_int (sum ks).
Proof.
  induction p as [| x | l IHl r IHr]; intros ks Hl Hpos Hsum; cbn [eval leaves] in *.
  - destruct ks; [reflexivity | discriminate].
  - destruct ks as [| k [| k' ks]]; try discriminate.
    inversion Hl; subst. cbn [sum]. rewrite Z.add_0_r. reflexivity.
  - symmetry in Hl. apply map_eq_app in Hl.
    destruct Hl as [k1 [k2 [-> [H1 H2]]]].
    apply Forall_app in Hpos. destruct Hpos as [P1 P2].
    pose proof (sum_nonneg _ P1). pose proof (sum_nonneg _ P2).
    rewrite sum_app in Hsum |- *.
    rewrite (IHl k1), (IHr k2) by (auto; lia).
    apply float_add_int; lia.
Qed.

Lemma eval_whole_perm (p : plan) (ks : list Z) :
  Permutation (leaves p) (map float_of_int ks) ->
  Forall (fun k => 0 <= k) ks ->
  sum ks < 2 ^ 53 ->
  eval p = float_of_int (sum ks).
Proof.
  intros Hp Hpos Hsum.
  apply Permutation_map_inv in Hp. destruct Hp as [ks' [Hl Hperm]].
  rewrite (sum_perm _ _ Hperm) in Hsum |- *.
  apply eval_whole; [assumption | | assumption].
  eapply Permutation_Forall; eassumption.
Qed.

Lemma sequential_leaves (x : float) (rest : list float) :
  Permutation (leaves (sequential x rest)) (x :: rest).
Proof.
  unfold sequential.
  assert (H : forall l p, leaves (fold_left (fun p y => Add p (Leaf y)) l p)
                          = leaves p ++ l).
  { induction l as [| y l IH]; intros p; cbn [fold_left].
    - rewrite app_nil_r. reflexivity.
    - rewrite IH. cbn [leaves]. rewrite <- app_assoc. reflexivity. }
  rewrite H. apply Permutation_refl.
Qed.

Lemma active_total_app (xs ys : list booking) :
  active_total (xs ++ ys) = active_total xs + active_total ys.
Proof.
  induction xs as [| b xs IH]; cbn [app active_total]; [reflexivity|].
  destruct (status b) as [st |]; [destruct (String.eqb st "active")|]; lia.
Qed.

Lemma joined_cons (b : booking) (bs : list booking) (rooms : list room)
    (room_types : list room_type) :
  joined (b :: bs) rooms room_types
  = joined [b] rooms room_types ++ joined bs rooms room_types.
Proof. unfold joined. cbn [flat_map]. rewrite app_nil_r. reflexivity. Qed.

Lemma joined_app (xs ys : list booking) (rooms : list room)
    (room_types : list room_type) :
  joined (xs ++ ys) rooms room_types
  = joined xs rooms room_types ++ joined ys rooms room_types.
Proof. unfold joined. apply flat_map_app. Qed.

Lemma in_joined (bookings : list booking) (rooms : list room)
    (room_types : list room_type) (b : booking) (r : room) (rt : room_type) :
  In (b, r, rt) (joined bookings rooms room_types) <->
  In b bookings /\ In r rooms /\ In rt room_types /\
  b_room_id b = room_id r /\ r_type_id r = type_id rt.
Proof.
  unfold joined. rewrite in_flat_map. split.
  - intros [b' [Hb H]]. apply in_flat_map in H. destruct H as [r' [Hr H]].
    destruct (b_room_id b' =? room_id r') eqn:E1; [|contradiction].
    apply in_flat_map in H. destruct H as [rt' [Ht H]].
    destruct (r_type_id r' =? type_id rt') eqn:E2; [|contradiction].
    destruct H as [H | []]. inversion H; subst.
    apply Z.eqb_eq in E1, E2. auto.
  - intros [Hb [Hr [Ht [E1 E2]]]]. exists b. split; [assumption|].
    apply in_flat_map. exists r. split; [assumption|].
    apply Z.eqb_eq in E1. rewrite E1.
    apply in_flat_map. exists rt. split; [assumption|].
    apply Z.eqb_eq in E2. rewrite E2. left; reflexivity.
Qed.

(** The rows the join makes of one booking all carry that booking. *)
Lemma where_active_one (b : booking) (rooms : list room) (room_types : list room_type) :
  where_active (joined [b] rooms room_types)
  = if cell_eqb (status b) "active" then joined [b] rooms room_types else [].
Proof.
  unfold where_active.
  assert (H : forall x, In x (joined [b] rooms room_types) -> fst (fst x) = b).
  { intros [[b' r] rt] Hin. apply in_joined in Hin.
    destruct Hin as [[<- | []] _]. reflexivity. }
  induction (joined [b] rooms room_types) as [| x l IH]; cbn [filter].
  - destruct (cell_eqb (status b) "active"); reflexivity.
  - rewrite (H x (or_introl eq_refl)).
    rewrite IH by (intros y Hy; apply H; right; assumption).
    destruct (cell_eqb (status b) "active"); reflexivity.
Qed.

Lemma group_sum_app (xs ys : list (booking * room * room_type)) (name : string) :
  group_sum (xs ++ ys) name = group_sum xs name + group_sum ys name.
Proof. unfold group_sum. rewrite filter_app, map_app, sum_app. reflexivity. Qed.

Lemma group_sum_types (b : booking) (r : room) (room_types : list room_type)
    (name : string) :
  group_sum
    (flat_map (fun rt => if r_type_id r =? type_id rt then [(b, r, rt)] else [])
       room_types) name
  = total_cost b *
    sum (map (fun rt => if (r_type_id r =? type_id rt) && String.eqb (type_name rt) name
                        then 1 else 0) room_types).
Proof.
  induction room_types as [| rt room_types IH]; cbn [flat_map map sum].
  - unfold group_sum. cbn. lia.
  - rewrite group_sum_app, IH, Z.mul_add_distr_l.
    apply Z.add_cancel_r.
    destruct (r_type_id r =? type_id rt); cbn [andb].
    + unfold group_sum. cbn [filter snd].
      destruct (String.eqb (type_name rt) name); cbn; lia.
    + unfold group_sum. cbn. lia.
Qed.

Lemma sum_zeros {A} (l : list A) : sum (map (fun _ => 0) l) = 0.
Proof. induction l as [| x l IH]; cbn [map sum]; lia. Qed.

Lemma group_sum_one (b : booking) (rooms : list room) (room_types : list room_type)
    (name : string) :
  group_sum (joined [b] rooms room_types) name
  = total_cost b * matches b rooms room_types name.
Proof.
  unfold joined, matches. cbn [flat_map]. rewrite app_nil_r.
  induction rooms as [| r rooms IH]; cbn [flat_map map sum].
  - unfold group_sum. cbn. lia.
  - rewrite group_sum_app, IH, Z.mul_add_distr_l.
    apply Z.add_cancel_r.
    destruct (b_room_id b =? room_id r); cbn [andb].
    + apply group_sum_types.
    + rewrite sum_zeros. unfold group_sum. cbn. lia.
Qed.

Lemma where_active_app (xs ys : list (booking * room * room_type)) :
  where_active (xs ++ ys) = where_active xs ++ where_active ys.
Proof. apply filter_app. Qed.

Lemma group_sum_type_total (bookings : list booking) (rooms : list room)
    (room_types : list room_type) (name : string) :
  group_sum (where_active (joined bookings rooms room_types)) name
  = type_total bookings rooms room_types name.
Proof.
  induction bookings as [| b bs IH]; [reflexivity|].
  rewrite joined_cons, where_active_app, group_sum_app, IH, where_active_one.
  cbn [type_total]. f_equal.
  destruct (cell_eqb (status b) "active").
  - apply group_sum_one.
  - reflexivity.
Qed.

(** A booking that is not active leaves no row after the WHERE clause. *)
Lemma where_active_skip (pre post : list booking) (b : booking)
    (rooms : list room) (room_types : list room_type) :
  cell_eqb (status b) "active" = false ->
  where_active (joined (pre ++ b :: post) rooms room_types)
  = where_active (joined (pre ++ post) rooms room_types).
Proof.
  intros Hb. rewrite !joined_app, joined_cons, !where_active_app, where_active_one, Hb.
  reflexivity.
Qed.

Lemma sum_pick (ks : list string) (a : string) (v : Z) :
  NoDup ks -> In a ks ->
  sum (map (fun k => if String.eqb a k then v else 0) ks) = v.
Proof.
  induction ks as [| k ks IH]; intros Hnd Hin; [contradiction|].
  inversion Hnd as [| ? ? Hk Hnd']; subst. cbn [map sum].
  destruct (String.eqb a k) eqn:E.
  - apply String.eqb_eq in E. subst k.
    assert (H0 : sum (map (fun k => if String.eqb a k then v else 0) ks) = 0).
    { clear IH Hnd Hnd' Hin. induction ks as [| k ks IH]; cbn [map sum]; [reflexivity|].
      destruct (String.eqb a k) eqn:E.
      - apply String.eqb_eq in E. subst k. exfalso. apply Hk. left; reflexivity.
      - rewrite IH; [reflexivity|]. intros H. apply Hk. right; assumption. }
    lia.
  - destruct Hin as [-> | Hin]; [rewrite String.eqb_refl in E; discriminate|].
    rewrite (IH Hnd' Hin). lia.
Qed.

Lemma sum_map_add {A} (f g : A -> Z) (l : list A) :
  sum (map (fun x => f x + g x) l) = sum (map f l) + sum (map g l).
Proof. induction l as [| x l IH]; cbn [map sum]; lia. Qed.

(** The groups of a GROUP BY share out the rows. *)
Lemma group_sums_total (rows : list (booking * room * room_type)) (ks : list string) :
  NoDup ks ->
  (forall x, In x rows -> In (type_name (snd x)) ks) ->
  sum (map (group_sum rows) ks)
  = sum (map (fun x => total_cost (fst (fst x))) rows).
Proof.
  intros Hnd. induction rows as [| x rows IH]; intros Hin.
  - unfold group_sum. cbn. apply sum_zeros.
  - cbn [map sum]. rewrite <- IH by (intros y Hy; apply Hin; right; assumption).
    rewrite <- (sum_pick ks (type_name (snd x)) (total_cost (fst (fst x))) Hnd)
      by (apply Hin; left; reflexivity).
    rewrite <- sum_map_add. f_equal. apply map_ext. intros k.
    unfold group_sum. cbn [filter].
    destruct (String.eqb (type_name (snd x)) k); cbn [map sum]; lia.
Qed.

Lemma rows_total_types (b : booking) (r : room) (room_types : list room_type) :
  sum (map (fun x => total_cost (fst (fst x)))
         (flat_map (fun rt => if r_type_id r =? type_id rt then [(b, r, rt)] else [])
            room_types))
  = total_cost b *
    sum (map (fun rt => if r_type_id r =? type_id rt then 1 else 0) room_types).
Proof.
  induction room_types as [| rt room_types IH]; cbn [flat_map map sum]; [lia|].
  rewrite map_app, sum_app, IH, Z.mul_add_distr_l. apply Z.add_cancel_r.
  destruct (r_type_id r =? type_id rt); cbn; lia.
Qed.

Lemma rows_total_one (b : booking) (rooms : list room) (room_types : list room_type) :
  sum (map (fun x => total_cost (fst (fst x))) (joined [b] rooms room_types))
  = total_cost b * join_rows b rooms room_types.
Proof.
  unfold joined, join_rows. cbn [flat_map]. rewrite app_nil_r.
  induction rooms as [| r rooms IH]; cbn [flat_map map sum]; [lia|].
  rewrite map_app, sum_app, IH, Z.mul_add_distr_l. apply Z.add_cancel_r.
  destruct (b_room_id b =? room_id r); cbn [andb].
  - apply rows_total_types.
  - rewrite sum_zeros. cbn. lia.
Qed.

(** With every booking in one room of one type, the sums of the answer
    add up to the total of the active bookings. *)
Lemma revenue_query_adds_up (bookings : list booking) (rooms : list room)
    (room_types : list room_type) :
  (forall b, In b bookings -> join_rows b rooms room_types = 1) ->
  sum (map snd (revenue_query bookings rooms room_types)) = active_total bookings.
Proof.
  intros Hone. unfold revenue_query.
  rewrite map_map. cbn [snd].
  rewrite group_sums_total.
  - induction bookings as [| b bs IH]; [reflexivity|].
    rewrite joined_cons, where_active_app, map_app, sum_app, where_active_one.
    rewrite IH by (intros b' Hb'; apply Hone; right; assumption).
    cbn [active_total]. unfold cell_eqb. destruct (status b) as [st |].
    + destruct (String.eqb st "active").
      * rewrite rows_total_one, (Hone b (or_introl eq_refl)). lia.
      * reflexivity.
    + reflexivity.
  - apply NoDup_nodup.
  - intros x Hx. apply nodup_In.
    apply (in_map (fun y => type_name (snd y))). assumption.
Qed.

(** The rows of the answer: a row stands for a name that the join
    reaches from an active booking, and it carries the total of that
    name. *)
Lemma in_revenue_query (bookings : list booking) (rooms : list room)
    (room_types : list room_type) (name : string) (total : Z) :
  In (name, total) (revenue_query bookings rooms room_types) <->
  (exists x, In x (where_active (joined bookings rooms room_types)) /\
             type_name (snd x) = name) /\
  total = type_total bookings rooms room_types name.
Proof.
  unfold revenue_query. rewrite in_map_iff. split.
  - intros [n [Heq Hin]]. inversion Heq; subst n total; clear Heq.
    apply nodup_In, in_map_iff in Hin. destruct Hin as [x [Hn Hin]].
    split; [eauto | apply group_sum_type_total].
  - intros [[x [Hin Hn]] ->]. exists name.
    split; [rewrite group_sum_type_total; reflexivity|].
    apply nodup_In, in_map_iff. eauto.
Qed.

Lemma in_rev_df (ty : sql_type) (bookings : list booking) (rooms : list room)
    (room_types : list room_type) (name : string) (v : number) :
  In (name, v) (rev_df ty bookings rooms room_types) <->
  (exists x, In x (where_active (joined bookings rooms room_types)) /\
             type_name (snd x) = name) /\
  v = cell_of ty (type_total bookings rooms room_types name).
Proof.
  unfold rev_df. rewrite in_map_iff. split.
  - intros [[n t] [Heq Hin]]. cbn [fst snd] in Heq. inversion Heq; subst n v; clear Heq.
    apply in_revenue_query in Hin. destruct Hin as [Hx ->]. auto.
  - intros [Hx ->]. exists (name, type_total bookings rooms room_types name).
    split; [reflexivity|]. apply in_revenue_query. auto.
Qed.

Lemma rev_df_names (ty : sql_type) (bookings : list booking) (rooms : list room)
    (room_types : list room_type) :
  NoDup (map fst (rev_df ty bookings rooms room_types)).
Proof.
  unfold rev_df, revenue_query. rewrite !map_map. cbn [fst]. rewrite map_id.
  apply NoDup_nodup.
Qed.

Lemma cell_eqb_true (cell : option string) (lit : string) :
  cell_eqb cell lit = true <-> cell = Some lit.
Proof.
  destruct cell as [x |]; cbn [cell_eqb].
  - rewrite String.eqb_eq. split; congruence.
  - split; discriminate.
Qed.

Lemma filter_skip {A} (f : A -> bool) (pre post : list A) (x : A) :
  f x = false -> filter f (pre ++ x :: post) = filter f (pre ++ post).
Proof. intros H. rewrite !filter_app. cbn [filter]. rewrite H. reflexivity. Qed.

Section Summation.
(** The order in which [series.sum()] adds the values of a [float64]
    column: it adds each of them once. *)
Variable order : float -> list float -> plan.
Hypothesis order_sums :
  forall x rest, Permutation (leaves (order x rest)) (x :: rest).

Lemma series_sum_whole (column selected : list number) (ks : list Z) :
  map to_float selected = map float_of_int ks ->
  (forallb is_int column = true -> selected = []) ->
  Forall (fun k => 0 <= k) ks ->
  sum ks < 2 ^ 53 ->
  to_float (series_sum order column selected) = float_of_int (sum ks) /\
  exists q, number_value (series_sum order column selected) = Some q /\
            (q == inject_Z (sum ks))%Q.
Proof.
  intros Hsel Hint Hpos Hsum. unfold series_sum.
  destruct (forallb is_int column).
  - rewrite (Hint eq_refl) in *. destruct ks; [|discriminate].
    cbn [map sum int_of]. split; [reflexivity|].
    exists (inject_Z 0). split; reflexivity.
  - rewrite Hsel.
    assert (E : match map float_of_int ks return float with
                | [] => S754_zero false
                | x :: rest => eval (order x rest)
                end = float_of_int (sum ks)).
    { destruct ks as [| k ks']; [reflexivity|]. cbn [map].
      apply eval_whole_perm; [apply order_sums | assumption | assumption]. }
    rewrite E. cbn [to_float number_value]. split; [reflexivity|].
    apply float_of_int_value. pose proof (sum_nonneg _ Hpos). lia.
Qed.

(** C6, amended.  Both revenue figures are computed from the tables at
    each run.  The metric is the pandas sum of the [total_cost] cells of
    the bookings whose status is [active]: the exact total when the
    column is INTEGER and the total fits in 64 bits, and, in a NUMERIC
    column, when the active amounts are whole numbers that are not
    negative and add up to less than [2^53], in whatever order the sum
    adds them.  The chart has one bar for each room type name that the
    join reaches from an active booking, with the total the database
    computes for that name.  A cancelled booking changes neither. *)
Theorem revenue_from_tables (ty : sql_type) (bookings : list booking)
    (rooms : list room) (room_types : list room_type) :
  revenue order (bookings_df ty bookings)
  = series_sum order
      (map (fun b => cell_of ty (total_cost b)) bookings)
      (map (fun b => cell_of ty (total_cost b))
         (filter (fun b => cell_eqb (status b) "active") bookings)) /\
  (ty = SqlInteger ->
   - 2 ^ 63 <= active_total bookings < 2 ^ 63 ->
   revenue order (bookings_df ty bookings) = NInt (active_total bookings)) /\
  (forall (places : nat) (whole : booking -> Z),
     ty = SqlNumeric places ->
     (forall b, In b bookings -> status b = Some "active"%string ->
                0 <= whole b /\ total_cost b = whole b * 10 ^ Z.of_nat places) ->
     sum (map whole (filter (fun b => cell_eqb (status b) "active") bookings)) < 2 ^ 53 ->
     to_float (revenue order (bookings_df ty bookings))
     = float_of_int
         (sum (map whole (filter (fun b => cell_eqb (status b) "active") bookings))) /\
     exists q,
       number_value (revenue order (bookings_df ty bookings)) = Some q /\
       (q == inject_Z
               (sum (map whole
                       (filter (fun b => cell_eqb (status b) "active") bookings))))%Q) /\
  NoDup (map fst (rev_df ty bookings rooms room_types)) /\
  (forall name v,
     In (name, v) (rev_df ty bookings rooms room_types) <->
     (exists b r rt,
        In b bookings /\ In r rooms /\ In rt room_types /\
        b_room_id b = room_id r /\ r_type_id r = type_id rt /\
        status b = Some "active"%string /\ type_name rt = name) /\
     v = cell_of ty (type_total bookings rooms room_types name)) /\
  (forall pre b post,
     bookings = pre ++ b :: post ->
     status b = Some "cancelled"%string ->
     number_value (revenue order (bookings_df ty bookings))
     = number_value (revenue order (bookings_df ty (pre ++ post))) /\
     rev_df ty bookings rooms room_types = rev_df ty (pre ++ post) rooms room_types).
Proof.
  split; [apply revenue_cells|].
  split; [intros -> Hfit; rewrite revenue_integer, wrap64_small by assumption; reflexivity|].
  split; [|split; [apply rev_df_names|split]].
  - intros places whole -> Hwhole Hsum. rewrite revenue_cells.
    set (active := filter (fun b => cell_eqb (status b) "active") bookings) in *.
    assert (Hact : forall b, In b active ->
                     0 <= whole b /\ total_cost b = whole b * 10 ^ Z.of_nat places).
    { intros b Hb. apply filter_In in Hb. destruct Hb as [Hin Hst].
      apply Hwhole; [assumption | apply cell_eqb_true; assumption]. }
    assert (Hpos : Forall (fun k => 0 <= k) (map whole active)).
    { apply Forall_forall. intros k Hk. apply in_map_iff in Hk.
      destruct Hk as [b [<- Hb]]. apply (Hact b Hb). }
    apply series_sum_whole; try assumption.
    + rewrite !map_map. apply map_ext_in. intros b Hb.
      destruct (Hact b Hb) as [H0 Hc]. cbn [cell_of to_float]. rewrite Hc.
      apply float_of_decimal_whole.
      pose proof (in_sum_le _ (whole b) Hpos (in_map whole _ _ Hb)). lia.
    + rewrite column_is_int. intros Hint.
      destruct bookings; [reflexivity | discriminate Hint].
  - intros name v. rewrite in_rev_df. split.
    + intros [[[[b r] rt] [Hin Hn]] ->]. split; [|reflexivity].
      apply filter_In in Hin. destruct Hin as [Hin Hact].
      apply in_joined in Hin. destruct Hin as [Hb [Hr [Ht [E1 E2]]]].
      cbn [fst snd] in *. exists b, r, rt. repeat split; try assumption.
      apply cell_eqb_true. assumption.
    + intros [[b [r [rt [Hb [Hr [Ht [E1 [E2 [Hact Hn]]]]]]]]] ->]. split; [|reflexivity].
      exists (b, r, rt). split; [|assumption].
      apply filter_In. split; [apply in_joined; auto|].
      cbn [fst]. apply cell_eqb_true. assumption.
  - intros pre b post -> Hb.
    assert (Hc : cell_eqb (status b) "active" = false) by (rewrite Hb; reflexivity).
    split.
    + rewrite !revenue_cells. unfold series_sum. rewrite !column_is_int.
      rewrite (filter_skip _ pre post b Hc).
      destruct ty as [| places]; [reflexivity|].
      destruct (pre ++ post) as [| x l] eqn:E.
      * destruct pre; [|discriminate]. reflexivity.
      * destruct pre; reflexivity.
    + unfold rev_df, revenue_query.
      rewrite (where_active_skip pre post b rooms room_types Hc). reflexivity.
Qed.

End Summation.

End DashboardFacts.

(** C6, as the spec states it, fails on both figures.  With the amounts
    1000.10, 6000.30 and 1000.10 in a NUMERIC column, all active, the
    metric is the double 8000.500000000001, which is not their sum
    8000.50.  With two room types of the same name the chart has a
    single bar, the total of both: the totals of the two room types,
    2000.20 and 6000.30, are not on it. *)
Lemma revenue_as_stated_counterexample :
  (exists q,
     number_value
       (Dashboard.revenue Dashboard.sequential
          (Dashboard.bookings_df (Dashboard.SqlNumeric 2) Dashboard.cents_example))
     = Some q /\
     Dashboard.active_total Dashboard.cents_example = 800050 /\
     ~ (q == 800050 # 100)%Q) /\
  Dashboard.rev_df (Dashboard.SqlNumeric 2) Dashboard.cents_example
    Dashboard.rooms_example Dashboard.namesake_types
  = [("Стандарт"%string, Dashboard.cell_of (Dashboard.SqlNumeric 2) 800050)] /\
  (forall rt, In rt Dashboard.namesake_types ->
     ~ In (Dashboard.type_name rt,
           Dashboard.cell_of (Dashboard.SqlNumeric 2)
             (Dashboard.room_type_total Dashboard.cents_example
                Dashboard.rooms_example rt))
          (Dashboard.rev_df (Dashboard.SqlNumeric 2) Dashboard.cents_example
             Dashboard.rooms_example Dashboard.namesake_types)).
Proof.
  split.
  - eexists. split; [vm_compute; reflexivity|].
    split; [reflexivity|]. unfold Qeq. vm_compute. discriminate.
  - split; [vm_compute; reflexivity|].
    intros rt [<- | [<- | []]]; vm_compute; intros [H | []]; discriminate H.
Qed.

(** The same three amounts in another row order add up to 8000.5: the
    metric of a NUMERIC column depends on the order of the rows. *)
Lemma revenue_row_order_example :
  Dashboard.revenue Dashboard.sequential
    (Dashboard.bookings_df (Dashboard.SqlNumeric 2)
       [Dashboard.mkBooking 1 1 1 739000 739001 100010 (Some "active"%string);
        Dashboard.mkBooking 3 3 1 739002 739003 100010 (Some "active"%string);
        Dashboard.mkBooking 2 2 2 739000 739006 600030 (Some "active"%string)])
  = Dashboard.cell_of (Dashboard.SqlNumeric 2) 800050 /\
  Dashboard.revenue Dashboard.sequential
    (Dashboard.bookings_df (Dashboard.SqlNumeric 2) Dashboard.cents_example)
  <> Dashboard.cell_of (Dashboard.SqlNumeric 2) 800050.
Proof. split; vm_compute; [reflexivity | discriminate]. Qed.

Lemma revenue_from_tables_witness :
  to_float (Dashboard.revenue Dashboard.sequential
              (Dashboard.bookings_df (Dashboard.SqlNumeric 2) Dashboard.ledger_example))
  = float_of_int 10500 /\
  exists q,
    number_value (Dashboard.revenue Dashboard.sequential
                    (Dashboard.bookings_df (Dashboard.SqlNumeric 2)
                       Dashboard.ledger_example)) = Some q /\
    (q == inject_Z 10500)%Q.
Proof.
  apply (proj1 (proj2 (proj2 (revenue_from_tables Dashboard.sequential sequential_leaves
                                (Dashboard.SqlNumeric 2) Dashboard.ledger_example
                                Dashboard.rooms_example Dashboard.room_types_example)))
           2%nat (fun b => Dashboard.total_cost b / 100)).
  - reflexivity.
  - intros b [<- | [<- | [<- | []]]] Hs; try discriminate Hs;
      (split; [vm_compute; discriminate | vm_compute; reflexivity]).
  - vm_compute. reflexivity.
Defined.

(** The scenario with whole amounts in an INTEGER column. *)
Lemma dashboard_example :
  Dashboard.revenue Dashboard.sequential
    (Dashboard.bookings_df Dashboard.SqlInteger Dashboard.bookings_example) = NInt 6000 /\
  Dashboard.rev_df Dashboard.SqlInteger Dashboard.bookings_example
    Dashboard.rooms_example Dashboard.room_types_example
  = [("Стандарт"%string, NInt 6000)].
Proof. split; vm_compute; reflexivity. Qed.

(* ----------------------------------------------------------------- *)
(** ** The search of the history page *)

Section HistoryFacts.
Import History.
Variable lower : N -> N.

Lemma parse_plain (pat : str) :
  forallb (fun c => negb (is_special c)) pat = true ->
  parse pat = Some (map Lit pat).
Proof.
  induction pat as [| c pat IH]; cbn [forallb parse map]; [reflexivity|].
  intros H. apply andb_true_iff in H. destruct H as [Hc Hr].
  rewrite (IH Hr). apply negb_true_iff in Hc.
  destruct (N.eqb c 46) eqn:E.
  - apply N.eqb_eq in E. subst c. discriminate.
  - rewrite Hc. reflexivity.
Qed.

Lemma re_compile_plain (pat : str) :
  forallb (fun c => negb (is_special c)) pat = true ->
  re_compile pat = Pattern (map Lit pat).
Proof.
  intros H. unfold re_compile. destruct pat as [| c pat]; [reflexivity|].
  rewrite (parse_plain _ H). cbn [forallb] in H.
  apply andb_true_iff in H. destruct H as [Hc _]. apply negb_true_iff in Hc.
  destruct (N.eqb c 42) eqn:E1; [apply N.eqb_eq in E1; subst c; discriminate|].
  destruct (N.eqb c 43) eqn:E2; [apply N.eqb_eq in E2; subst c; discriminate|].
  destruct (N.eqb c 63) eqn:E3; [apply N.eqb_eq in E3; subst c; discriminate|].
  reflexivity.
Qed.

Lemma match_here_plain (pat s : str) :
  match_here lower (map Lit pat) s = true <->
  exists post, map lower s = map lower pat ++ post.
Proof.
  revert s. induction pat as [| c pat IH]; intros s; cbn [map match_here].
  - split; [intros _; exists (map lower s); reflexivity | reflexivity].
  - destruct s as [| d s]; cbn [map app].
    + split; [discriminate | intros [post H]; discriminate].
    + cbn [atom_matches]. rewrite andb_true_iff, N.eqb_eq, IH. split.
      * intros [Hc [post Hp]]. exists post. congruence.
      * intros [post Hp]. inversion Hp. split; [reflexivity | eauto].
Qed.

Lemma re_search_plain (pat s : str) :
  re_search lower (map Lit pat) s = true <-> ci_substring lower pat s.
Proof.
  unfold ci_substring. induction s as [| d s IH]; cbn [re_search].
  - rewrite orb_false_r, match_here_plain. cbn [map]. split.
    + intros [post H]. exists [], post. assumption.
    + intros [pre [post H]]. destruct pre; [|discriminate]. exists post. assumption.
  - rewrite orb_true_iff, match_here_plain, IH. cbn [map]. split.
    + intros [[post H] | [pre [post H]]].
      * exists [], post. assumption.
      * exists (lower d :: pre), post. cbn [app]. congruence.
    + intros [pre [post H]]. destruct pre as [| x pre]; cbn [app] in H.
      * left. exists post. assumption.
      * right. inversion H. exists pre, post. assumption.
Qed.

(** For a search string without [re] operators the page does what the
    spec says: the rows kept are those whose guest name holds the
    string, letter case apart; rows without a name are dropped. *)
Lemma history_search_plain (search : str) (df : list entry) :
  search <> [] ->
  forallb (fun c => negb (is_special c)) search = true ->
  exists rows,
    history_search lower search df = Some (Ok rows) /\
    forall e, In e rows <->
              In e df /\ exists s, guest e = Some s /\ ci_substring lower search s.
Proof.
  intros Hne Hplain. unfold history_search.
  destruct search as [| c r] eqn:E; [congruence|]. rewrite <- E in *.
  rewrite (re_compile_plain _ Hplain). eexists. split; [reflexivity|].
  intros e. rewrite filter_In. unfold str_contains. split.
  - intros [Hin Hm]. split; [assumption|].
    destruct (guest e) as [s |]; [|discriminate].
    exists s. split; [reflexivity|]. apply re_search_plain. assumption.
  - intros [Hin [s [Hg Hs]]]. split; [assumption|]. rewrite Hg.
    apply re_search_plain. assumption.
Qed.

(** With an empty search string all rows are shown. *)
Lemma history_search_empty (df : list entry) :
  history_search lower [] df = Some (Ok df).
Proof. reflexivity. Qed.

End HistoryFacts.

(** C7 at a search string with a [re] operator.  The search ["."] keeps
    the row of the guest Ivan, whose name holds no dot: the string is
    compiled as a regular expression, in which the dot stands for any
    character. *)
Theorem history_search_dot_matches_any_name :
  History.history_search History.ascii_lower (History.of_string ".") [History.ivan]
  = Some (Ok [History.ivan]) /\
  ~ History.ci_substring History.ascii_lower (History.of_string ".")
      (History.of_string "Ivan").
Proof.
  split; [vm_compute; reflexivity|].
  intros [pre [post H]].
  assert (Hin : In 46%N (map History.ascii_lower (History.of_string "Ivan"))).
  { rewrite H. apply in_or_app. right. left. reflexivity. }
  vm_compute in Hin.
  repeat (destruct Hin as [Hin | Hin]; [discriminate|]). exact Hin.
Qed.

(** A search string that starts with a repetition operator stops the
    page with [re.error]. *)
Lemma history_search_plus_raises :
  History.history_search History.ascii_lower (History.of_string "+7") [History.ivan]
  = Some (Raise History.nothing_to_repeat).
Proof. vm_compute. reflexivity. Qed.

Lemma history_search_plain_example :
  History.history_search History.ascii_lower (History.of_string "iva") [History.ivan]
  = Some (Ok [History.ivan]).
Proof. vm_compute. reflexivity. Qed.

(* ================================================================= *)
(** * More on the connection *)

Section ConnectionMore.
Context {D : Database}.
Local Open Scope st_scope.

(** [run_procedure] is all or nothing: when it returns, the connection
    was made, the statement ran, the commit went through, and the server
    holds what the statement wrote; when it raises, for whatever reason,
    the server is as it was. *)
Theorem run_procedure_all_or_nothing (sql : string) (params : list value) (srv : DB) :
  match snd (run_procedure sql params srv) with
  | Ok _ => accepted sql params srv
              (server_after srv (fst (run_procedure sql params srv)))
  | Raise _ => server_after srv (fst (run_procedure sql params srv)) = srv
  end.
Proof.
  unfold accepted, run_procedure, get_db, connect.
  destruct (connect_error srv) as [e0 |] eqn:Hc; cbn; [reflexivity|].
  unfold try_finally, try_except, bind, in_tx, commit, rollback, close,
    raise, ret, logged; cbn.
  destruct (cursor_execute sql params srv) as [w [[] | e1]] eqn:He; cbn.
  - destruct (commit_error w) as [e2 |] eqn:Hm; cbn.
    + destruct (is_Exception e2); reflexivity.
    + auto.
  - destruct (is_Exception e1); reflexivity.
Qed.

(** The docstring of [get_db]: the connection is closed whatever the
    body does.  When [connect] raises there is no connection and its
    exception propagates; otherwise the connection ends up closed, with
    no uncommitted work, and [close()] is the last call it has received. *)
Theorem get_db_always_closes {A} (body : M A) (srv : DB) :
  match connect_error srv with
  | Some e => get_db body srv = (None, Raise e)
  | None =>
      exists c before,
        fst (get_db body srv) = Some c /\
        closed c = true /\
        working c = committed c /\
        calls c = before ++ [CClose]
  end.
Proof.
  unfold get_db, connect. destruct (connect_error srv) as [e0 |]; [reflexivity|].
  unfold try_finally, close, logged.
  destruct (try_except _ _ _) as [c1 r]. cbn.
  eexists; eexists. repeat split.
Qed.

(** A query that writes nothing leaves the server as it was, whether
    [run_query] returns its frame or raises. *)
Theorem run_query_read_only (sql : string) (params : list value) (srv : DB) :
  (forall db, fst (read_sql sql params db) = db) ->
  server_after srv (fst (run_query sql params srv)) = srv.
Proof.
  intros Hro. unfold run_query, get_db, connect.
  destruct (connect_error srv) as [e0 |]; cbn; [reflexivity|].
  unfold try_finally, try_except, bind, in_tx, commit, rollback, close,
    raise, ret, logged; cbn.
  specialize (Hro srv).
  destruct (read_sql sql params srv) as [w [f | e1]]; cbn in *; subst w.
  - destruct (commit_error srv) as [e2 |]; cbn.
    + destruct (is_Exception e2); reflexivity.
    + reflexivity.
  - destruct (is_Exception e1); reflexivity.
Qed.

End ConnectionMore.

Lemma run_query_read_only_witness :
  @server_after JournalServer empty_journal
    (fst (@run_query JournalServer "SELECT status FROM room_status_view" []
            empty_journal))
  = empty_journal.
Proof.
  apply (@run_query_read_only JournalServer "SELECT status FROM room_status_view" []
           empty_journal).
  intros db. reflexivity.
Defined.

(* ================================================================= *)
(** * More on the booking page *)

Section BookMore.
Context {D : Database}.
Local Open Scope st_scope.

Lemma filter_first {A} (f : A -> bool) (pre post : list A) (x : A) :
  (forall y, In y pre -> f y = false) -> f x = true ->
  filter f (pre ++ x :: post) = x :: filter f post.
Proof.
  intros Hpre Hx. induction pre as [| y pre IH]; cbn [app filter].
  - rewrite Hx. reflexivity.
  - rewrite (Hpre y (or_introl eq_refl)).
    apply IH. intros z Hz. apply Hpre. right; assumption.
Qed.

Lemma filter_head {A} (f : A -> bool) (l : list A) (x : A) (rest : list A) :
  filter f l = x :: rest ->
  exists pre post, l = pre ++ x :: post /\ f x = true /\
                   forall y, In y pre -> f y = false.
Proof.
  induction l as [| y l IH]; cbn [filter]; [discriminate|].
  destruct (f y) eqn:E.
  - intros H; inversion H; subst. exists [], l. repeat split; [assumption|].
    intros z [].
  - intros H. destruct (IH H) as [pre [post [Hl [Hx Hpre]]]].
    exists (y :: pre), post. subst l. repeat split; [assumption|].
    intros z [<- | Hz]; auto.
Qed.

Lemma has_name_first (selected_guest : option string) (pre post : list Book.guest)
    (g : Book.guest) :
  selected_guest = Some (Book.full_name g) ->
  (forall x, In x pre -> Book.full_name x <> Book.full_name g) ->
  filter (has_name selected_guest) (pre ++ g :: post)
  = g :: filter (has_name selected_guest) post.
Proof.
  intros -> Hpre. apply filter_first.
  - intros y Hy. cbn. apply String.eqb_neq. apply Hpre. assumption.
  - cbn. apply String.eqb_refl.
Qed.

(** A refusal of the server does not escape the booking form: for a
    submission with [date_out > date_in] and a guest found, an
    [Exception] raised by [run_procedure] is shown as an error after the
    cost preview, the form returns, and the server is as it was. *)
Theorem booking_form_server_error (pre post : list Book.guest) (g : Book.guest)
    (room_row : Book.room) (r_id : Z) (date_in date_out : date)
    (w : world) (e : exn) :
  date_out > date_in ->
  (forall x, In x pre -> Book.full_name x <> Book.full_name g) ->
  snd (run_procedure Book.make_booking_sql
         [VInt (Book.guest_id g); VInt r_id; VDate date_in; VDate date_out]
         (server w)) = Raise e ->
  is_Exception e = true ->
  let out := Book.booking_form (pre ++ g :: post) room_row r_id
               (Some (Book.full_name g)) date_in date_out true w in
  snd out = Ok tt /\
  server (fst out) = server w /\
  exists cost,
    screen (fst out)
    = screen w ++ [st_metric_cost cost (date_out - date_in); st_error (error_text e)].
Proof.
  intros Hgt Hpre Hr He out. subst out.
  destruct (cost_preview_shown date_in date_out (Book.price_per_night room_row) Hgt)
    as [cost Hc].
  rewrite (booking_form_submitted _ _ _ _ _ _ _ cost Hgt Hc).
  rewrite (has_name_first _ pre post g eq_refl Hpre). cbv zeta.
  pose proof (run_procedure_raises Book.make_booking_sql
                [VInt (Book.guest_id g); VInt r_id; VDate date_in; VDate date_out]
                (server w) e Hr) as Hs.
  destruct (run_procedure Book.make_booking_sql _ (server w)) as [oc r].
  cbn [fst snd] in *. subst r. rewrite He. cbn [fst snd server screen].
  repeat split; [assumption|]. exists cost. rewrite <- app_assoc. reflexivity.
Qed.

(** A booking the server takes: the call is committed, the success is
    shown after the cost preview, and the script is restarted by
    [st.rerun()], whose exception the form does not catch. *)
Theorem booking_form_success (pre post : list Book.guest) (g : Book.guest)
    (room_row : Book.room) (r_id : Z) (date_in date_out : date)
    (w : world) (db' : DB) :
  date_out > date_in ->
  (forall x, In x pre -> Book.full_name x <> Book.full_name g) ->
  accepted Book.make_booking_sql
    [VInt (Book.guest_id g); VInt r_id; VDate date_in; VDate date_out]
    (server w) db' ->
  let out := Book.booking_form (pre ++ g :: post) room_row r_id
               (Some (Book.full_name g)) date_in date_out true w in
  snd out = Raise RerunException /\
  server (fst out) = db' /\
  sent (fst out)
  = sent w ++ [CExecute Book.make_booking_sql
                 [VInt (Book.guest_id g); VInt r_id; VDate date_in; VDate date_out];
               CCommit; CClose] /\
  exists cost,
    screen (fst out)
    = screen w ++ [st_metric_cost cost (date_out - date_in);
                   st_success Book.booked_message].
Proof.
  intros Hgt Hpre Hacc out. subst out.
  destruct (cost_preview_shown date_in date_out (Book.price_per_night room_row) Hgt)
    as [cost Hc].
  rewrite (booking_form_submitted _ _ _ _ _ _ _ cost Hgt Hc).
  rewrite (has_name_first _ pre post g eq_refl Hpre). cbv zeta.
  destruct (run_procedure_accepted _ _ _ _ Hacc) as [Hr [Hs Hcalls]].
  destruct (run_procedure Book.make_booking_sql _ (server w)) as [oc r].
  cbn [fst snd] in *. subst r. cbn [fst snd server sent screen].
  rewrite Hcalls. repeat split; [assumption|].
  exists cost. rewrite <- app_assoc. reflexivity.
Qed.

(** No guest of the list has the selected name (the list is empty, or
    nothing is selected): the look-up raises [IndexError] inside the
    [try], the form shows it as an error and sends nothing. *)
Theorem booking_form_unknown_guest (guests_df : list Book.guest)
    (room_row : Book.room) (r_id : Z) (selected_guest : option string)
    (date_in date_out : date) (w : world) :
  date_out > date_in ->
  (forall g, In g guests_df -> selected_guest <> Some (Book.full_name g)) ->
  exists cost,
    Book.booking_form guests_df room_row r_id selected_guest date_in date_out true w
    = (mkWorld (server w) (sent w)
         (screen w ++ [st_metric_cost cost (date_out - date_in);
                       st_error (error_text IndexError)]),
       Ok tt).
Proof.
  intros Hgt Hnone.
  destruct (cost_preview_shown date_in date_out (Book.price_per_night room_row) Hgt)
    as [cost Hc].
  exists cost. rewrite (booking_form_submitted _ _ _ _ _ _ _ cost Hgt Hc).
  assert (Hf : filter (has_name selected_guest) guests_df = []).
  { destruct (filter (has_name selected_guest) guests_df) as [| g rest] eqn:E;
      [reflexivity|].
    exfalso. assert (Hin : In g (filter (has_name selected_guest) guests_df))
      by (rewrite E; left; reflexivity).
    apply filter_In in Hin. destruct Hin as [Hin Hn].
    apply (Hnone g Hin). unfold has_name in Hn.
    destruct selected_guest as [n |]; [|discriminate].
    apply String.eqb_eq in Hn. congruence. }
  rewrite Hf. cbv zeta. rewrite <- app_assoc. reflexivity.
Qed.

Lemma guest_id_of_first (guests_df : list Book.guest) (selected_guest : option string) :
  returns (fun id => exists pre g post,
             guests_df = pre ++ g :: post /\
             selected_guest = Some (Book.full_name g) /\
             (forall x, In x pre -> Book.full_name x <> Book.full_name g) /\
             id = Book.guest_id g)
    (Book.guest_id_of guests_df selected_guest).
Proof.
  intros w id. unfold Book.guest_id_of.
  change (fun g : Book.guest =>
            match selected_guest with
            | Some n => String.eqb (Book.full_name g) n
            | None => false
            end) with (has_name selected_guest).
  destruct (filter (has_name selected_guest) guests_df) as [| g rest] eqn:E;
    cbn [map first_row]; [discriminate|].
  cbn. intros H; inversion H; subst id.
  destruct (filter_head _ _ _ _ E) as [pre [post [Hl [Hg Hpre]]]].
  unfold has_name in Hg, Hpre.
  destruct selected_guest as [n |]; [|discriminate].
  apply String.eqb_eq in Hg. subst n.
  exists pre, g, post. repeat split; try assumption.
  intros x Hx. apply String.eqb_neq. apply Hpre. assumption.
Qed.

(** Guests are told apart by name only: every [make_booking] the form
    executes is for the first guest of the list who has the selected
    name, so a guest listed after a namesake is never booked. *)
Theorem booking_form_books_first_namesake (guests_df : list Book.guest)
    (room_row : Book.room) (r_id : Z) (selected_guest : option string)
    (date_in date_out : date) (submit : bool) (w : world) :
  exists extra,
    sent (fst (Book.booking_form guests_df room_row r_id selected_guest
                 date_in date_out submit w)) = sent w ++ extra /\
    forall s p, In (CExecute s p) extra ->
      exists pre g post,
        guests_df = pre ++ g :: post /\
        selected_guest = Some (Book.full_name g) /\
        (forall x, In x pre -> Book.full_name x <> Book.full_name g) /\
        p = [VInt (Book.guest_id g); VInt r_id; VDate date_in; VDate date_out].
Proof.
  revert w.
  change (sends (fun s p =>
            exists pre g post,
              guests_df = pre ++ g :: post /\
              selected_guest = Some (Book.full_name g) /\
              (forall x, In x pre -> Book.full_name x <> Book.full_name g) /\
              p = [VInt (Book.guest_id g); VInt r_id; VDate date_in; VDate date_out])
            (Book.booking_form guests_df room_row r_id selected_guest
               date_in date_out submit)).
  unfold Book.booking_form. apply sends_seq.
  - destruct (Book.cost_preview _ _ _) as [[nights cost] |];
      [apply sends_show | apply sends_ret].
  - destruct submit; [|apply sends_ret].
    destruct (date_out <=? date_in); [apply sends_show|].
    apply sends_try_except; [|intros e; apply sends_show].
    eapply sends_bind.
    + apply sends_first_row.
    + apply guest_id_of_first.
    + intros id [pre [g [post [Hl [Hs [Hpre Hid]]]]]]. cbv beta.
      apply sends_seq; [|apply sends_seq; [apply sends_show | apply sends_raise]].
      apply sends_call. exists pre, g, post. subst id. auto.
Qed.

(** The form never sends a booking whose cost it has not shown: when a
    run of the form has executed something on the server, the first
    element it has put on the screen is the cost preview, for at least
    one night. *)
Theorem booking_form_shows_cost_before_booking (guests_df : list Book.guest)
    (room_row : Book.room) (r_id : Z) (selected_guest : option string)
    (date_in date_out : date) (submit : bool) (w : world) :
  sent (fst (Book.booking_form guests_df room_row r_id selected_guest
               date_in date_out submit w)) <> sent w ->
  1 <= date_out - date_in /\
  exists cost rest,
    screen (fst (Book.booking_form guests_df room_row r_id selected_guest
                   date_in date_out submit w))
    = screen w ++ st_metric_cost cost (date_out - date_in) :: rest.
Proof.
  intros Hsent.
  destruct (Z_le_gt_dec date_out date_in) as [Hle | Hgt].
  - exfalso. apply Hsent. unfold Book.booking_form.
    rewrite (cost_preview_hidden _ _ _ Hle).
    assert (Hl : (date_out <=? date_in) = true) by (apply Z.leb_le; lia).
    rewrite Hl. destruct submit; reflexivity.
  - split; [lia|].
    destruct (cost_preview_shown date_in date_out (Book.price_per_night room_row) Hgt)
      as [cost Hc].
    exists cost. destruct submit.
    + rewrite (booking_form_submitted _ _ _ _ _ _ _ cost Hgt Hc). cbv zeta.
      destruct (filter (has_name selected_guest) guests_df) as [| g rest].
      * eexists. cbn [fst screen]. rewrite <- app_assoc. reflexivity.
      * destruct (run_procedure Book.make_booking_sql _ (server w)) as [oc [[] | e]].
        -- eexists. cbn [fst screen]. rewrite <- app_assoc. reflexivity.
        -- destruct (is_Exception e); eexists; cbn [fst screen];
             [rewrite <- app_assoc|]; reflexivity.
    + exfalso. apply Hsent. unfold Book.booking_form. rewrite Hc. reflexivity.
Qed.

(** The room of the page.  Without rooms the page stops with
    [IndexError] before the form; with rooms the look-up cannot fail:
    the form runs for the first room of the list that has the selected
    number, which is the number at the chosen position. *)
Theorem booking_page_room_lookup (date_input : string -> date -> date -> date)
    (today : date) (rooms_df : list Book.room) (guests_df : list Book.guest)
    (room_choice guest_choice : nat) (submit : bool) (w : world) :
  match rooms_df with
  | [] =>
      Book.booking_page date_input today rooms_df guests_df
        room_choice guest_choice submit w = (w, Raise IndexError)
  | first :: _ =>
      exists pre room_row post,
        rooms_df = pre ++ room_row :: post /\
        Book.room_number room_row
        = nth room_choice (map Book.room_number rooms_df) (Book.room_number first) /\
        (forall r, In r pre -> Book.room_number r <> Book.room_number room_row) /\
        Book.booking_page date_input today rooms_df guests_df
          room_choice guest_choice submit w
        = Book.booking_form guests_df room_row (Book.room_id room_row)
            (selectbox (map Book.full_name guests_df) guest_choice)
            (date_input Book.date_in_label today today)
            (date_input Book.date_out_label (plus_days today 1) (plus_days today 1))
            submit w
  end.
Proof.
  destruct rooms_df as [| first rest] eqn:Erooms; [reflexivity|].
  rewrite <- Erooms.
  set (n := nth room_choice (map Book.room_number rooms_df) (Book.room_number first)).
  assert (Hsel : selectbox (map Book.room_number rooms_df) room_choice = Some n).
  { unfold n. rewrite Erooms. reflexivity. }
  assert (Hin : In n (map Book.room_number rooms_df)).
  { unfold n. destruct (Nat.lt_ge_cases room_choice
                          (List.length (map Book.room_number rooms_df))) as [Hlt | Hge].
    - apply nth_In. assumption.
    - rewrite nth_overflow by assumption. rewrite Erooms. left; reflexivity. }
  apply in_map_iff in Hin. destruct Hin as [r0 [Hr0 Hin0]].
  assert (Hf : exists x xs, filter (has_number (Some n)) rooms_df = x :: xs).
  { destruct (filter (has_number (Some n)) rooms_df) as [| x xs] eqn:E; [|eauto].
    exfalso. assert (H : In r0 (filter (has_number (Some n)) rooms_df)).
    { apply filter_In. split; [assumption|]. cbn. apply Z.eqb_eq. assumption. }
    rewrite E in H. destruct H. }
  destruct Hf as [x [xs Hf]].
  destruct (filter_head _ _ _ _ Hf) as [pre [post [Hl [Hx Hpre]]]].
  cbn in Hx. apply Z.eqb_eq in Hx.
  exists pre, x, post. repeat split; try assumption.
  - intros r Hr. specialize (Hpre r Hr). cbn in Hpre. apply Z.eqb_neq in Hpre. lia.
  - unfold Book.booking_page. rewrite Hsel.
    change (fun r : Book.room => Book.room_number r =? n) with (has_number (Some n)).
    rewrite Hf. reflexivity.
Qed.

End BookMore.

Lemma booking_form_server_error_witness :
  let out := @Book.booking_form RefusingServer
               ([] ++ Book.mkGuest 1 "Ivan Petrov" :: [Book.mkGuest 2 "Olga Sidorova"])
               Book.room_101 1 (Some "Ivan Petrov"%string) 739000 739003 true
               fresh_refusing in
  snd out = Ok tt /\
  server (fst out) = server fresh_refusing /\
  exists cost,
    screen (fst out)
    = screen fresh_refusing
      ++ [st_metric_cost cost (739003 - 739000); st_error (error_text refusal)].
Proof.
  apply (@booking_form_server_error RefusingServer []
           [Book.mkGuest 2 "Olga Sidorova"] (Book.mkGuest 1 "Ivan Petrov")
           Book.room_101 1 739000 739003 fresh_refusing refusal).
  - reflexivity.
  - intros x [].
  - reflexivity.
  - reflexivity.
Defined.

Lemma booking_form_success_witness :
  let out := @Book.booking_form JournalServer
               ([] ++ Book.mkGuest 1 "Ivan Petrov" :: [Book.mkGuest 2 "Olga Sidorova"])
               Book.room_101 1 (Some "Ivan Petrov"%string) 739000 739003 true fresh in
  snd out = Raise RerunException /\
  server (fst out)
  = [(Book.make_booking_sql, [VInt 1; VInt 1; VDate 739000; VDate 739003])] /\
  sent (fst out)
  = sent fresh ++ [CExecute Book.make_booking_sql
                     [VInt 1; VInt 1; VDate 739000; VDate 739003];
                   CCommit; CClose] /\
  exists cost,
    screen (fst out)
    = screen fresh ++ [st_metric_cost cost (739003 - 739000);
                       st_success Book.booked_message].
Proof.
  apply (@booking_form_success JournalServer []
           [Book.mkGuest 2 "Olga Sidorova"] (Book.mkGuest 1 "Ivan Petrov")
           Book.room_101 1 739000 739003 fresh
           [(Book.make_booking_sql, [VInt 1; VInt 1; VDate 739000; VDate 739003])]).
  - reflexivity.
  - intros x [].
  - repeat split.
Defined.

Lemma booking_form_unknown_guest_witness :
  exists cost,
    @Book.booking_form JournalServer [] Book.room_101 1 None 739000 739003 true fresh
    = (mkWorld (server fresh) (sent fresh)
         (screen fresh ++ [st_metric_cost cost (739003 - 739000);
                           st_error (error_text IndexError)]),
       Ok tt).
Proof.
  apply (@booking_form_unknown_guest JournalServer [] Book.room_101 1 None
           739000 739003 fresh).
  - reflexivity.
  - intros g [].
Defined.

Lemma booking_form_shows_cost_before_booking_witness :
  1 <= 739003 - 739000 /\
  exists cost rest,
    screen (fst (@Book.booking_form JournalServer Book.guests_example Book.room_101 1
                   (Some "Ivan Petrov"%string) 739000 739003 true fresh))
    = screen fresh ++ st_metric_cost cost (739003 - 739000) :: rest.
Proof.
  apply (@booking_form_shows_cost_before_booking JournalServer Book.guests_example
           Book.room_101 1 (Some "Ivan Petrov"%string) 739000 739003 true fresh).
  vm_compute. discriminate.
Defined.

(* ================================================================= *)
(** * More on the registration form *)

Section GuestMore.
Context {D : Database}.
Local Open Scope st_scope.

(** A refusal of the server does not escape the registration form: an
    [Exception] raised by [run_procedure] (a constraint of the table, a
    lost connection) is shown as an error, the form returns, no success
    is shown and the server is as it was. *)
Theorem guest_form_server_error (name passport phone : string) (w : world) (e : exn) :
  name <> EmptyString ->
  passport <> EmptyString ->
  snd (run_procedure Guest.insert_guest_sql
         [VStr name; VStr passport; VStr phone] (server w)) = Raise e ->
  is_Exception e = true ->
  let out := Guest.guest_form name passport phone true w in
  snd out = Ok tt /\
  server (fst out) = server w /\
  screen (fst out) = screen w ++ [st_error (error_text e)].
Proof.
  intros Hn Hp Hr He out. subst out. unfold Guest.guest_form.
  destruct name as [| a n]; [congruence|].
  destruct passport as [| b q]; [congruence|].
  cbn [is_empty orb].
  pose proof (run_procedure_raises _ _ _ _ Hr) as Hs.
  unfold try_except, bind, call_procedure, show.
  destruct (run_procedure Guest.insert_guest_sql _ (server w)) as [oc r].
  cbn [fst snd] in *. subst r. rewrite He. cbn. auto.
Qed.

End GuestMore.

Lemma guest_form_server_error_witness :
  let out := @Guest.guest_form RefusingServer "Ivan Petrov" "4510 123456"
               "+7 900 000-00-00" true fresh_refusing in
  snd out = Ok tt /\
  server (fst out) = server fresh_refusing /\
  screen (fst out) = screen fresh_refusing ++ [st_error (error_text refusal)].
Proof.
  apply (@guest_form_server_error RefusingServer "Ivan Petrov" "4510 123456"
           "+7 900 000-00-00" fresh_refusing refusal).
  - discriminate.
  - discriminate.
  - reflexivity.
  - reflexivity.
Defined.

(* ================================================================= *)
(** * More on the cancellation section *)

Section BookingsMore.
Context {D : Database}.
Local Open Scope st_scope.
Import Bookings.

Lemma keys_dict_set_old (k : string) (v : Z) (d : dict) :
  In k (keys d) -> keys (dict_set k v d) = keys d.
Proof.
  unfold keys. induction d as [| [k0 v0] d IH]; cbn [map dict_set fst];
    [intros []|].
  intros Hin. destruct (String.eqb k k0) eqn:E.
  - apply String.eqb_eq in E. subst k0. reflexivity.
  - cbn [map fst]. f_equal. apply IH. destruct Hin as [-> | Hin]; [|assumption].
    rewrite String.eqb_refl in E. discriminate.
Qed.

Lemma keys_dict_set_new (k : string) (v : Z) (d : dict) :
  ~ In k (keys d) -> keys (dict_set k v d) = keys d ++ [k].
Proof.
  unfold keys. induction d as [| [k0 v0] d IH]; cbn [map dict_set fst app];
    [reflexivity|].
  intros Hnin. destruct (String.eqb k k0) eqn:E.
  - apply String.eqb_eq in E. subst k0. exfalso. apply Hnin. left; reflexivity.
  - cbn [map fst]. f_equal. apply IH. intros H. apply Hnin. right; assumption.
Qed.

Lemma keys_dict_set_nodup (k : string) (v : Z) (d : dict) :
  NoDup (keys d) -> NoDup (keys (dict_set k v d)).
Proof.
  intros Hnd. destruct (in_dec string_dec k (keys d)) as [Hin | Hnin].
  - rewrite keys_dict_set_old; assumption.
  - rewrite keys_dict_set_new by assumption.
    apply NoDup_app; [assumption | repeat constructor; intros [] | ].
    intros a Ha [<- | []]. contradiction.
Qed.

Lemma dict_get_in_keys (k : string) (d : dict) :
  In k (keys d) -> exists v, dict_get k d = Some v.
Proof.
  unfold keys. induction d as [| [k0 v0] d IH]; cbn [map fst dict_get]; [intros []|].
  intros Hin. destruct (String.eqb k k0) eqn:E; [eauto|].
  apply IH. destruct Hin as [-> | Hin]; [|assumption].
  rewrite String.eqb_refl in E. discriminate.
Qed.

(** The dict of the options never holds a label twice. *)
Theorem booking_options_keys_nodup (label : row -> string) (rows : list row) :
  NoDup (keys (booking_options label rows)).
Proof.
  unfold booking_options.
  assert (H : forall d, NoDup (keys d) ->
            NoDup (keys (fold_left (fun d r => dict_set (label r) (booking_id r) d)
                           rows d))).
  { induction rows as [| r rows IH]; intros d Hd; cbn [fold_left]; [assumption|].
    apply IH. apply keys_dict_set_nodup. assumption. }
  apply H. constructor.
Qed.

Lemma fold_keys_keep (label : row -> string) (rows : list row) :
  forall d k, In k (keys d) ->
    In k (keys (fold_left (fun d r => dict_set (label r) (booking_id r) d) rows d)).
Proof.
  induction rows as [| r rows IH]; intros d k Hk; cbn [fold_left]; [assumption|].
  apply IH. destruct (in_dec string_dec (label r) (keys d)) as [Hin | Hnin].
  - rewrite keys_dict_set_old; assumption.
  - rewrite keys_dict_set_new by assumption. apply in_or_app. left; assumption.
Qed.

Lemma fold_last_wins (label : row -> string) (post : list row) :
  forall d k v,
    dict_get k d = Some v ->
    (forall r, In r post -> label r <> k) ->
    dict_get k (fold_left (fun d r => dict_set (label r) (booking_id r) d) post d)
    = Some v.
Proof.
  induction post as [| r post IH]; intros d k v Hd Hpost; cbn [fold_left];
    [assumption|].
  apply IH.
  - rewrite dict_get_set.
    assert (Hne : String.eqb k (label r) = false).
    { apply String.eqb_neq. intros H. apply (Hpost r (or_introl eq_refl)).
      symmetry; assumption. }
    rewrite Hne. assumption.
  - intros r' Hr'. apply Hpost. right; assumption.
Qed.

Lemma booking_options_last_row (label : row -> string) (pre post : list row)
    (r : row) :
  (forall r', In r' post -> label r' <> label r) ->
  dict_get (label r) (booking_options label (pre ++ r :: post)) = Some (booking_id r).
Proof.
  intros Hpost. unfold booking_options. rewrite fold_left_app. cbn [fold_left].
  apply fold_last_wins; [|assumption].
  rewrite dict_get_set, String.eqb_refl. reflexivity.
Qed.

Lemma last_occurrence {A} (f : A -> bool) (l : list A) :
  existsb f l = true ->
  exists pre x post, l = pre ++ x :: post /\ f x = true /\
                     forall y, In y post -> f y = false.
Proof.
  induction l as [| a l IH]; cbn [existsb]; [discriminate|].
  intros H. destruct (existsb f l) eqn:E.
  - destruct (IH eq_refl) as [pre [x [post [Hl [Hx Hpost]]]]].
    exists (a :: pre), x, post. subst l. auto.
  - rewrite orb_false_r in H. exists [], a, l. repeat split; [assumption|].
    intros y Hy. destruct (f y) eqn:Ey; [|reflexivity].
    assert (Hex : existsb f l = true) by (apply existsb_exists; eauto).
    congruence.
Qed.

(** When several active bookings are printed with the same label, the
    label stands for the last of them: a look-up gives an id exactly
    when it is the id of the last row that carries the label. *)
Theorem booking_options_last_wins (label : row -> string) (rows : list row)
    (k : string) (v : Z) :
  dict_get k (booking_options label rows) = Some v <->
  exists pre r post,
    rows = pre ++ r :: post /\ label r = k /\ booking_id r = v /\
    forall r', In r' post -> label r' <> k.
Proof.
  split.
  - intros Hget.
    destruct (booking_options_get _ _ _ _ Hget) as [r1 [Hin1 [_ Hl1]]].
    assert (Hex : existsb (fun r => String.eqb (label r) k) rows = true).
    { apply existsb_exists. exists r1. split; [assumption|].
      apply String.eqb_eq. assumption. }
    destruct (last_occurrence _ _ Hex) as [pre [r [post [Hrows [Hr Hpost]]]]].
    apply String.eqb_eq in Hr.
    assert (Hne : forall r', In r' post -> label r' <> label r).
    { intros r' Hr'. rewrite Hr. apply String.eqb_neq. apply Hpost. assumption. }
    pose proof (booking_options_last_row label pre post r Hne) as Hlast.
    rewrite <- Hrows, Hr, Hget in Hlast. inversion Hlast.
    exists pre, r, post. repeat split; try assumption.
    intros r' Hr'. rewrite <- Hr. apply Hne. assumption.
  - intros [pre [r [post [-> [<- [<- Hpost]]]]]].
    apply booking_options_last_row. assumption.
Qed.


(** The label selected in the list is always found in the dict: the
    look-up of line 375 cannot raise [KeyError], and it gives the id of
    one of the rows. *)
Lemma getitem_selected_found (label : row -> string) (rows : list row)
    (choice : nat) (w : world) :
  rows <> [] ->
  exists r,
    In r rows /\
    getitem (booking_options label rows)
      (selectbox (keys (booking_options label rows)) choice) w
    = (w, Ok (booking_id r)).
Proof.
  intros Hne.
  assert (Hk : exists k ks, keys (booking_options label rows) = k :: ks).
  { destruct rows as [| r0 rows]; [congruence|].
    assert (Hin : In (label r0) (keys (booking_options label (r0 :: rows)))).
    { unfold booking_options. cbn [fold_left]. apply fold_keys_keep.
      left; reflexivity. }
    destruct (keys (booking_options label (r0 :: rows))) as [| k ks]; [destruct Hin|].
    eauto. }
  destruct Hk as [k [ks Hk]].
  assert (Hsel : exists key, selectbox (keys (booking_options label rows)) choice
                             = Some key /\ In key (keys (booking_options label rows))).
  { rewrite Hk. cbn [selectbox]. eexists. split; [reflexivity|].
    destruct (Nat.lt_ge_cases choice (List.length (k :: ks))) as [Hlt | Hge].
    - apply nth_In. assumption.
    - rewrite nth_overflow by assumption. left; reflexivity. }
  destruct Hsel as [key [Hsel Hin]]. rewrite Hsel.
  destruct (dict_get_in_keys _ _ Hin) as [v Hv].
  destruct (booking_options_get _ _ _ _ Hv) as [r [Hr [Hid _]]].
  exists r. split; [assumption|]. unfold getitem. rewrite Hv, Hid. reflexivity.
Qed.

Lemma active_row (df : list row) (r : row) :
  In r (filter Listing.active df) <-> In r df /\ status r = Some "active"%string.
Proof.
  rewrite filter_In. unfold Listing.active, cell_eqb. split.
  - intros [Hin Ha]. split; [assumption|].
    destruct (status r) as [st |]; [|discriminate].
    apply String.eqb_eq in Ha. congruence.
  - intros [Hin Hs]. rewrite Hs. split; [assumption | reflexivity].
Qed.

(** What a press of the button does once the look-up has given [b]. *)
Lemma cancel_section_pressed (label : row -> string) (df : list row)
    (choice : nat) (w : world) (b : Z) :
  filter Listing.active df <> [] ->
  getitem (booking_options label (filter Listing.active df))
    (selectbox (keys (booking_options label (filter Listing.active df))) choice) w
  = (w, Ok b) ->
  cancel_section label df choice true w
  = match run_procedure cancel_sql [VInt b] (server w) with
    | (oc, Ok _) =>
        (mkWorld (server_after (server w) oc) (sent w ++ calls_of oc)
           (screen w ++ [st_success cancelled_message]),
         Raise RerunException)
    | (oc, Raise e) =>
        if is_Exception e
        then (mkWorld (server_after (server w) oc) (sent w ++ calls_of oc)
                (screen w ++ [st_error (error_text e)]), Ok tt)
        else (mkWorld (server_after (server w) oc) (sent w ++ calls_of oc) (screen w),
              Raise e)
    end.
Proof.
  intros Hne Hget. unfold cancel_section.
  change (fun r : row => cell_eqb (status r) "active") with Listing.active.
  destruct (filter Listing.active df) as [| a rest] eqn:E; [congruence|].
  cbv zeta. unfold try_except, bind. rewrite Hget.
  unfold call_procedure. cbn [server sent screen].
  destruct (run_procedure cancel_sql [VInt b] (server w)) as [oc [[] | e]];
    cbn [show st_rerun raise server sent screen RerunException is_Exception exn_kind].
  - reflexivity.
  - destruct (is_Exception e); reflexivity.
Qed.

(** With an active booking listed, a press of the button always reaches
    [cancel_booking], for an active row, and [run_procedure] alone
    decides the outcome: success and restart of the script, or the error
    of the server shown with the server as it was. *)
Theorem cancel_section_outcome (label : row -> string) (df : list row)
    (choice : nat) (w : world) (r0 : row) :
  In r0 df ->
  status r0 = Some "active"%string ->
  exists r,
    In r df /\ status r = Some "active"%string /\
    let call := run_procedure cancel_sql [VInt (booking_id r)] (server w) in
    let out := cancel_section label df choice true w in
    sent (fst out) = sent w ++ calls_of (fst call) /\
    match snd call with
    | Ok _ =>
        snd out = Raise RerunException /\
        server (fst out) = server_after (server w) (fst call) /\
        screen (fst out) = screen w ++ [st_success cancelled_message]
    | Raise e =>
        server (fst out) = server w /\
        if is_Exception e
        then snd out = Ok tt /\ screen (fst out) = screen w ++ [st_error (error_text e)]
        else snd out = Raise e /\ screen (fst out) = screen w
    end.
Proof.
  intros Hin0 Hst0.
  assert (Hne : filter Listing.active df <> []).
  { intros H. assert (Hin : In r0 (filter Listing.active df))
      by (apply active_row; auto).
    rewrite H in Hin. destruct Hin. }
  destruct (getitem_selected_found label _ choice w Hne) as [r [Hr Hget]].
  apply active_row in Hr. destruct Hr as [Hin Hst].
  exists r. repeat split; try assumption; cbv zeta;
    rewrite (cancel_section_pressed label df choice w _ Hne Hget);
    pose proof (run_procedure_raises cancel_sql [VInt (booking_id r)] (server w)) as Hs;
    destruct (run_procedure cancel_sql [VInt (booking_id r)] (server w))
      as [oc [[] | e]]; cbn [fst snd] in *.
  - reflexivity.
  - destruct (is_Exception e); reflexivity.
  - auto.
  - split; [|destruct (is_Exception e); auto].
    destruct (is_Exception e); cbn [fst server]; apply (Hs e eq_refl).
Qed.


(** A booking that is cancelled from the page was on the screen: every
    [cancel_booking] the section executes is for a row that the listing
    shows under the filters "active" and "Все", and not under
    "cancelled". *)
Theorem cancel_section_cancels_listed (label : row -> string) (df : list row)
    (choice : nat) (button : bool) (w : world) (s : string) (p : list value) :
  In (CExecute s p) (sent (fst (cancel_section label df choice button w))) ->
  ~ In (CExecute s p) (sent w) ->
  exists r,
    p = [VInt (booking_id r)] /\
    In r (Listing.view_df "active" df) /\
    In r (Listing.view_df Listing.all_label df) /\
    ~ In r (Listing.view_df "cancelled" df).
Proof.
  intros Hin Hnew.
  destruct (filter Listing.active df) as [| a rest] eqn:E.
  - exfalso. apply Hnew. revert Hin. unfold cancel_section.
    change (fun r : row => cell_eqb (status r) "active") with Listing.active.
    rewrite E. cbn. tauto.
  - assert (Hne : filter Listing.active df <> []) by (rewrite E; discriminate).
    destruct button.
    + destruct (getitem_selected_found label _ choice w Hne) as [r [Hr Hget]].
      rewrite (cancel_section_pressed label df choice w _ Hne Hget) in Hin.
      assert (Hcall : In (CExecute s p)
                        (calls_of (fst (run_procedure cancel_sql
                                          [VInt (booking_id r)] (server w))))).
      { destruct (run_procedure cancel_sql [VInt (booking_id r)] (server w))
          as [oc [[] | e]]; [|destruct (is_Exception e)];
          cbn [fst sent] in Hin; apply in_app_or in Hin;
          destruct Hin as [Hin | Hin]; try contradiction; exact Hin. }
      apply run_procedure_calls in Hcall. destruct Hcall as [_ ->].
      exists r. split; [reflexivity|].
      pose proof Hr as Hact. apply active_row in Hact. destruct Hact as [Hdf Hst].
      unfold Listing.view_df. cbn [String.eqb]. repeat split.
      * exact Hr.
      * cbn. assumption.
      * cbn. intros Hc. apply filter_In in Hc. destruct Hc as [_ Hc].
        rewrite Hst in Hc. discriminate.
    + exfalso. apply Hnew. revert Hin. unfold cancel_section.
      change (fun r : row => cell_eqb (status r) "active") with Listing.active.
      rewrite E. cbn. tauto.
Qed.

End BookingsMore.

Lemma cancel_section_outcome_witness :
  exists r,
    In r Bookings.listing_example /\ Bookings.status r = Some "active"%string /\
    let call := @run_procedure JournalServer Bookings.cancel_sql
                  [VInt (Bookings.booking_id r)] (server fresh) in
    let out := @Bookings.cancel_section JournalServer Bookings.label_example
                 Bookings.listing_example 0 true fresh in
    sent (fst out) = sent fresh ++ calls_of (fst call) /\
    match snd call with
    | Ok _ =>
        snd out = Raise RerunException /\
        server (fst out) = server_after (server fresh) (fst call) /\
        screen (fst out) = screen fresh ++ [st_success Bookings.cancelled_message]
    | Raise e =>
        server (fst out) = server fresh /\
        if is_Exception e
        then snd out = Ok tt /\
             screen (fst out) = screen fresh ++ [st_error (error_text e)]
        else snd out = Raise e /\ screen (fst out) = screen fresh
    end.
Proof.
  apply (@cancel_section_outcome JournalServer Bookings.label_example
           Bookings.listing_example 0%nat fresh
           (Bookings.mkRow 7 "Ivan Petrov" 101 739000 739003 6000
              (Some "active"%string))).
  - left; reflexivity.
  - reflexivity.
Defined.


Lemma cancel_section_cancels_listed_witness :
  exists r,
    [VInt 7] = [VInt (Bookings.booking_id r)] /\
    In r (Listing.view_df "active" Bookings.listing_example) /\
    In r (Listing.view_df Listing.all_label Bookings.listing_example) /\
    ~ In r (Listing.view_df "cancelled" Bookings.listing_example).
Proof.
  apply (@cancel_section_cancels_listed JournalServer Bookings.label_example
           Bookings.listing_example 0%nat true fresh Bookings.cancel_sql [VInt 7]).
  - vm_compute. left; reflexivity.
  - intros [].
Defined.

(* ================================================================= *)
(** * More on the dashboard *)

Section DashboardMore.
Import Dashboard.

(** The counts of the occupancy summary stay between zero and the
    number of rooms. *)
Theorem occupancy_bounds (rooms_df : list (option string)) :
  0 <= occupied_rooms rooms_df <= total_rooms rooms_df /\
  0 <= free_rooms rooms_df <= total_rooms rooms_df.
Proof.
  unfold free_rooms, occupied_rooms, total_rooms.
  rewrite sum_mask_count.
  pose proof (filter_length_split (fun st => cell_eqb st occupied_label) rooms_df) as H.
  set (occupied := List.length (filter _ rooms_df)) in *.
  set (others := List.length (filter _ rooms_df)) in H.
  lia.
Qed.

Lemma sum_mask_perm {A} (f : A -> bool) (l l' : list A) :
  Permutation l l' -> sum_mask (map f l) = sum_mask (map f l').
Proof.
  induction 1; cbn [map sum_mask]; try lia.
Qed.

Lemma sum_filter_perm {A} (f : A -> bool) (g : A -> Z) (l l' : list A) :
  Permutation l l' -> sum (map g (filter f l)) = sum (map g (filter f l')).
Proof.
  induction 1 as [| x l l' _ IH | x y l | l l' l'' _ IH1 _ IH2]; cbn [filter]; try lia.
  - destruct (f x); cbn [map sum]; lia.
  - destruct (f x), (f y); cbn [map sum]; lia.
Qed.

Lemma type_total_perm (bookings bookings' : list booking) (rooms : list room)
    (room_types : list room_type) (name : string) :
  Permutation bookings bookings' ->
  type_total bookings rooms room_types name
  = type_total bookings' rooms room_types name.
Proof.
  induction 1; cbn [type_total]; lia.
Qed.

Lemma where_active_joined_perm (bookings bookings' : list booking) (rooms : list room)
    (room_types : list room_type) :
  Permutation bookings bookings' ->
  Permutation (where_active (joined bookings rooms room_types))
    (where_active (joined bookings' rooms room_types)).
Proof.
  intros H. unfold where_active, joined.
  induction H as [| x l l' _ IH | x y l | l l' l'' _ IH1 _ IH2]; cbn [flat_map].
  - constructor.
  - rewrite !filter_app. apply Permutation_app_head. exact IH.
  - rewrite !filter_app. rewrite !app_assoc.
    apply Permutation_app_tail. apply Permutation_app_comm.
  - eapply Permutation_trans; eassumption.
Qed.

(** The queries of the dashboard have no ORDER BY.  Rows that come back
    in another order give the same counts and the same bars, and the
    same revenue when [total_cost] is an INTEGER column, whose sum is
    exact modulo [2^64].  (The sum of a NUMERIC column is rounded at
    each step, and [revenue_row_order_example] shows two orders of the
    same rows with two sums.) *)
Theorem dashboard_ignores_row_order (order : float -> list float -> plan)
    (ty : sql_type) (rooms_df rooms_df' : list (option string))
    (bookings bookings' : list booking) (rooms : list room)
    (room_types : list room_type) :
  Permutation rooms_df rooms_df' ->
  Permutation bookings bookings' ->
  total_rooms rooms_df = total_rooms rooms_df' /\
  occupied_rooms rooms_df = occupied_rooms rooms_df' /\
  free_rooms rooms_df = free_rooms rooms_df' /\
  active_bookings (bookings_df ty bookings) = active_bookings (bookings_df ty bookings') /\
  (ty = SqlInteger ->
   revenue order (bookings_df ty bookings) = revenue order (bookings_df ty bookings')) /\
  forall name v,
    In (name, v) (rev_df ty bookings rooms room_types) <->
    In (name, v) (rev_df ty bookings' rooms room_types).
Proof.
  intros Hr Hb.
  assert (Ht : total_rooms rooms_df = total_rooms rooms_df').
  { unfold total_rooms. rewrite (Permutation_length Hr). reflexivity. }
  assert (Ho : occupied_rooms rooms_df = occupied_rooms rooms_df').
  { unfold occupied_rooms. apply sum_mask_perm. assumption. }
  assert (Hbd : Permutation (bookings_df ty bookings) (bookings_df ty bookings')).
  { unfold bookings_df. apply Permutation_map. assumption. }
  repeat split; try assumption.
  - unfold free_rooms. lia.
  - unfold active_bookings. apply sum_mask_perm. assumption.
  - intros ->. rewrite !revenue_integer, <- !sum_active.
    rewrite (sum_filter_perm _ total_cost _ _ Hb). reflexivity.
  - rewrite !in_rev_df. intros [[x [Hin Hn]] ->]. split.
    + exists x. split; [|assumption].
      eapply Permutation_in; [|exact Hin].
      apply where_active_joined_perm. assumption.
    + f_equal. apply type_total_perm. assumption.
  - rewrite !in_rev_df. intros [[x [Hin Hn]] ->]. split.
    + exists x. split; [|assumption].
      eapply Permutation_in; [|exact Hin].
      apply where_active_joined_perm. apply Permutation_sym. assumption.
    + f_equal. apply type_total_perm. apply Permutation_sym. assumption.
Qed.

Lemma rev_df_nil (ty : sql_type) (bookings : list booking) (rooms : list room)
    (room_types : list room_type) :
  (forall b r rt,
     In b bookings -> In r rooms -> In rt room_types ->
     b_room_id b = room_id r -> r_type_id r = type_id rt ->
     status b <> Some "active"%string) ->
  rev_df ty bookings rooms room_types = [].
Proof.
  intros Hnone.
  destruct (rev_df ty bookings rooms room_types) as [| [name total] rest] eqn:E;
    [reflexivity|].
  exfalso.
  assert (Hin : In (name, total) (rev_df ty bookings rooms room_types))
    by (rewrite E; left; reflexivity).
  apply in_rev_df in Hin. destruct Hin as [[[[b r] rt] [Hin _]] _].
  apply filter_In in Hin. destruct Hin as [Hj Hact].
  apply in_joined in Hj. destruct Hj as [Hb [Hr [Ht [E1 E2]]]].
  apply (Hnone b r rt Hb Hr Ht E1 E2).
  cbn [fst] in Hact. unfold cell_eqb in Hact.
  destruct (status b) as [st |]; [|discriminate].
  apply String.eqb_eq in Hact. congruence.
Qed.

(** The chart gives way to the notice "no active bookings" exactly when
    no active booking is in a room that has a type; bookings whose room
    or type is missing do not count. *)
Theorem rev_df_empty_iff (ty : sql_type) (bookings : list booking)
    (rooms : list room) (room_types : list room_type) :
  rev_df ty bookings rooms room_types = [] <->
  forall b r rt,
    In b bookings -> In r rooms -> In rt room_types ->
    b_room_id b = room_id r -> r_type_id r = type_id rt ->
    status b <> Some "active"%string.
Proof.
  split.
  - intros Hempty b r rt Hb Hr Ht E1 E2 Hact.
    assert (Hin : In (type_name rt,
                      cell_of ty (type_total bookings rooms room_types (type_name rt)))
                    (rev_df ty bookings rooms room_types)).
    { apply in_rev_df. split; [|reflexivity]. exists (b, r, rt). split; [|reflexivity].
      apply filter_In. split; [apply in_joined; auto|].
      cbn [fst]. rewrite Hact. reflexivity. }
    rewrite Hempty in Hin. destruct Hin.
  - apply rev_df_nil.
Qed.

Lemma sum_mask_zero {A} (f : A -> bool) (l : list A) :
  sum_mask (map f l) = 0 -> forall x, In x l -> f x = false.
Proof.
  rewrite sum_mask_count. intros H x Hin.
  destruct (f x) eqn:E; [|reflexivity]. exfalso.
  assert (Hx : In x (filter f l)) by (apply filter_In; auto).
  destruct (filter f l); [destruct Hx | cbn in H; lia].
Qed.

Lemma filter_none {A} (f : A -> bool) (l : list A) :
  (forall x, In x l -> f x = false) -> filter f l = [].
Proof.
  induction l as [| x l IH]; intros H; cbn [filter]; [reflexivity|].
  rewrite (H x (or_introl eq_refl)). apply IH. intros y Hy. apply H. right; assumption.
Qed.

(** With no active booking counted, the revenue is zero and the chart
    is empty, whatever the type of the column and the order of the
    sum. *)
Theorem no_active_bookings (order : float -> list float -> plan) (ty : sql_type)
    (bookings : list booking) (rooms : list room) (room_types : list room_type) :
  active_bookings (bookings_df ty bookings) = 0 ->
  number_value (revenue order (bookings_df ty bookings)) = Some 0%Q /\
  rev_df ty bookings rooms room_types = [].
Proof.
  intros H0. unfold active_bookings, bookings_df in H0. rewrite map_map in H0.
  cbn [fst] in H0. pose proof (sum_mask_zero _ _ H0) as Hnone. cbv beta in Hnone.
  split.
  - rewrite revenue_cells, (filter_none _ _ Hnone). unfold series_sum.
    destruct (forallb is_int _); reflexivity.
  - apply rev_df_nil. intros b r rt Hb _ _ _ _ Hact.
    specialize (Hnone b Hb). rewrite Hact in Hnone. discriminate.
Qed.

(** With every booking in one room of one type, the totals the database
    computes for the bars add up to the total of the active bookings;
    and in an INTEGER column, where nothing is rounded, the bars shown
    add up to the revenue shown as long as it fits in 64 bits. *)
Theorem rev_df_adds_up_to_revenue (order : float -> list float -> plan)
    (bookings : list booking) (rooms : list room) (room_types : list room_type) :
  (forall b, In b bookings -> join_rows b rooms room_types = 1) ->
  sum (map snd (revenue_query bookings rooms room_types)) = active_total bookings /\
  (- 2 ^ 63 <= active_total bookings < 2 ^ 63 ->
   revenue order (bookings_df SqlInteger bookings)
   = NInt (sum (map int_of (map snd (rev_df SqlInteger bookings rooms room_types))))).
Proof.
  intros Hone. pose proof (revenue_query_adds_up _ _ _ Hone) as Hsum.
  split; [assumption|]. intros Hfit.
  rewrite revenue_integer, wrap64_small by assumption.
  unfold rev_df. rewrite !map_map. cbn [snd cell_of int_of].
  rewrite <- Hsum. rewrite <- (map_map snd (fun z => z)), map_id. reflexivity.
Qed.

End DashboardMore.

Lemma dashboard_ignores_row_order_witness :
  let rooms_df := [Some Dashboard.occupied_label; Some Dashboard.free_label] in
  let rooms_df' := [Some Dashboard.free_label; Some Dashboard.occupied_label] in
  let bookings := Dashboard.cents_example in
  let bookings' := rev Dashboard.cents_example in
  Dashboard.total_rooms rooms_df = Dashboard.total_rooms rooms_df' /\
  Dashboard.occupied_rooms rooms_df = Dashboard.occupied_rooms rooms_df' /\
  Dashboard.free_rooms rooms_df = Dashboard.free_rooms rooms_df' /\
  Dashboard.active_bookings (Dashboard.bookings_df Dashboard.SqlInteger bookings)
  = Dashboard.active_bookings (Dashboard.bookings_df Dashboard.SqlInteger bookings') /\
  (Dashboard.SqlInteger = Dashboard.SqlInteger ->
   Dashboard.revenue Dashboard.sequential
     (Dashboard.bookings_df Dashboard.SqlInteger bookings)
   = Dashboard.revenue Dashboard.sequential
       (Dashboard.bookings_df Dashboard.SqlInteger bookings')) /\
  forall name v,
    In (name, v)
      (Dashboard.rev_df Dashboard.SqlInteger bookings Dashboard.rooms_example
         Dashboard.room_types_example) <->
    In (name, v)
      (Dashboard.rev_df Dashboard.SqlInteger bookings' Dashboard.rooms_example
         Dashboard.room_types_example).
Proof.
  apply (dashboard_ignores_row_order Dashboard.sequential Dashboard.SqlInteger
           [Some Dashboard.occupied_label; Some Dashboard.free_label]
           [Some Dashboard.free_label; Some Dashboard.occupied_label]
           Dashboard.cents_example (rev Dashboard.cents_example)
           Dashboard.rooms_example Dashboard.room_types_example).
  - apply perm_swap.
  - apply Permutation_rev.
Defined.

Lemma no_active_bookings_witness :
  number_value
    (Dashboard.revenue Dashboard.sequential
       (Dashboard.bookings_df (Dashboard.SqlNumeric 2)
          [Dashboard.mkBooking 8 2 1 739010 739011 200000 (Some "cancelled"%string)]))
  = Some 0%Q /\
  Dashboard.rev_df (Dashboard.SqlNumeric 2)
    [Dashboard.mkBooking 8 2 1 739010 739011 200000 (Some "cancelled"%string)]
    Dashboard.rooms_example Dashboard.room_types_example = [].
Proof.
  apply (no_active_bookings Dashboard.sequential (Dashboard.SqlNumeric 2)
           [Dashboard.mkBooking 8 2 1 739010 739011 200000 (Some "cancelled"%string)]
           Dashboard.rooms_example Dashboard.room_types_example).
  reflexivity.
Defined.

Lemma rev_df_adds_up_to_revenue_witness :
  Dashboard.sum
    (map snd (Dashboard.revenue_query Dashboard.cents_example Dashboard.rooms_example
                Dashboard.room_types_example))
  = Dashboard.active_total Dashboard.cents_example /\
  (- 2 ^ 63 <= Dashboard.active_total Dashboard.cents_example < 2 ^ 63 ->
   Dashboard.revenue Dashboard.sequential
     (Dashboard.bookings_df Dashboard.SqlInteger Dashboard.cents_example)
   = NInt (Dashboard.sum
             (map Dashboard.int_of
                (map snd (Dashboard.rev_df Dashboard.SqlInteger Dashboard.cents_example
                            Dashboard.rooms_example Dashboard.room_types_example))))).
Proof.
  apply (rev_df_adds_up_to_revenue Dashboard.sequential Dashboard.cents_example
           Dashboard.rooms_example Dashboard.room_types_example).
  intros b [<- | [<- | [<- | []]]]; reflexivity.
Defined.

(* ================================================================= *)
(** * The list of rooms *)

Section RoomsFacts.
Import Rooms.

Lemma rooms_table_length (fmt : number -> string) (filter_status : string)
    (df : list row) :
  List.length (rooms_table fmt filter_status df)
  = List.length (filtered filter_status df).
Proof. unfold rooms_table. rewrite !length_map. reflexivity. Qed.

Lemma filter_status_length (label : string) (df : list row) :
  List.length (filter (fun r => cell_eqb (status r) label) df)
  = List.length (filter (fun st => cell_eqb st label) (map status df)).
Proof.
  induction df as [| r df IH]; cbn [map filter]; [reflexivity|].
  destruct (cell_eqb (status r) label); cbn [List.length]; rewrite IH; reflexivity.
Qed.

(** The list of rooms and the dashboard count alike: the table under
    the filter "Занят" has as many rows as the dashboard counts occupied
    rooms, the table under "Свободен" has at most as many rows as the
    dashboard counts free rooms, and "Все" shows every room. *)
Theorem rooms_table_agrees_with_dashboard (fmt : number -> string) (df : list row) :
  Z.of_nat (List.length (rooms_table fmt Dashboard.occupied_label df))
  = Dashboard.occupied_rooms (map status df) /\
  Z.of_nat (List.length (rooms_table fmt Dashboard.free_label df))
  <= Dashboard.free_rooms (map status df) /\
  List.length (rooms_table fmt all_label df) = List.length df.
Proof.
  rewrite !rooms_table_length. unfold filtered. cbn [String.eqb negb].
  assert (Ho : (Dashboard.occupied_label =? all_label)%string = false) by reflexivity.
  assert (Hf : (Dashboard.free_label =? all_label)%string = false) by reflexivity.
  assert (Ha : (all_label =? all_label)%string = true) by reflexivity.
  rewrite Ho, Hf, Ha. cbn [negb]. rewrite !filter_status_length.
  repeat split.
  - unfold Dashboard.occupied_rooms. rewrite sum_mask_count. reflexivity.
  - pose proof (free_label_not_occupied (map status df)) as H1.
    pose proof (filter_length_split
                  (fun st => cell_eqb st Dashboard.occupied_label) (map status df)) as H2.
    unfold Dashboard.free_rooms, Dashboard.occupied_rooms, Dashboard.total_rooms.
    rewrite sum_mask_count.
    set (free := List.length (filter (fun st => cell_eqb st Dashboard.free_label) _)) in *.
    set (occupied := List.length (filter (fun st => cell_eqb st Dashboard.occupied_label) _)) in *.
    set (others := List.length (filter _ (map status df))) in H1, H2.
    lia.
Qed.

Lemma two_filters_length (df : list row) :
  (List.length (filtered Dashboard.free_label df)
   + List.length (filtered Dashboard.occupied_label df) <= List.length df)%nat /\
  ((List.length (filtered Dashboard.free_label df)
    + List.length (filtered Dashboard.occupied_label df) = List.length df)%nat <->
   Forall (fun r => status r = Some Dashboard.free_label \/
                    status r = Some Dashboard.occupied_label) df).
Proof.
  unfold filtered.
  assert (Ho : (Dashboard.occupied_label =? all_label)%string = false) by reflexivity.
  assert (Hf : (Dashboard.free_label =? all_label)%string = false) by reflexivity.
  rewrite Ho, Hf. cbn [negb].
  induction df as [| r df [IHle IHeq]]; cbn [filter List.length].
  - split; [lia|]. split; [constructor | reflexivity].
  - assert (Hcases :
      (cell_eqb (status r) Dashboard.free_label = true /\
       cell_eqb (status r) Dashboard.occupied_label = false /\
       status r = Some Dashboard.free_label) \/
      (cell_eqb (status r) Dashboard.free_label = false /\
       cell_eqb (status r) Dashboard.occupied_label = true /\
       status r = Some Dashboard.occupied_label) \/
      (cell_eqb (status r) Dashboard.free_label = false /\
       cell_eqb (status r) Dashboard.occupied_label = false /\
       status r <> Some Dashboard.free_label /\
       status r <> Some Dashboard.occupied_label)).
    { destruct (status r) as [st |]; cbn [cell_eqb].
      - destruct (String.eqb st Dashboard.free_label) eqn:E1.
        + apply String.eqb_eq in E1. subst st. left. auto.
        + destruct (String.eqb st Dashboard.occupied_label) eqn:E2.
          * apply String.eqb_eq in E2. subst st. right; left. auto.
          * apply String.eqb_neq in E1, E2. right; right.
            repeat split; congruence.
      - right; right. repeat split; discriminate. }
    set (a := List.length (filter (fun r => cell_eqb (status r) Dashboard.free_label) df)) in *.
    set (b := List.length (filter (fun r => cell_eqb (status r) Dashboard.occupied_label) df)) in *.
    destruct Hcases as [[H1 [H2 H3]] | [[H1 [H2 H3]] | [H1 [H2 [H3 H4]]]]];
      rewrite H1, H2; cbn [List.length]; fold a; fold b.
    + split; [lia|]. split.
      * intros H. constructor; [auto|]. apply IHeq. lia.
      * intros H. inversion H; subst. apply IHeq in H6. lia.
    + split; [lia|]. split.
      * intros H. constructor; [auto|]. apply IHeq. lia.
      * intros H. inversion H; subst. apply IHeq in H6. lia.
    + split; [lia|]. split.
      * intros H. lia.
      * intros H. inversion H; subst. tauto.
Qed.

(** The filters "Свободен" and "Занят" share out the rooms only when
    every status is one of the two labels: a room with another status,
    or with none, is in the list under "Все" and under no other filter. *)
Theorem rooms_filters_cover_iff (fmt : number -> string) (df : list row) :
  (List.length (rooms_table fmt Dashboard.free_label df)
   + List.length (rooms_table fmt Dashboard.occupied_label df)
   = List.length (rooms_table fmt all_label df))%nat <->
  Forall (fun r => status r = Some Dashboard.free_label \/
                   status r = Some Dashboard.occupied_label) df.
Proof.
  rewrite !rooms_table_length.
  replace (List.length (filtered all_label df)) with (List.length df) by reflexivity.
  apply two_filters_length.
Qed.

(** The badge and the dashboard read a status that is neither label in
    opposite ways: the dashboard counts the room as free, the badge
    marks it as occupied. *)
Theorem badge_and_dashboard_on_other_status (st : option string) :
  st <> Some Dashboard.free_label ->
  st <> Some Dashboard.occupied_label ->
  Dashboard.free_rooms [st] = 1 /\
  Dashboard.occupied_rooms [st] = 0 /\
  status_badge st
  = ("<span class=" ++ quote ++ "badge-occupied" ++ quote ++ ">"
     ++ match st with Some s => s | None => "None" end ++ "</span>")%string.
Proof.
  intros Hf Ho.
  assert (Hfb : cell_eqb st Dashboard.free_label = false).
  { destruct st as [s |]; [|reflexivity]. cbn. apply String.eqb_neq. congruence. }
  assert (Hob : cell_eqb st Dashboard.occupied_label = false).
  { destruct st as [s |]; [|reflexivity]. cbn. apply String.eqb_neq. congruence. }
  unfold Dashboard.free_rooms, Dashboard.occupied_rooms, Dashboard.total_rooms,
    status_badge.
  cbn [map Dashboard.sum_mask List.length].
  change (cell_eqb st "Свободен") with (cell_eqb st Dashboard.free_label).
  rewrite Hfb, Hob. repeat split.
Qed.

End RoomsFacts.

Lemma badge_and_dashboard_on_other_status_witness :
  Dashboard.free_rooms [None] = 1 /\
  Dashboard.occupied_rooms [None] = 0 /\
  Rooms.status_badge None
  = ("<span class=" ++ Rooms.quote ++ "badge-occupied" ++ Rooms.quote ++ ">"
     ++ "None" ++ "</span>")%string.
Proof.
  apply (badge_and_dashboard_on_other_status None); discriminate.
Defined.

(* ================================================================= *)
(** * More on the history page *)

Section HistoryMore.
Import History.
Variable lower : N -> N.

Lemma sum_mask_filter {A} (f p : A -> bool) (l : list A) :
  0 <= Dashboard.sum_mask (map f (filter p l)) <= Dashboard.sum_mask (map f l).
Proof.
  induction l as [| x l IH]; cbn [filter map Dashboard.sum_mask]; [lia|].
  destruct (p x); cbn [map Dashboard.sum_mask]; destruct (f x); lia.
Qed.

Lemma history_search_rows (search : str) (df rows : list entry) :
  history_search lower search df = Some (Ok rows) ->
  (search = [] /\ rows = df) \/
  (search <> [] /\
   exists atoms, rows = filter (fun e => str_contains lower atoms (guest e)) df).
Proof.
  unfold history_search. destruct search as [| c r]; [intros H; inversion H; auto|].
  destruct (re_compile (c :: r)) as [atoms | e |]; try discriminate.
  intros H; inversion H. right. split; [discriminate | eauto].
Qed.

(** A table that [history_search] gives is the table of some compiled
    pattern. *)
Lemma history_search_table (search : str) (df rows : list entry) :
  history_search lower search df = Some (Ok rows) ->
  exists found, rows = history_table search found df.
Proof.
  intros H. destruct (history_search_rows _ _ _ H) as [[-> ->] | [Hne [atoms ->]]].
  - exists (fun _ => true). reflexivity.
  - exists (re_search lower atoms). destruct search; [congruence | reflexivity].
Qed.

(** Whatever the search and whatever its compiled pattern matches, the
    table of the history page shows rows of the view, and the two
    figures under it are counted on the rows shown: the cancellations
    are at most the actions shown, and neither figure exceeds its value
    for the whole view. *)
Theorem history_figures_bounds (search : str) (found : str -> bool)
    (df : list entry) :
  (forall e, In e (history_table search found df) -> In e df) /\
  0 <= HistoryStats.cancelled_actions (history_table search found df)
    <= HistoryStats.total_actions (history_table search found df) /\
  HistoryStats.total_actions (history_table search found df)
  <= HistoryStats.total_actions df /\
  HistoryStats.cancelled_actions (history_table search found df)
  <= HistoryStats.cancelled_actions df.
Proof.
  assert (Hc : forall l : list entry,
            0 <= HistoryStats.cancelled_actions l <= HistoryStats.total_actions l).
  { intros l. unfold HistoryStats.cancelled_actions, HistoryStats.total_actions.
    rewrite sum_mask_count.
    pose proof (filter_length_le (fun e => cell_eqb (action e) "cancelled") l). lia. }
  unfold history_table. destruct search as [| c r].
  - repeat split; try apply Hc; auto; lia.
  - set (keep := fun e : entry => match guest e with
                                  | Some s => found s
                                  | None => false
                                  end).
    repeat split; try apply Hc.
    + intros e He. apply filter_In in He. tauto.
    + unfold HistoryStats.total_actions.
      pose proof (filter_length_le keep df). lia.
    + unfold HistoryStats.cancelled_actions. apply sum_mask_filter.
Qed.


Lemma match_here_lower (p1 p2 s : str) :
  map lower p1 = map lower p2 ->
  match_here lower (map Lit p1) s = match_here lower (map Lit p2) s.
Proof.
  revert p2 s. induction p1 as [| c p1 IH]; intros [| d p2] s H; try discriminate.
  - reflexivity.
  - cbn [map] in H. inversion H. cbn [map match_here].
    destruct s as [| x s]; [reflexivity|].
    cbn [atom_matches]. rewrite (IH p2 s) by assumption. congruence.
Qed.

Lemma re_search_lower (p1 p2 s : str) :
  map lower p1 = map lower p2 ->
  re_search lower (map Lit p1) s = re_search lower (map Lit p2) s.
Proof.
  intros H. induction s as [| x s IH]; cbn [re_search];
    rewrite (match_here_lower p1 p2) by assumption; [reflexivity|].
  rewrite IH. reflexivity.
Qed.

(** [case=False]: two search strings without [re] operators that differ
    in letter case only show the same rows. *)
Theorem history_search_ignores_case (s1 s2 : str) (df : list entry) :
  forallb (fun c => negb (is_special c)) s1 = true ->
  forallb (fun c => negb (is_special c)) s2 = true ->
  map lower s1 = map lower s2 ->
  history_search lower s1 df = history_search lower s2 df.
Proof.
  intros H1 H2 Hl. unfold history_search.
  destruct s1 as [| c1 r1], s2 as [| c2 r2]; try discriminate; [reflexivity|].
  rewrite (re_compile_plain _ H1), (re_compile_plain _ H2).
  do 2 f_equal. apply filter_ext. intros e. unfold str_contains.
  destruct (guest e) as [s |]; [|reflexivity].
  apply re_search_lower. assumption.
Qed.

(** A longer search string narrows the result: when a string without
    [re] operators occurs in another one, letter case apart, every row
    shown for the longer one is shown for the shorter one. *)
Theorem history_search_narrows (s1 s2 : str) (df rows1 rows2 : list entry) :
  s1 <> [] ->
  forallb (fun c => negb (is_special c)) s1 = true ->
  forallb (fun c => negb (is_special c)) s2 = true ->
  ci_substring lower s1 s2 ->
  history_search lower s1 df = Some (Ok rows1) ->
  history_search lower s2 df = Some (Ok rows2) ->
  forall e, In e rows2 -> In e rows1.
Proof.
  intros Hne H1 H2 [p [q Hsub]] Hr1 Hr2 e He.
  assert (Hne2 : s2 <> []).
  { intros ->. cbn in Hsub. destruct s1; [congruence|].
    destruct p; discriminate. }
  unfold history_search in Hr1, Hr2.
  destruct s1 as [| c1 r1] eqn:E1; [congruence|]. rewrite <- E1 in *.
  destruct s2 as [| c2 r2] eqn:E2; [congruence|]. rewrite <- E2 in *.
  rewrite (re_compile_plain _ H1) in Hr1. rewrite (re_compile_plain _ H2) in Hr2.
  inversion Hr1; inversion Hr2; subst rows1 rows2.
  apply filter_In in He. destruct He as [Hin Hm]. apply filter_In.
  split; [assumption|]. unfold str_contains in *.
  destruct (guest e) as [s |]; [|discriminate].
  apply re_search_plain in Hm. apply re_search_plain.
  destruct Hm as [pre [post Hs]]. exists (pre ++ p), (q ++ post).
  rewrite Hs, Hsub. rewrite <- !app_assoc. reflexivity.
Qed.

End HistoryMore.

Lemma history_search_plain_witness :
  exists rows,
    History.history_search History.ascii_lower (History.of_string "iva") [History.ivan]
    = Some (Ok rows) /\
    forall e, In e rows <->
              In e [History.ivan] /\
              exists s, History.guest e = Some s /\
                        History.ci_substring History.ascii_lower
                          (History.of_string "iva") s.
Proof.
  apply (history_search_plain History.ascii_lower (History.of_string "iva")
           [History.ivan]).
  - discriminate.
  - reflexivity.
Defined.


(** The anonymous entry is dropped even by a pattern found in every
    name, and the figures follow the table. *)
Lemma history_table_example :
  History.history_table (History.of_string "a|b") (fun _ => true)
    [History.ivan; History.anonymous] = [History.ivan] /\
  HistoryStats.total_actions
    (History.history_table (History.of_string "a|b") (fun _ => true)
       [History.ivan; History.anonymous]) = 1 /\
  HistoryStats.cancelled_actions [History.ivan; History.anonymous] = 1 /\
  HistoryStats.cancelled_actions
    (History.history_table (History.of_string "a|b") (fun _ => true)
       [History.ivan; History.anonymous]) = 0.
Proof. repeat split; vm_compute; reflexivity. Qed.

Lemma history_search_ignores_case_witness :
  History.history_search History.ascii_lower (History.of_string "IVAN") [History.ivan]
  = History.history_search History.ascii_lower (History.of_string "ivan") [History.ivan].
Proof.
  apply (history_search_ignores_case History.ascii_lower).
  - reflexivity.
  - reflexivity.
  - reflexivity.
Defined.

Lemma history_search_narrows_witness :
  In History.ivan [History.ivan].
Proof.
  apply (history_search_narrows History.ascii_lower
           (History.of_string "va") (History.of_string "Ivan")
           [History.ivan] [History.ivan] [History.ivan]).
  - discriminate.
  - reflexivity.
  - reflexivity.
  - exists (map History.ascii_lower (History.of_string "I")),
      (map History.ascii_lower (History.of_string "n")). reflexivity.
  - reflexivity.
  - reflexivity.
  - left; reflexivity.
Defined.

(* ================================================================= *)
(** * The menu *)

(** Every entry of the menu opens a page, the first one by default, and
    every page has its entry: no choice falls through the chain of
    [if choice == ...], no branch of it is out of reach. *)
Theorem menu_opens_every_page :
  (forall picked, exists p, Menu.opened picked = Some p) /\
  (forall p, exists picked, Menu.opened picked = Some p) /\
  (forall picked, (6 <= picked)%nat -> Menu.opened picked = Some Menu.dashboard).
Proof.
  assert (Hover : forall picked, (6 <= picked)%nat ->
                    Menu.opened picked = Some Menu.dashboard).
  { intros picked H. unfold Menu.opened, Menu.choice, selectbox.
    cbn [map Menu.menu_options fst]. rewrite nth_overflow by (cbn; lia).
    vm_compute. reflexivity. }
  split; [|split; [|exact Hover]].
  - intros picked.
    destruct (Nat.lt_ge_cases picked 6) as [Hlt | Hge]; [|rewrite Hover; eauto].
    do 6 (destruct picked as [| picked]; [vm_compute; eauto|]). lia.
  - intros [].
    + exists 0%nat. vm_compute. reflexivity.
    + exists 1%nat. vm_compute. reflexivity.
    + exists 2%nat. vm_compute. reflexivity.
    + exists 3%nat. vm_compute. reflexivity.
    + exists 4%nat. vm_compute. reflexivity.
    + exists 5%nat. vm_compute. reflexivity.
Qed.
